(** * cxx-compiler-explorer: the compile-command registry and the
      disassembly document, embedded from [src/compile_commands.ts] and
      [src/document.ts].

    Strings are Rocq strings over 8-bit characters, read as Latin-1 code
    points.  Times (file modification times, [Date] values) are integers.
    JavaScript code that throws is modelled by an outcome type that keeps
    the state reached at the throw. *)

From Stdlib Require Import String Ascii List ZArith NArith Bool Lia.
From Stdlib Require Import DecimalString.
From stdpp Require Import gmap strings fin_maps.
Import ListNotations.

Local Open Scope string_scope.
Local Open Scope list_scope.

(** ** JavaScript string and array helpers *)

Module Js.

(** [Array.prototype.join]. *)
Fixpoint join (sep : string) (l : list string) : string :=
  match l with
  | [] => ""
  | [x] => x
  | x :: rest => x +:+ sep +:+ join sep rest
  end.

(** [Array.prototype.filter] with a callback that keeps a mutable variable
    of its closure: the callback is a step function on that variable. *)
Fixpoint filterSt {A S : Type} (cb : S -> A -> bool * S) (s : S) (l : list A)
  : list A :=
  match l with
  | [] => []
  | x :: rest =>
      let '(keep, s') := cb s x in
      if keep then x :: filterSt cb s' rest else filterSt cb s' rest
  end.

(** The closure variable after the callback has seen the whole array. *)
Fixpoint finalSt {A S : Type} (cb : S -> A -> bool * S) (s : S) (l : list A)
  : S :=
  match l with
  | [] => s
  | x :: rest => finalSt cb (snd (cb s x)) rest
  end.

(** The keep/drop decision the callback takes at every index. *)
Fixpoint keepMask {A S : Type} (cb : S -> A -> bool * S) (s : S) (l : list A)
  : list bool :=
  match l with
  | [] => []
  | x :: rest => fst (cb s x) :: keepMask cb (snd (cb s x)) rest
  end.

Definition chars (s : string) : list ascii := list_ascii_of_string s.
Definition str (l : list ascii) : string := string_of_list_ascii l.

Definition isQuote (c : ascii) : bool := Ascii.eqb c "034"%char.
Definition isBackslash (c : ascii) : bool := Ascii.eqb c "\"%char.

(** The regular expression class [\s] on Latin-1: tab, line feed, vertical
    tab, form feed, carriage return, space and no-break space. *)
Definition isSpace (c : ascii) : bool :=
  let n := nat_of_ascii c in
  ((9 <=? n)%nat && (n <=? 13)%nat) || (n =? 32)%nat || (n =? 160)%nat.

(** [s.replace(/\//g, '@')]. *)
Definition replaceSlashes (s : string) : string :=
  str (map (fun c => if Ascii.eqb c "/"%char then "@"%char else c) (chars s)).

(** [s.lastIndexOf(".")], [None] for the result -1. *)
Fixpoint lastIndexOfDot (i : nat) (l : list ascii) : option nat :=
  match l with
  | [] => None
  | c :: rest =>
      match lastIndexOfDot (S i) rest with
      | Some j => Some j
      | None => if Ascii.eqb c "."%char then Some i else None
      end
  end.

(** [s.slice(s.lastIndexOf("."), s.length)]: a negative start counts from
    the end, so -1 selects the last character. *)
Definition sliceFromLastDot (s : string) : string :=
  let l := chars s in
  match lastIndexOfDot 0 l with
  | Some i => str (skipn i l)
  | None => str (skipn (length l - 1) l)
  end.

(** [s.substr(-k)]: the last [k] characters, the whole string when it is
    shorter. *)
Definition substrLast (k : nat) (s : string) : string :=
  let l := chars s in str (skipn (length l - k) l).

(** [Number.prototype.toString()] of an integer. *)
Definition intToString (z : Z) : string := NilZero.string_of_int (Z.to_int z).

End Js.

(** ** The command tokenizer

    [process] splits the command string with a global regular-expression
    match: a run of characters that are neither whitespace nor a double
    quote, optionally followed by one double-quoted span in which a
    backslash may escape a double quote. *)

Module Tokenizer.
Import Js.

(** The quoted span, tried right after its opening quote: the number of
    characters it consumes, closing quote included.  Its body is one or
    more items, each an escaped quote (backslash, quote) or one character
    other than a quote; [started] says that one item has been matched.  At
    a backslash followed by a quote the escaped-quote alternative is tried
    first and the single-character one on backtracking. *)
Fixpoint quoted (started : bool) (l : list ascii) : option nat :=
  match l with
  | [] => None
  | c :: rest =>
      if isQuote c then (if started then Some 1 else None)
      else if isBackslash c then
        match rest with
        | q :: rest' =>
            if isQuote q then
              match quoted true rest' with
              | Some n => Some (2 + n)
              | None => Some 2
              end
            else option_map S (quoted true rest)
        | [] => None
        end
      else option_map S (quoted true rest)
  end.

(** The leading run of characters other than quote and whitespace. *)
Fixpoint bare (l : list ascii) : list ascii * list ascii :=
  match l with
  | c :: rest =>
      if isQuote c || isSpace c then ([], l)
      else let '(m, r) := bare rest in (c :: m, r)
  | [] => ([], [])
  end.

(** One match attempt at the head of [l]: the matched text and what
    follows it. *)
Definition exec (l : list ascii) : list ascii * list ascii :=
  let '(m, r) := bare l in
  match r with
  | c :: r' =>
      if isQuote c then
        match quoted false r' with
        | Some n => (m ++ c :: firstn n r', skipn n r')
        | None => (m, r)
        end
      else (m, r)
  | [] => (m, r)
  end.

(** All matches under the [g] flag: after an empty match the search
    resumes one character further. *)
Fixpoint matchAllFrom (fuel : nat) (l : list ascii) : list string :=
  match fuel with
  | O => []
  | S fuel' =>
      let '(m, r) := exec l in
      match m, r with
      | [], [] => [""]
      | [], _ :: r' => "" :: matchAllFrom fuel' r'
      | _ :: _, _ => str m :: matchAllFrom fuel' r
      end
  end.

Definition matchAll (s : string) : list string :=
  matchAllFrom (S (String.length s)) (chars s).

End Tokenizer.

(** ** Node's [path] module on POSIX *)

Module Path.
Import Js.

(** Split at every slash. *)
Fixpoint splitAcc (cur : list ascii) (l : list ascii) : list string :=
  match l with
  | [] => [str (rev cur)]
  | c :: rest =>
      if Ascii.eqb c "/"%char then str (rev cur) :: splitAcc [] rest
      else splitAcc (c :: cur) rest
  end.

Definition segments (p : string) : list string := splitAcc [] (chars p).

(** Normalisation of the segments of an absolute path: empty and [.]
    segments vanish, [..] removes the segment before it.  [stack] is the
    path so far, innermost segment first. *)
Fixpoint normalize (stack : list string) (segs : list string) : list string :=
  match segs with
  | [] => rev stack
  | s :: rest =>
      if (s =? "")%string || (s =? ".")%string then normalize stack rest
      else if (s =? "..")%string then normalize (tl stack) rest
      else normalize (s :: stack) rest
  end.

Definition isAbsolute (p : string) : bool :=
  match p with
  | String c _ => Ascii.eqb c "/"%char
  | EmptyString => false
  end.

(** The normalised segments of [Path.resolve(cwd, a, b)]. *)
Definition resolveSegs (cwd a b : string) : list string :=
  if isAbsolute b then normalize [] (segments b)
  else if isAbsolute a then normalize [] (segments a ++ segments b)
  else normalize [] (segments cwd ++ segments a ++ segments b).

(** [Path.resolve(a, b)] in a process whose working directory is [cwd]. *)
Definition resolve (cwd a b : string) : string :=
  "/" +:+ join "/" (resolveSegs cwd a b).

Fixpoint dropCommon (a b : list string) : list string * list string :=
  match a, b with
  | x :: a', y :: b' => if (x =? y)%string then dropCommon a' b' else (a, b)
  | _, _ => (a, b)
  end.

(** [Path.relative(from, to)]. *)
Definition relative (cwd from to : string) : string :=
  let '(up, down) := dropCommon (resolveSegs cwd "" from) (resolveSegs cwd "" to) in
  join "/" (map (fun _ => "..") up ++ down).

End Path.

(** ** [vscode.Uri], as far as the registry uses it *)

Module Uri.

Record t := mk { scheme : string; path : string }.

(** [Uri.file(p)] for an absolute POSIX path. *)
Definition file (p : string) : t := {| scheme := "file"; path := p |}.

(** [uri.with({ scheme, path })]. *)
Definition with_ (u : t) (scheme' path' : string) : t :=
  {| scheme := scheme'; path := path' |}.

(** [uri.fsPath] on POSIX. *)
Definition fsPath (u : t) : string := path u.

End Uri.

(** The double quote character as a string. *)
Definition dq : string := String "034"%char "".

(** ** class CompileCommand *)

Module CompileCommand.
Import Js.

Record t := mk {
  file : string;
  _command : string;
  _arguments : list string;
  directory : string;
  uri : Uri.t;
  command : string;
  args : list string
}.

(** A freshly deserialized entry: the fields after [directory] hold the
    class's initial values. *)
Definition entry (file _command : string) (_arguments : list string)
    (directory : string) : t :=
  mk file _command _arguments directory (Uri.file "") "" [""].

(** The callback of [sanitizeArgs]: the closure variable [isOutfile] is the
    state, the result is the keep/drop decision and the new state. *)
Definition sanitizeStep (isOutfile : bool) (arg : string) : bool * bool :=
  if negb isOutfile then
    let isOutfile' := (arg =? "-o")%string in
    (if isOutfile' then false
     else negb (arg =? "-c")%string && negb (arg =? "-g")%string,
     isOutfile')
  else (false, false).

Definition sanitizeArgs (args : list string) : list string :=
  filterSt sanitizeStep false args.

Definition getCommand (args : list string) : string := join " " args.

(** The local [commands] of [process()]: the tokens of the command string
    when there is one, the argument list otherwise, without empty strings. *)
Definition commands (c : t) : list string :=
  List.filter (fun arg => (0 <? String.length arg)%nat)
    (if (0 <? String.length (_command c))%nat
     then Tokenizer.matchAll (_command c)
     else _arguments c).

(** [process()]; [cwd] is the working directory of the host process, which
    [Path.resolve] falls back to for a relative [directory].  An absent
    [commands[0]] prints as the empty string wherever [command] is used. *)
Definition process (cwd : string) (c : t) : t :=
  mk (file c) (_command c) (_arguments c) (directory c)
     (Uri.file (Path.resolve cwd (directory c) (file c)))
     (hd "" (commands c))
     (sanitizeArgs (tl (commands c))).

Definition getDisassembleCommand (c : t) (outFile : string) : string :=
  getCommand
    ([command c; "-g1"; "-S"; "-masm=intel"; "-fno-unwind-tables";
      "-fno-asynchronous-unwind-tables"; "-fno-dwarf2-cfi-asm"]
     ++ args c ++ ["-o"; dq +:+ outFile +:+ dq]).

Definition getPreprocessCommand (c : t) (outFile : string) : string :=
  getCommand ([command c; "-E"; "-o"; outFile] ++ args c).

Definition getLLVMDisassembleCommand (c : t) (outFile : string) : string :=
  getCommand ([command c; "-g"; "-S"; "-emit-llvm"; "-o"; outFile] ++ args c).

End CompileCommand.

(** ** class CompileInfo *)

(** Modelled from the spec: [arrayEquals] of [src/utils.ts], which is not
    among the sources.  The spec compares the current extra arguments with
    the last used ones order-sensitively: equal length and equal elements
    index by index. *)
Fixpoint arrayEquals (a b : list string) : bool :=
  match a, b with
  | [], [] => true
  | x :: a', y :: b' => (x =? y)%string && arrayEquals a' b'
  | _, _ => false
  end.

Module CompileInfo.

Record t := mk {
  uri : Uri.t;
  srcUri : Uri.t;
  command : string;
  compilationDirectory : string;
  extraArgs : list string
}.

(** The constructor: [extraArgs] starts empty. *)
Definition new (uri srcUri : Uri.t) (command compilationDirectory : string) : t :=
  mk uri srcUri command compilationDirectory [].

Definition extraArgsChanged (ci : t) (extraArgs' : list string) : bool :=
  negb (arrayEquals extraArgs' (extraArgs ci)).

(** The assignment [compileInfo.extraArgs = v]. *)
Definition setExtraArgs (ci : t) (v : list string) : t :=
  mk (uri ci) (srcUri ci) (command ci) (compilationDirectory ci) v.

End CompileInfo.

(** ** Assembly lines *)

(** Modelled from the spec: the line classes of [src/asm.ts], which is not
    among the sources.  A line has a text; a [BinaryAsmLine] also carries a
    raw numeric address, a non-negative integer. *)
Inductive AsmLine :=
| PlainAsmLine (text : string)
| BinaryAsmLine (text : string) (address : N).

(** ** The world outside the extension *)

(** What the file system and the clock show: the modification time of
    every existing path, the entries the compilation database deserializes
    to ([None] when reading or deserializing it throws), the lines the
    assembly parser yields for a file ([None] when the file cannot be read)
    and the current time. *)
Record World := mkWorld {
  mtimes : gmap string Z;
  database : option (list CompileCommand.t);
  parsedAsm : gmap string (list AsmLine);
  now : Z
}.

(** The result of [child_process.spawnSync]: [status] is [null] when the
    process did not exit by itself, [error] is set when it could not be
    started, [output] holds the captured streams, a [null] stream being
    the empty string under [join]. *)
Record SpawnResult := mkSpawn {
  status : option Z;
  error : option string;
  output : option (list string)
}.

(** The configuration and the collaborators of the registry: the resolved
    output directory ([outDir]) and database path
    ([getCompileCommandsPath()]), the workspace root, the working directory
    of the host, what running a shell command in a directory does to the
    world, and what [fs.mkdirSync] does to the modification times: it
    throws ([None]: the parent is missing, or may not be written), or
    leaves new modification times, where the new directory has been
    stamped and its parent, or any other path, may have been as well. *)
Record Env := mkEnv {
  outDir : string;
  compileCommandsPath : string;
  rootPath : string;
  cwd : string;
  spawnSync : World -> string -> string -> SpawnResult * World;
  makeDirectory : World -> string -> option (gmap string Z)
}.

(** ** The static state of class CompileCommands *)

(** [initTime] and [errorChannel] are declared without an initializer:
    they are [undefined] ([None]) until an [init] that found the database
    has assigned them.  The channel is given by the lines it shows. *)
Record Statics := mkStatics {
  compileCommands : gmap string CompileInfo.t;
  asmUriMap : gmap string Uri.t;
  llvmUriMap : gmap string Uri.t;
  preprocessUriMap : gmap string Uri.t;
  initTime : option Z;
  extraArgs : list string;
  errorChannel : option (list string)
}.

(** The whole system: the statics, the world, and the shell commands run
    so far, oldest first, each with its working directory. *)
Record Sys := mkSys {
  statics : Statics;
  world : World;
  spawned : list (string * string)
}.

(** ** Computations that read and write the system and may throw *)

Inductive Outcome (A : Type) : Type :=
| Ret (a : A) (s : Sys)
| Throw (e : string) (s : Sys).
Arguments Ret {A} a s.
Arguments Throw {A} e s.

Definition M (A : Type) : Type := Sys -> Outcome A.

Definition ret {A} (a : A) : M A := fun s => Ret a s.
Definition throw {A} (e : string) : M A := fun s => Throw e s.
Definition bind {A B} (m : M A) (k : A -> M B) : M B :=
  fun s => match m s with
           | Ret a s' => k a s'
           | Throw e s' => Throw e s'
           end.
Definition gets {A} (f : Sys -> A) : M A := fun s => Ret (f s) s.
Definition modify (f : Sys -> Sys) : M unit := fun s => Ret tt (f s).

Declare Scope m_scope.
Delimit Scope m_scope with M.
Notation "x <- c1 ;; c2" := (bind c1 (fun x => c2))
  (at level 100, c1 at next level, right associativity) : m_scope.
Notation "c1 ;; c2" := (bind c1 (fun _ => c2))
  (at level 100, right associativity) : m_scope.

Definition setStatics (f : Statics -> Statics) (s : Sys) : Sys :=
  mkSys (f (statics s)) (world s) (spawned s).
Definition setWorld (f : World -> World) (s : Sys) : Sys :=
  mkSys (statics s) (f (world s)) (spawned s).

Definition setCompileCommands (v : gmap string CompileInfo.t) (st : Statics) :=
  mkStatics v (asmUriMap st) (llvmUriMap st) (preprocessUriMap st)
            (initTime st) (extraArgs st) (errorChannel st).
Definition setAsmUriMap (v : gmap string Uri.t) (st : Statics) :=
  mkStatics (compileCommands st) v (llvmUriMap st) (preprocessUriMap st)
            (initTime st) (extraArgs st) (errorChannel st).
Definition setLlvmUriMap (v : gmap string Uri.t) (st : Statics) :=
  mkStatics (compileCommands st) (asmUriMap st) v (preprocessUriMap st)
            (initTime st) (extraArgs st) (errorChannel st).
Definition setPreprocessUriMap (v : gmap string Uri.t) (st : Statics) :=
  mkStatics (compileCommands st) (asmUriMap st) (llvmUriMap st) v
            (initTime st) (extraArgs st) (errorChannel st).
Definition setInitTime (v : option Z) (st : Statics) :=
  mkStatics (compileCommands st) (asmUriMap st) (llvmUriMap st)
            (preprocessUriMap st) v (extraArgs st) (errorChannel st).
Definition setExtraArgs (v : list string) (st : Statics) :=
  mkStatics (compileCommands st) (asmUriMap st) (llvmUriMap st)
            (preprocessUriMap st) (initTime st) v (errorChannel st).
Definition setErrorChannel (v : option (list string)) (st : Statics) :=
  mkStatics (compileCommands st) (asmUriMap st) (llvmUriMap st)
            (preprocessUriMap st) (initTime st) (extraArgs st) v.

(** ** Node's [fs] and [child_process] *)

Module Fs.

(** The modification time of a path; no file has the empty path. *)
Definition mtime (w : World) (p : string) : option Z :=
  if (p =? "")%string then None else mtimes w !! p.

Definition existsSync (p : string) : M bool :=
  gets (fun s => match mtime (world s) p with Some _ => true | None => false end).

(** [fs.statSync(p).mtime]; [statSync] throws for a missing path. *)
Definition statSync (p : string) : M Z :=
  fun s => match mtime (world s) p with
           | Some t => Ret t s
           | None => Throw "ENOENT: no such file or directory" s
           end.

(** [fs.mkdirSync(p)], not recursive: it throws, or changes the
    modification times as the host says.  The one message stands for
    whichever error is thrown (a missing parent, a parent that may not be
    written). *)
Definition mkdirSync (env : Env) (p : string) : M unit :=
  fun s => match makeDirectory env (world s) p with
           | Some m =>
               Ret tt (mkSys (statics s)
                             (mkWorld m (database (world s))
                                      (parsedAsm (world s)) (now (world s)))
                             (spawned s))
           | None => Throw "ENOENT: no such file or directory, mkdir" s
           end.

End Fs.

(** The value compared against in [fileNewer]: a path, a [Date] or
    [undefined]. *)
Inductive Target :=
| TPath (p : string)
| TDate (d : Z)
| TUndefined.

(** [!target]: [undefined] and the empty string are falsy. *)
Definition falsy (t : Target) : bool :=
  match t with
  | TPath p => (p =? "")%string
  | TDate _ => false
  | TUndefined => true
  end.

(** What [compile] returns: [true], [false] or an error text. *)
Inductive CompileResult :=
| CTrue
| CFalse
| CError (msg : string).

(** The line feed as a string. *)
Definition nl : string := String "010"%char "".

(** ** class CompileCommands *)

Module CompileCommands.
Import Js.

Section WithEnv.
Variable env : Env.
Local Open Scope m_scope.

Definition getCompileCommandsPath : string := compileCommandsPath env.

Definition setExtraCompileArgs (extraArgs' : list string) : M unit :=
  modify (setStatics (setExtraArgs extraArgs')).

Definition getExtraCompileArgs : M string :=
  gets (fun s => join " " (extraArgs (statics s))).

Definition fileNewer (source : string) (target : Target) : M bool :=
  if falsy target then ret true
  else
    srcStat <- Fs.statSync source ;;
    match target with
    | TDate d => ret (d <? srcStat)%Z
    | TPath p =>
        ex <- Fs.existsSync p ;;
        if ex then (tgtStat <- Fs.statSync p ;; ret (tgtStat <? srcStat)%Z)
        else ret true
    | TUndefined => ret true
    end.

Definition needCompilation (compileInfo : CompileInfo.t) : M bool :=
  extra <- gets (fun s => extraArgs (statics s)) ;;
  if CompileInfo.extraArgsChanged compileInfo extra then ret true
  else
    b <- fileNewer (Uri.path (CompileInfo.srcUri compileInfo))
                   (TPath (Uri.path (CompileInfo.uri compileInfo))) ;;
    if b then ret true
    else fileNewer getCompileCommandsPath
                   (TPath (Uri.path (CompileInfo.uri compileInfo))).

Definition getCompileInfo (uri : Uri.t) : M (option CompileInfo.t) :=
  gets (fun s => compileCommands (statics s) !! Uri.path uri).

(** [parseCompileCommands]: reading or deserializing may throw. *)
Definition parseCompileCommands : M (list CompileCommand.t) :=
  fun s => match database (world s) with
           | Some cs => Ret cs s
           | None => Throw "cannot parse the compilation database" s
           end.

Definition createOutputDirectory : M unit :=
  ex <- Fs.existsSync (outDir env) ;;
  if ex then ret tt else Fs.mkdirSync env (outDir env).

Definition ext (srcUri : Uri.t) (scheme : string) : string :=
  if (scheme =? "disassembly")%string then ".s"
  else if (scheme =? "llvm")%string then ".ll"
  else ".E" +:+ sliceFromLastDot (Uri.path srcUri).

Definition getUriForScheme (srcUri : Uri.t) (scheme : string) : M Uri.t :=
  let relativePath := Path.relative (cwd env) (rootPath env) (Uri.path srcUri) in
  let dstUri :=
    Uri.with_ srcUri scheme
      (outDir env +:+ replaceSlashes relativePath +:+ ext srcUri scheme) in
  createOutputDirectory ;;
  ret dstUri.

Definition encodeAsmUri (uri : Uri.t) : M Uri.t :=
  getUriForScheme uri "disassembly".
Definition encodeLLVMUri (uri : Uri.t) : M Uri.t :=
  getUriForScheme uri "llvm".
Definition encodePreprocessUri (uri : Uri.t) : M Uri.t :=
  getUriForScheme uri (Uri.scheme uri).

Definition setRecord (key : string) (ci : CompileInfo.t) : M unit :=
  modify (setStatics (fun st =>
    setCompileCommands (<[key := ci]> (compileCommands st)) st)).

Definition processCompileCommand (compileCommand : CompileCommand.t) : M unit :=
  let compileCommand := CompileCommand.process (cwd env) compileCommand in
  let srcUri := CompileCommand.uri compileCommand in
  asmUri <- encodeAsmUri srcUri ;;
  llvmUri <- encodeLLVMUri srcUri ;;
  preprocessUri <- encodePreprocessUri srcUri ;;
  modify (setStatics (fun st =>
    setAsmUriMap (<[Uri.path srcUri := asmUri]> (asmUriMap st)) st)) ;;
  setRecord (Uri.path asmUri)
    (CompileInfo.new asmUri srcUri
       (CompileCommand.getDisassembleCommand compileCommand (Uri.path asmUri))
       (CompileCommand.directory compileCommand)) ;;
  modify (setStatics (fun st =>
    setLlvmUriMap (<[Uri.path srcUri := llvmUri]> (llvmUriMap st)) st)) ;;
  setRecord (Uri.path llvmUri)
    (CompileInfo.new llvmUri srcUri
       (CompileCommand.getLLVMDisassembleCommand compileCommand (Uri.path llvmUri))
       (CompileCommand.directory compileCommand)) ;;
  modify (setStatics (fun st =>
    setPreprocessUriMap (<[Uri.path srcUri := preprocessUri]> (preprocessUriMap st)) st)) ;;
  setRecord (Uri.path preprocessUri)
    (CompileInfo.new preprocessUri srcUri
       (CompileCommand.getPreprocessCommand compileCommand (Uri.path preprocessUri))
       (CompileCommand.directory compileCommand)).

Fixpoint forEach {A} (f : A -> M unit) (l : list A) : M unit :=
  match l with
  | [] => ret tt
  | x :: rest => f x ;; forEach f rest
  end.

(** [init(errorChannel)]; the channel is given by its content, and
    [None] is the [undefined] that [activate] passes by calling [init()]
    with no argument. *)
Definition init (errorChannel' : option (list string)) : M bool :=
  ex <- Fs.existsSync getCompileCommandsPath ;;
  if ex then
    compileCommands' <- parseCompileCommands ;;
    forEach processCompileCommand compileCommands' ;;
    modify (setStatics (setErrorChannel errorChannel')) ;;
    createOutputDirectory ;;
    t <- gets (fun s => now (world s)) ;;
    modify (setStatics (setInitTime (Some t))) ;;
    ret true
  else ret false.

Definition initTimeTarget (s : Sys) : Target :=
  match initTime (statics s) with
  | Some d => TDate d
  | None => TUndefined
  end.

Definition update : M unit :=
  target <- gets initTimeTarget ;;
  newer <- fileNewer getCompileCommandsPath target ;;
  if newer then
    modify (setStatics (setCompileCommands ∅)) ;;
    channel <- gets (fun s => errorChannel (statics s)) ;;
    init channel ;;
    ret tt
  else ret tt.

(** A method call on [this.errorChannel] is a [TypeError] while the
    static is [undefined]. *)
Definition undefinedChannel (method : string) : string :=
  "TypeError: Cannot read properties of undefined (reading '"
  +:+ method +:+ "')".

Definition clear : M unit :=
  fun s => match errorChannel (statics s) with
           | Some _ => Ret tt (setStatics (setErrorChannel (Some [])) s)
           | None => Throw (undefinedChannel "clear") s
           end.

Definition appendLine (line : string) : M unit :=
  fun s => match errorChannel (statics s) with
           | Some lines =>
               Ret tt (setStatics (setErrorChannel (Some (lines ++ [line]))) s)
           | None => Throw (undefinedChannel "appendLine") s
           end.

Definition spawn (command dir : string) : M SpawnResult :=
  fun s =>
    let '(r, w) := spawnSync env (world s) command dir in
    Ret r (mkSys (statics s) w (spawned s ++ [(command, dir)])).

(** The demangling command line for an artifact path. *)
Definition filtcmd (fsPath : string) : string :=
  "echo " +:+ dq +:+ "`c++filt -t < '" +:+ fsPath +:+ "'`" +:+ dq
  +:+ " > '" +:+ fsPath +:+ "'".

(** A truthy [status]: a number other than zero. *)
Definition truthyStatus (st : option Z) : bool :=
  match st with
  | Some z => negb (z =? 0)%Z
  | None => false
  end.

Definition failed (result : SpawnResult) : bool :=
  truthyStatus (status result) ||
  match error result with Some _ => true | None => false end.

Definition errorText (result : SpawnResult) : string :=
  (match error result with
   | Some message => message
   | None => match output result with
             | Some out => join nl out
             | None => ""
             end
   end)
  +:+ "  failed with error code "
  +:+ match status result with
      | Some z => intToString z
      | None => "null"
      end.

(** [execCompileCommand(compileInfo)]: [key] is the key under which the
    registry holds the object [compileInfo], so that the assignment to
    [compileInfo.extraArgs] is seen by later lookups. *)
Definition execCompileCommand (key : string) (compileInfo : CompileInfo.t)
  : M CompileResult :=
  extra <- getExtraCompileArgs ;;
  let command := CompileInfo.command compileInfo +:+ " " +:+ extra in
  clear ;;
  appendLine command ;;
  result <- spawn command (CompileInfo.compilationDirectory compileInfo) ;;
  let filt := filtcmd (Uri.fsPath (CompileInfo.uri compileInfo)) in
  appendLine filt ;;
  filtstdout <- spawn filt (CompileInfo.compilationDirectory compileInfo) ;;
  match status filtstdout with
  | Some z => appendLine (intToString z)
  | None => ret tt
  end ;;
  if failed result then ret (CError (errorText result))
  else
    extraArgs' <- gets (fun s => extraArgs (statics s)) ;;
    setRecord key (CompileInfo.setExtraArgs compileInfo extraArgs') ;;
    ret CTrue.

Definition compile (uri : Uri.t) : M CompileResult :=
  update ;;
  compileInfo <- getCompileInfo uri ;;
  match compileInfo with
  | Some compileInfo =>
      need <- needCompilation compileInfo ;;
      if need then execCompileCommand (Uri.path uri) compileInfo
      else ret CTrue
  | None => ret CFalse
  end.

Definition getSrcUri (uri : Uri.t) : M (option Uri.t) :=
  update ;;
  gets (fun s => option_map CompileInfo.srcUri
                   (compileCommands (statics s) !! Uri.path uri)).

Definition getAsmUri (uri : Uri.t) : M (option Uri.t) :=
  update ;;
  gets (fun s => asmUriMap (statics s) !! Uri.path uri).

Definition getLLVMUri (uri : Uri.t) : M (option Uri.t) :=
  update ;;
  gets (fun s => llvmUriMap (statics s) !! Uri.path uri).

Definition getPreprocessUri (uri : Uri.t) : M (option Uri.t) :=
  update ;;
  gets (fun s => preprocessUriMap (statics s) !! Uri.path uri).

End WithEnv.
End CompileCommands.

(** ** class AsmDocument *)

Module AsmDocument.
Import Js.

Record t := mk {
  lines : list AsmLine;
  compileResult : CompileResult
}.

Definition hexDigit (d : N) : ascii :=
  nth (N.to_nat d) (chars "0123456789abcdef") "0"%char.

(** The hexadecimal digits of [n], least significant first. *)
Fixpoint hexRev (fuel : nat) (n : N) : list ascii :=
  match fuel with
  | O => []
  | S fuel' =>
      if (n <? 16)%N then [hexDigit n]
      else hexDigit (n mod 16) :: hexRev fuel' (n / 16)
  end.

(** [n.toString(16)] for a non-negative integer. *)
Definition toString16 (n : N) : string :=
  str (rev (hexRev (S (N.to_nat (N.log2 n))) n)).

Section WithEnv.
Variable env : Env.
Local Open Scope m_scope.

(** [processAssemblyFile]: read the artifact and hand it to the parser. *)
Definition processAssemblyFile (uri : Uri.t) : M (list AsmLine) :=
  fun s => match parsedAsm (world s) !! Uri.path uri with
           | Some ls => Ret ls s
           | None => Throw "ENOENT: no such file or directory" s
           end.

(** The constructor. *)
Definition new (uri : Uri.t) : M t :=
  compileResult' <- CompileCommands.compile env uri ;;
  match compileResult' with
  | CTrue =>
      lines' <- processAssemblyFile uri ;;
      ret (mk lines' compileResult')
  | _ => ret (mk [] compileResult')
  end.

End WithEnv.

(** What one iteration of the loop in [value] appends. *)
Definition renderLine (line : AsmLine) : string :=
  match line with
  | BinaryAsmLine text address =>
      "<" +:+ substrLast 8 ("0000000" +:+ toString16 address) +:+ "> "
      +:+ text +:+ nl
  | PlainAsmLine text => text +:+ nl
  end.

(** The getter [value]. *)
Definition value (d : t) : string :=
  match compileResult d with
  | CFalse => "Failed to compile."
  | CError msg => if (msg =? "")%string then "Failed to compile." else msg
  | CTrue => fold_left (fun result line => result +:+ renderLine line) (lines d) ""
  end.

End AsmDocument.

(** * Specification-side definitions and scenarios *)

(** Every argument preceded by a space, the tail of a space-joined line. *)
Fixpoint spaced (l : list string) : string :=
  match l with
  | [] => ""
  | x :: rest => " " +:+ x +:+ spaced rest
  end.

(** The IntermediateRepresentation command as the spec words it: the
    executable, the extra flags, the sanitized arguments, the output
    clause. *)
Definition llvmCommandAsSpecified (c : CompileCommand.t) (target : string) : string :=
  Js.join " " ([CompileCommand.command c; "-g"; "-S"; "-emit-llvm"] ++ CompileCommand.args c ++ ["-o"; target]).

(** The Preprocessed command as the spec words it. *)
Definition preprocessCommandAsSpecified (c : CompileCommand.t) (target : string) : string :=
  Js.join " " ([CompileCommand.command c; "-E"] ++ CompileCommand.args c ++ ["-o"; target]).

(** The database entry of the end-to-end scenario. *)
Definition entryP6 : CompileCommand.t :=
  CompileCommand.entry "a.c" "/usr/bin/cc -O2 -g -c a.c -o a.o" [] "/p".

(** The command of that scenario as the spec gives it, for an output
    directory [out]. *)
Definition commandAsSpecifiedP6 (out : string) : string :=
  "/usr/bin/cc -g1 -S -masm=intel -fno-unwind-tables -fno-asynchronous-unwind-tables -fno-dwarf2-cfi-asm -O2 -o "
  +:+ dq +:+ out +:+ "/a@c.s" +:+ dq.

(** The command line [execCompileCommand] runs for a record. *)
Definition buildCommand (ci : CompileInfo.t) (s : Sys) : string :=
  CompileInfo.command ci +:+ " " +:+ Js.join " " (extraArgs (statics s)).

(** What the build process returns and the world it leaves. *)
Definition buildRun (env : Env) (ci : CompileInfo.t) (s : Sys) : SpawnResult * World :=
  spawnSync env (world s) (buildCommand ci s) (CompileInfo.compilationDirectory ci).

(** What the demangling pass, started in that world, returns and leaves. *)
Definition filtRun (env : Env) (ci : CompileInfo.t) (s : Sys) : SpawnResult * World :=
  spawnSync env (snd (buildRun env ci s))
    (CompileCommands.filtcmd (Uri.fsPath (CompileInfo.uri ci))) (CompileInfo.compilationDirectory ci).

(** The lines on the error channel after an [execCompileCommand] that
    found the channel defined. *)
Definition execLog (env : Env) (ci : CompileInfo.t) (s : Sys) : list string :=
  [buildCommand ci s; CompileCommands.filtcmd (Uri.fsPath (CompileInfo.uri ci))]
  ++ match status (fst (filtRun env ci s)) with
     | Some z => [Js.intToString z]
     | None => []
     end.

Definition enoent : string := "ENOENT: no such file or directory".

(** Whether [update] finds the database newer than the last load: always
    when nothing was loaded yet; [None] when the comparison throws because
    the database file is gone. *)
Definition reloadDue (env : Env) (s : Sys) : option bool :=
  match initTime (statics s) with
  | None => Some true
  | Some t0 =>
      match Fs.mtime (world s) (CompileCommands.getCompileCommandsPath env) with
      | Some md => Some (t0 <? md)%Z
      | None => None
      end
  end.

(** The state with another record map. *)
Definition withRecords (recs : gmap string CompileInfo.t) (s : Sys) : Sys :=
  setStatics (setCompileCommands recs) s.


(** *** A concrete host *)

(** The world after a process has written the file [p]. *)
Definition touch (p : string) (w : World) : World :=
  mkWorld (<[p := now w]> (mtimes w)) (database w) (parsedAsm w) (now w).

(** Making a directory right under the root, which exists and may be
    written: the new directory and the root are stamped with the current
    time. *)
Definition mkdirUnderRoot (w : World) (p : string) : option (gmap string Z) :=
  Some (<[p := now w]> (<["/" := now w]> (mtimes w))).

(** A host with output directory [/out/], database
    [/p/compile_commands.json] and workspace [/p], where every process
    exits with [code], having printed [err] and written the Disassembly
    artifact of [a.c]. *)
Definition host (code : Z) (err : string) : Env :=
  mkEnv "/out/" "/p/compile_commands.json" "/p" "/"
        (fun w _ _ => (mkSpawn (Some code) None (Some [""; ""; err]),
                       touch "/out/a.c.s" w))
        mkdirUnderRoot.

(** A world holding the source [a.c], stamped [tsrc], and the database of
    the end-to-end scenario, stamped [tdb], at time [tnow]. *)
Definition worldP6 (tsrc tdb tnow : Z) : World :=
  mkWorld {[ "/p/a.c" := tsrc; "/p/compile_commands.json" := tdb ]}
          (Some [entryP6]) ∅ tnow.

(** The statics before the first load: no load time and no error
    channel yet. *)
Definition fresh : Statics := mkStatics ∅ ∅ ∅ ∅ None [] None.

(** The state reached by a computation, whether it returns or throws. *)
Definition stateOf {A} (o : Outcome A) : Sys :=
  match o with
  | Ret _ s => s
  | Throw _ s => s
  end.

(** The system right after [init], given an empty error channel, has
    loaded the scenario's database. *)
Definition loadedP6 : Sys :=
  stateOf (CompileCommands.init (host 0 "") (Some []) (mkSys fresh (worldP6 3 5 10) [])).

(** The Disassembly artifact of the scenario and its record. *)
Definition asmUriP6 : Uri.t := Uri.mk "disassembly" "/out/a.c.s".

Definition recordP6 : CompileInfo.t :=
  CompileInfo.new asmUriP6 (Uri.file "/p/a.c")
    ("/usr/bin/cc -g1 -S -masm=intel -fno-unwind-tables -fno-asynchronous-unwind-tables -fno-dwarf2-cfi-asm -O2 a.c -o "
     +:+ dq +:+ "/out/a.c.s" +:+ dq)
    "/p".

(** *** Registration in closed form *)

(** The world after a [createOutputDirectory] that returns: as it was
    when the output directory exists, else as [fs.mkdirSync] leaves it;
    [None] when [fs.mkdirSync] throws. *)
Definition ensureOutDir (env : Env) (w : World) : option World :=
  match Fs.mtime w (outDir env) with
  | Some _ => Some w
  | None =>
      match makeDirectory env w (outDir env) with
      | Some m => Some (mkWorld m (database w) (parsedAsm w) (now w))
      | None => None
      end
  end.

(** The world after the three calls of [createOutputDirectory] that
    [processCompileCommand] makes, when all of them return. *)
Definition ensureOutDir3 (env : Env) (w : World) : option World :=
  match ensureOutDir env w with
  | Some w1 =>
      match ensureOutDir env w1 with
      | Some w2 => ensureOutDir env w2
      | None => None
      end
  | None => None
  end.

(** The artifact of a source for a scheme, as [getUriForScheme] names it. *)
Definition artifactUri (env : Env) (srcUri : Uri.t) (scheme : string) : Uri.t :=
  Uri.with_ srcUri scheme
    (outDir env
     +:+ Js.replaceSlashes (Path.relative (cwd env) (rootPath env) (Uri.path srcUri))
     +:+ CompileCommands.ext srcUri scheme).

(** The statics after [processCompileCommand] on one entry. *)
Definition register (env : Env) (entry : CompileCommand.t) (st : Statics) : Statics :=
  let c := CompileCommand.process (cwd env) entry in
  let srcUri := CompileCommand.uri c in
  let asmUri := artifactUri env srcUri "disassembly" in
  let llvmUri := artifactUri env srcUri "llvm" in
  let preprocessUri := artifactUri env srcUri (Uri.scheme srcUri) in
  mkStatics
    (<[Uri.path preprocessUri :=
         CompileInfo.new preprocessUri srcUri
           (CompileCommand.getPreprocessCommand c (Uri.path preprocessUri))
           (CompileCommand.directory c)]>
       (<[Uri.path llvmUri :=
            CompileInfo.new llvmUri srcUri
              (CompileCommand.getLLVMDisassembleCommand c (Uri.path llvmUri))
              (CompileCommand.directory c)]>
          (<[Uri.path asmUri :=
               CompileInfo.new asmUri srcUri
                 (CompileCommand.getDisassembleCommand c (Uri.path asmUri))
                 (CompileCommand.directory c)]>
             (compileCommands st))))
    (<[Uri.path srcUri := asmUri]> (asmUriMap st))
    (<[Uri.path srcUri := llvmUri]> (llvmUriMap st))
    (<[Uri.path srcUri := preprocessUri]> (preprocessUriMap st))
    (initTime st) (extraArgs st) (errorChannel st).

(** The statics after [processCompileCommand] on every entry of a list. *)
Fixpoint registerStatics (env : Env) (entries : list CompileCommand.t)
    (st : Statics) : Statics :=
  match entries with
  | [] => st
  | entry :: rest => registerStatics env rest (register env entry st)
  end.

(** The system after [processCompileCommand] on every entry of a list,
    when every call returns; [None] when one of them throws. *)
Fixpoint registerAll (env : Env) (entries : list CompileCommand.t) (s : Sys)
  : option Sys :=
  match entries with
  | [] => Some s
  | entry :: rest =>
      match ensureOutDir3 env (world s) with
      | Some w =>
          registerAll env rest
            (mkSys (register env entry (statics s)) w (spawned s))
      | None => None
      end
  end.

(** The system after a load that succeeds: every entry registered, the
    channel set, the output directory made, the load time recorded;
    [None] when the output directory could not be made. *)
Definition loaded (env : Env) (channel : option (list string))
    (entries : list CompileCommand.t) (s : Sys) : option Sys :=
  match registerAll env entries s with
  | Some s1 =>
      match ensureOutDir env (world s1) with
      | Some w =>
          Some (mkSys (setInitTime (Some (now w))
                         (setErrorChannel channel (statics s1)))
                      w (spawned s1))
      | None => None
      end
  | None => None
  end.

(** What a computation returns and the state it leaves; [None] when it
    throws. *)
Definition retOf {A} (o : Outcome A) : option (A * Sys) :=
  match o with
  | Ret a s => Some (a, s)
  | Throw _ _ => None
  end.

(** *** Repeated requests *)

(** [n] requests for the same artifact in a row, each through [compile]. *)
Fixpoint requests (env : Env) (n : nat) (uri : Uri.t) : M (list CompileResult) :=
  match n with
  | O => ret []
  | S n' =>
      bind (CompileCommands.compile env uri) (fun r =>
      bind (requests env n' uri) (fun rs => ret (r :: rs)))
  end.

(** *** A deleted file *)

(** The world after the file [p] has been deleted. *)
Definition deleteFile (p : string) (w : World) : World :=
  mkWorld (delete p (mtimes w)) (database w) (parsedAsm w) (now w).

(** The loaded scenario after the user has set the extra arguments to
    [-O2] and the file [p] has been deleted. *)
Definition loadedP6Without (p : string) : Sys :=
  setWorld (deleteFile p)
    (stateOf (CompileCommands.setExtraCompileArgs ["-O2"] loadedP6)).

(** A state loaded at time 1, with an empty error channel, when the
    database was still empty; the database file has since been rewritten,
    at time 5, and now holds the scenario's entry. *)
Definition staleP6 : Sys :=
  mkSys (setInitTime (Some 1%Z) (setErrorChannel (Some []) fresh))
        (worldP6 3 5 10) [].

(** The loaded scenario after its Disassembly artifact has been requested
    and built on a host whose processes exit with 0. *)
Definition builtP6 : Sys :=
  stateOf (CompileCommands.compile (host 0 "") asmUriP6 loadedP6).

(** The Disassembly command of the scenario as the code synthesizes it,
    for an artifact path [art]. *)
Definition commandP6 (art : string) : string :=
  "/usr/bin/cc -g1 -S -masm=intel -fno-unwind-tables -fno-asynchronous-unwind-tables -fno-dwarf2-cfi-asm -O2 a.c -o "
  +:+ dq +:+ art +:+ dq.

(** *** Rendering, as the spec words it *)

(** The value of a hexadecimal digit. *)
Definition hexDigitValue (c : ascii) : option N :=
  let n := N_of_ascii c in
  if ((48 <=? n) && (n <=? 57))%N then Some (n - 48)%N
  else if ((97 <=? n) && (n <=? 102))%N then Some (n - 87)%N
  else None.

(** The number denoted by hexadecimal digits given least significant
    first. *)
Fixpoint valueLsb (l : list ascii) : option N :=
  match l with
  | [] => Some 0%N
  | c :: rest =>
      match hexDigitValue c, valueLsb rest with
      | Some d, Some v => Some (d + 16 * v)%N
      | _, _ => None
      end
  end.

(** The number a hexadecimal numeral denotes. *)
Definition hexValue (s : string) : option N := valueLsb (rev (Js.chars s)).

(** The [k] low hexadecimal digits of [n], least significant first. *)
Fixpoint fixedHexRev (k : nat) (n : N) : list ascii :=
  match k with
  | O => []
  | S k' => AsmDocument.hexDigit (n mod 16) :: fixedHexRev k' (n / 16)
  end.

(** [n] as a zero-padded hexadecimal numeral of exactly [k] digits. *)
Definition fixedHex (k : nat) (n : N) : string := Js.str (rev (fixedHexRev k n)).

(** The text a line is rendered as: its own text, after the bracketed
    eight-digit address when it carries one. *)
Definition lineText (line : AsmLine) : string :=
  match line with
  | PlainAsmLine text => text
  | BinaryAsmLine text address => "<" +:+ fixedHex 8 address +:+ "> " +:+ text
  end.

(** The rendered lines joined by newlines. *)
Definition newlineJoined (lines : list AsmLine) : string :=
  Js.join nl (map lineText lines).

(** The rendered lines, each followed by a newline. *)
Fixpoint newlineTerminated (lines : list AsmLine) : string :=
  match lines with
  | [] => ""
  | line :: rest => lineText line +:+ nl +:+ newlineTerminated rest
  end.

(** The same host without a demangler: the build exits with 0 and writes
    the artifact, the demangling command line exits with 127. *)
Definition hostWithoutDemangler : Env :=
  mkEnv "/out/" "/p/compile_commands.json" "/p" "/"
        (fun w command _ =>
           if String.prefix "echo " command
           then (mkSpawn (Some 127%Z) None (Some [""; ""; "c++filt: not found"]), w)
           else (mkSpawn (Some 0%Z) None (Some [""; ""; ""]), touch "/out/a.c.s" w))
        mkdirUnderRoot.

(** * Further definitions *)

(** *** Words *)

(** The maximal runs of characters other than whitespace, in order; [cur]
    is the run being read, last character first. *)
Fixpoint wordsFrom (cur : list ascii) (l : list ascii) : list string :=
  match l with
  | [] => match cur with [] => [] | _ :: _ => [Js.str (rev cur)] end
  | c :: rest =>
      if Js.isSpace c then
        match cur with
        | [] => wordsFrom [] rest
        | _ :: _ => Js.str (rev cur) :: wordsFrom [] rest
        end
      else wordsFrom (c :: cur) rest
  end.

Definition words (s : string) : list string := wordsFrom [] (Js.chars s).

(** A character that is neither a double quote nor whitespace. *)
Definition plain (c : ascii) : Prop := Js.isQuote c = false /\ Js.isSpace c = false.

(** The test of the [filter] in [process]. *)
Definition nonEmpty (arg : string) : bool := (0 <? String.length arg)%nat.

(** *** The registry's maps *)

(** The source a database entry resolves to. *)
Definition sourceOf (env : Env) (entry : CompileCommand.t) : Uri.t :=
  CompileCommand.uri (CompileCommand.process (cwd env) entry).

(** The paths of the three artifacts registered for an entry. *)
Definition artifactsOf (env : Env) (entry : CompileCommand.t) : list string :=
  [Uri.path (artifactUri env (sourceOf env entry) "disassembly");
   Uri.path (artifactUri env (sourceOf env entry) "llvm");
   Uri.path (artifactUri env (sourceOf env entry) (Uri.scheme (sourceOf env entry)))].

(** Every artifact a source-to-artifact map hands out has a record. *)
Definition covered (st : Statics) : Prop :=
  forall (src : string) (u : Uri.t),
    asmUriMap st !! src = Some u \/
    llvmUriMap st !! src = Some u \/
    preprocessUriMap st !! src = Some u ->
    is_Some (compileCommands st !! Uri.path u).

(** Characters without a dot among them. *)
Definition dotFree (l : list ascii) : Prop :=
  Forall (fun c => Ascii.eqb c "."%char = false) l.

(** The message of the exception [parseCompileCommands] is modelled to
    throw. *)
Definition parseError : string := "cannot parse the compilation database".

(** *** More states of the scenario *)

(** A state loaded at time 1, with an empty error channel, from a
    database that listed [/p/old.c]; the database has since been rewritten
    and lists only [a.c]. *)
Definition removedSourceP6 : Sys :=
  mkSys (setAsmUriMap {[ "/p/old.c" := Uri.mk "disassembly" "/out/old.c.s" ]}
           (setCompileCommands
              {[ "/out/old.c.s" :=
                   CompileInfo.new (Uri.mk "disassembly" "/out/old.c.s")
                     (Uri.file "/p/old.c") "cc -S old.c" "/p" ]}
              (setInitTime (Some 1%Z) (setErrorChannel (Some []) fresh))))
        (worldP6 3 5 10) [].

(** The scenario's world with a database file that does not parse. *)
Definition brokenWorldP6 : World :=
  mkWorld (mtimes (worldP6 3 5 10)) None ∅ 10.

(** ** The extra-arguments command of the extension *)

Module Extension.
Import Js.

(** [s.split(sep)] for a separator of one character. *)
Fixpoint splitAcc (sep : ascii) (cur : list ascii) (l : list ascii) : list string :=
  match l with
  | [] => [str (rev cur)]
  | c :: rest =>
      if Ascii.eqb c sep then str (rev cur) :: splitAcc sep [] rest
      else splitAcc sep (c :: cur) rest
  end.

Definition split (sep : ascii) (s : string) : list string := splitAcc sep [] (chars s).

(** What the handler of [compilerexplorer.disassOutputWithExtraArgs] does
    with the content of its input box before it opens the document:
    [extraArgs] is [undefined], here [None], when the box was dismissed. *)
Definition onExtraArgsInput (extraArgs : option string) : M unit :=
  match extraArgs with
  | Some input =>
      if (input =? "")%string then ret tt
      else CompileCommands.setExtraCompileArgs (split " "%char input)
  | None => ret tt
  end.

End Extension.

(** ** class AsmProvider *)

Module AsmProvider.

(** A file system watcher, by the path it watches. *)
Record Watcher := mkWatcher { watched : string; disposed : bool }.

(** The provider: its documents and watchers by key, the URIs its change
    event has fired for, oldest first, and the number of listeners
    registered on its argument-change event. *)
Record t := mk {
  _documents : gmap string AsmDocument.t;
  _watchers : gmap string Watcher;
  fired : list Uri.t;
  argListeners : nat
}.

Definition scheme : string := "disassembly".

(** Computations on the provider and the system; a throw keeps both as
    they are at that point. *)
Inductive Outcome (A : Type) : Type :=
| PRet (a : A) (p : t) (s : Sys)
| PThrow (e : string) (p : t) (s : Sys).
Arguments PRet {A} a p s.
Arguments PThrow {A} e p s.

Definition PM (A : Type) : Type := t -> Sys -> Outcome A.

Definition pret {A} (a : A) : PM A := fun p s => PRet a p s.
Definition pbind {A B} (m : PM A) (k : A -> PM B) : PM B :=
  fun p s => match m p s with
             | PRet a p' s' => k a p' s'
             | PThrow e p' s' => PThrow e p' s'
             end.
Definition lift {A} (m : M A) : PM A :=
  fun p s => match m s with
             | Ret a s' => PRet a p s'
             | Throw e s' => PThrow e p s'
             end.
Definition pmodify (f : t -> t) : PM unit := fun p s => PRet tt (f p) s.

(** The exception of reading [path] from [undefined]. *)
Definition typeError : string :=
  "TypeError: Cannot read properties of undefined (reading 'path')".

Section WithHost.
Variable env : Env.
(** [uri.toString()]. *)
Variable toString : Uri.t -> string.

Definition setDocument (key : string) (d : AsmDocument.t) (p : t) : t :=
  mk (<[key := d]> (_documents p)) (_watchers p) (fired p) (argListeners p).

(** [addWatcherForURI(uri, asm)]; [uri] may be [undefined]. *)
Definition addWatcherForURI (uri : option Uri.t) (asm : Uri.t) : PM unit :=
  match uri with
  | None => fun p s => PThrow typeError p s
  | Some u =>
      pmodify (fun p =>
        mk (_documents p)
           (<[toString u +:+ toString asm := mkWatcher (Uri.path u) false]> (_watchers p))
           (fired p)
           (S (argListeners p)))
  end.

Definition provideAsmDocument (uri : Uri.t) : PM AsmDocument.t :=
  fun p s =>
    match _documents p !! toString uri with
    | Some document => PRet document p s
    | None =>
        pbind (lift (AsmDocument.new env uri)) (fun document =>
        pbind (pmodify (setDocument (toString uri) document)) (fun _ =>
        pbind (lift (CompileCommands.getSrcUri env uri)) (fun srcUri =>
        pbind (addWatcherForURI srcUri uri) (fun _ =>
        pbind (addWatcherForURI
                 (Some (Uri.file (CompileCommands.getCompileCommandsPath env))) uri)
              (fun _ => pret document))))) p s
    end.

Definition provideTextDocumentContent (uri : Uri.t) : PM string :=
  pbind (provideAsmDocument uri) (fun document => pret (AsmDocument.value document)).

Definition reloadAsmDocument (fileUri : Uri.t) : PM unit :=
  let uri := Uri.with_ fileUri scheme (Uri.path fileUri) in
  pbind (lift (AsmDocument.new env uri)) (fun document =>
  pbind (pmodify (setDocument (toString uri) document)) (fun _ =>
  pmodify (fun p =>
    mk (_documents p) (_watchers p) (fired p ++ [uri]) (argListeners p)))).

End WithHost.
End AsmProvider.

(** A rendering of URIs as strings, for the instances. *)
Definition showUri (u : Uri.t) : string := Uri.scheme u +:+ "://" +:+ Uri.path u.

(** A provider that has served nothing yet. *)
Definition emptyProvider : AsmProvider.t := AsmProvider.mk ∅ ∅ [] 0.

(** * Properties *)

(** ** Strings and arrays *)

Lemma chars_str (l : list ascii) : Js.chars (Js.str l) = l.
Proof. apply list_ascii_of_string_of_list_ascii. Qed.

Lemma str_chars (s : string) : Js.str (Js.chars s) = s.
Proof. apply string_of_list_ascii_of_string. Qed.

Lemma append_cons (x : ascii) (a b : string) :
  String x a +:+ b = String x (a +:+ b).
Proof. reflexivity. Qed.

Lemma append_nil_l (b : string) : "" +:+ b = b.
Proof. reflexivity. Qed.

Lemma chars_app (a b : string) : Js.chars (a +:+ b) = Js.chars a ++ Js.chars b.
Proof.
  induction a as [|c a IH]; [reflexivity|].
  rewrite append_cons. unfold Js.chars in *. simpl. f_equal. exact IH.
Qed.

Lemma append_assoc (a b c : string) : (a +:+ b) +:+ c = a +:+ (b +:+ c).
Proof.
  induction a as [|x a IH]; [reflexivity|].
  rewrite !append_cons. f_equal. exact IH.
Qed.

Lemma append_nil_r (a : string) : a +:+ "" = a.
Proof.
  induction a as [|x a IH]; [reflexivity|].
  rewrite append_cons. f_equal. exact IH.
Qed.

Lemma append_inj_l (a b c : string) : a +:+ b = a +:+ c -> b = c.
Proof.
  induction a as [|x a IH]; intros H; [exact H|].
  rewrite !append_cons in H. injection H as H. auto.
Qed.


Lemma join_cons_spaced (x : string) (l : list string) :
  Js.join " " (x :: l) = x +:+ spaced l.
Proof.
  revert x. induction l as [|y l IH]; intros x.
  - cbv [Js.join spaced]. now rewrite append_nil_r.
  - change (Js.join " " (x :: y :: l)) with (x +:+ " " +:+ Js.join " " (y :: l)).
    rewrite IH. reflexivity.
Qed.

Lemma spaced_app (l1 l2 : list string) :
  spaced (l1 ++ l2) = spaced l1 +:+ spaced l2.
Proof.
  induction l1 as [|x l1 IH]; [reflexivity|].
  change (spaced ((x :: l1) ++ l2)) with (" " +:+ x +:+ spaced (l1 ++ l2)).
  change (spaced (x :: l1)) with (" " +:+ x +:+ spaced l1).
  rewrite IH, !append_assoc. reflexivity.
Qed.

Lemma arrayEquals_eq (a b : list string) : arrayEquals a b = true <-> a = b.
Proof.
  revert b. induction a as [|x a IH]; intros [|y b]; simpl; try easy.
  rewrite andb_true_iff, IH, String.eqb_eq. split.
  - intros [-> ->]. reflexivity.
  - intros H. injection H as -> ->. auto.
Qed.

(** ** The tokenizer's loop *)

Section TokenizerLoop.
Import Js Tokenizer.

Lemma bare_split (l : list ascii) : l = fst (bare l) ++ snd (bare l).
Proof.
  induction l as [|c l IH]; [reflexivity|]. cbn [bare].
  destruct (isQuote c || isSpace c); [reflexivity|].
  destruct (bare l) as [m r]. cbn [fst snd app] in *. f_equal. exact IH.
Qed.

(** A match and the text after it make up the text searched. *)
Lemma exec_split (l : list ascii) : l = fst (exec l) ++ snd (exec l).
Proof.
  unfold exec. pose proof (bare_split l) as H.
  destruct (bare l) as [m r]. cbn [fst snd] in H.
  destruct r as [|c r']; [exact H|].
  destruct (isQuote c); [|exact H].
  destruct (quoted false r') as [n|]; [|exact H].
  cbn [fst snd]. rewrite <- app_assoc. cbn [app]. rewrite firstn_skipn. exact H.
Qed.

(** The search never stops for lack of fuel: any fuel above the length of
    the text gives the same matches. *)
Lemma matchAllFrom_fuel (f1 : nat) :
  forall (f2 : nat) (l : list ascii),
    (length l < f1)%nat -> (length l < f2)%nat ->
    matchAllFrom f1 l = matchAllFrom f2 l.
Proof.
  induction f1 as [|f1 IH]; intros f2 l H1 H2; [lia|].
  destruct f2 as [|f2]; [lia|]. cbn [matchAllFrom].
  pose proof (exec_split l) as Hs.
  destruct (exec l) as [m r]. cbn [fst snd] in Hs.
  assert (Hlen : length l = (length m + length r)%nat)
    by (rewrite Hs at 1; apply length_app).
  destruct m as [|c m].
  - destruct r as [|c r]; [reflexivity|]. f_equal.
    apply IH; cbn [length] in Hlen; lia.
  - f_equal. apply IH; cbn [length] in Hlen; lia.
Qed.

End TokenizerLoop.

(** ** sanitizeArgs *)

Section Sanitize.
Import Js CompileCommand.

Lemma filterSt_app {A S} (cb : S -> A -> bool * S) (s : S) (l1 l2 : list A) :
  filterSt cb s (l1 ++ l2) = filterSt cb s l1 ++ filterSt cb (finalSt cb s l1) l2.
Proof.
  revert s. induction l1 as [|x l1 IH]; intros s; simpl; [reflexivity|].
  destruct (cb s x) as [keep s'] eqn:E. simpl.
  destruct keep; simpl; now rewrite IH.
Qed.

Lemma finalSt_app {A S} (cb : S -> A -> bool * S) (s : S) (l1 l2 : list A) :
  finalSt cb s (l1 ++ l2) = finalSt cb (finalSt cb s l1) l2.
Proof.
  revert s. induction l1 as [|x l1 IH]; intros s; simpl; [reflexivity|]. apply IH.
Qed.

(** The array that [filter] returns holds the elements whose callback
    result is [true], in their order. *)
Lemma filterSt_mask {A S} (cb : S -> A -> bool * S) (s : S) (l : list A) :
  filterSt cb s l = map fst (List.filter snd (combine l (keepMask cb s l))).
Proof.
  revert s. induction l as [|x l IH]; intros s; simpl; [reflexivity|].
  destruct (cb s x) as [keep s'] eqn:E. simpl.
  destruct keep; simpl; now rewrite IH.
Qed.

Lemma sanitize_kept (b : bool) (args : list string) (x : string) :
  In x (filterSt sanitizeStep b args) -> x <> "-c" /\ x <> "-g" /\ x <> "-o".
Proof.
  revert b. induction args as [|a args IH]; intros b; simpl; [easy|].
  unfold sanitizeStep at 1.
  destruct b; simpl.
  - apply IH.
  - destruct (a =? "-o")%string eqn:Eo; simpl; [apply IH|].
    destruct (a =? "-c")%string eqn:Ec; simpl; [apply IH|].
    destruct (a =? "-g")%string eqn:Eg; simpl; [apply IH|].
    intros [<-|H]; [|eapply IH; eauto].
    apply String.eqb_neq in Eo, Ec, Eg. auto.
Qed.

End Sanitize.

Section SanitizeSpec.
Import Js CompileCommand.

(** C3, as stated, is false: the claim lets no token survive that comes
    right after a dropped [-o].  In [-o -o x] the second [-o] is dropped as
    the output value of the first, and [x], which follows it, is kept. *)
Lemma sanitizeArgs_keeps_token_after_o_value :
  sanitizeArgs ["-o"; "-o"; "x"] = ["x"] /\
  keepMask sanitizeStep false ["-o"; "-o"; "x"] = [false; false; true] /\
  ~ (forall (args : list string) (i : nat) (tok : string),
       nth_error args i = Some "-o" ->
       nth_error (keepMask sanitizeStep false args) i = Some false ->
       nth_error args (S i) = Some tok ->
       nth_error (keepMask sanitizeStep false args) (S i) = Some false).
Proof.
  split; [reflexivity|]. split; [reflexivity|].
  intros H.
  specialize (H ["-o"; "-o"; "x"] 1%nat "x" eq_refl eq_refl eq_refl).
  discriminate H.
Qed.

(** C3 (amended): [sanitizeArgs] is one left-to-right pass.  On the raw
    arguments [-c -g -O2 -o out.o foo.c] it yields exactly [-O2 foo.c].
    For every argument list the result holds no [-c], no [-g] and no [-o];
    a [-o] met in flag position (the pass is not waiting for an output
    value when it reaches it) is dropped together with the token right
    after it, whatever that token is; and a final [-o] drops nothing but
    itself. *)
Theorem sanitizeArgs_spec :
  sanitizeArgs ["-c"; "-g"; "-O2"; "-o"; "out.o"; "foo.c"] = ["-O2"; "foo.c"] /\
  (forall args : list string,
     ~ In "-c" (sanitizeArgs args) /\
     ~ In "-g" (sanitizeArgs args) /\
     ~ In "-o" (sanitizeArgs args)) /\
  (forall (pre : list string) (x : string) (post : list string),
     finalSt sanitizeStep false pre = false ->
     sanitizeArgs (pre ++ "-o" :: x :: post) = sanitizeArgs pre ++ sanitizeArgs post) /\
  (forall pre : list string, sanitizeArgs (pre ++ ["-o"]) = sanitizeArgs pre).
Proof.
  split; [reflexivity|]. split; [|split].
  - intros args. repeat split; intros H; apply sanitize_kept in H; tauto.
  - intros pre x post Hpre. unfold sanitizeArgs.
    rewrite filterSt_app, Hpre. reflexivity.
  - intros pre. unfold sanitizeArgs. rewrite filterSt_app.
    destruct (finalSt sanitizeStep false pre); simpl; now rewrite app_nil_r.
Qed.

Lemma sanitizeArgs_spec_witness :
  finalSt sanitizeStep false ["-O2"] = false /\
  sanitizeArgs (["-O2"] ++ "-o" :: "a.o" :: ["a.c"]) =
  sanitizeArgs ["-O2"] ++ sanitizeArgs ["a.c"].
Proof.
  split; [reflexivity|].
  apply (proj1 (proj2 (proj2 sanitizeArgs_spec))). reflexivity.
Defined.

End SanitizeSpec.

(** ** Command synthesis *)

Section Synthesis.
Import Js CompileCommand.

(** C5, as stated, is false: for the entry [cc -O2 -c a.c] the output
    clause is not after the sanitized arguments but before them. *)
Lemma output_clause_not_last :
  getLLVMDisassembleCommand (process "/" (entry "a.c" "cc -O2 -c a.c" [] "/p")) "a.ll"
    = "cc -g -S -emit-llvm -o a.ll -O2 a.c" /\
  llvmCommandAsSpecified (process "/" (entry "a.c" "cc -O2 -c a.c" [] "/p")) "a.ll"
    = "cc -g -S -emit-llvm -O2 a.c -o a.ll" /\
  getLLVMDisassembleCommand (process "/" (entry "a.c" "cc -O2 -c a.c" [] "/p")) "a.ll"
    <> llvmCommandAsSpecified (process "/" (entry "a.c" "cc -O2 -c a.c" [] "/p")) "a.ll" /\
  getPreprocessCommand (process "/" (entry "a.c" "cc -O2 -c a.c" [] "/p")) "a.i"
    = "cc -E -o a.i -O2 a.c" /\
  preprocessCommandAsSpecified (process "/" (entry "a.c" "cc -O2 -c a.c" [] "/p")) "a.i"
    = "cc -E -O2 a.c -o a.i" /\
  getPreprocessCommand (process "/" (entry "a.c" "cc -O2 -c a.c" [] "/p")) "a.i"
    <> preprocessCommandAsSpecified (process "/" (entry "a.c" "cc -O2 -c a.c" [] "/p")) "a.i".
Proof. repeat split; vm_compute; try reflexivity; discriminate. Qed.

(** C5 (amended): for every CompileCommand and target path the
    IntermediateRepresentation command is the executable, then
    [-g -S -emit-llvm], then the output clause [-o <target>], then the
    arguments, each after one space; the Preprocessed command is the
    executable, then [-E], then [-o <target>], then the arguments.  After
    [process] the executable is the first token of the entry and the
    arguments are the sanitized remaining tokens.  In both commands the
    output clause comes before the sanitized arguments. *)
Theorem output_clause_precedes_arguments :
  forall (c : t) (target : string),
    getLLVMDisassembleCommand c target
      = command c +:+ " -g -S -emit-llvm -o " +:+ target +:+ spaced (args c) /\
    getPreprocessCommand c target
      = command c +:+ " -E -o " +:+ target +:+ spaced (args c) /\
    forall cwd : string,
      command (process cwd c) = hd "" (commands c) /\
      args (process cwd c) = sanitizeArgs (tl (commands c)).
Proof.
  intros c target. split; [|split].
  - unfold getLLVMDisassembleCommand, getCommand.
    change ([command c; "-g"; "-S"; "-emit-llvm"; "-o"; target] ++ args c)
      with (command c :: (["-g"; "-S"; "-emit-llvm"; "-o"; target] ++ args c)).
    rewrite join_cons_spaced, spaced_app.
    cbv beta iota delta [spaced]. rewrite append_nil_r, !append_assoc.
    reflexivity.
  - unfold getPreprocessCommand, getCommand.
    change ([command c; "-E"; "-o"; target] ++ args c)
      with (command c :: (["-E"; "-o"; target] ++ args c)).
    rewrite join_cons_spaced, spaced_app.
    cbv beta iota delta [spaced]. rewrite append_nil_r, !append_assoc.
    reflexivity.
  - intros cwd. split; reflexivity.
Qed.

(** C4, as stated, is false: whatever the host's working directory, the
    target path and the output directory, the Disassembly command of the
    entry is not the specified string; the source file [a.c] stays among
    the arguments and comes before the output clause. *)
Lemma disassembly_command_not_as_specified :
  ~ exists cwd target out : string,
      getDisassembleCommand (process cwd entryP6) target = commandAsSpecifiedP6 out.
Proof.
  intros (cwd & target & out & H).
  vm_compute in H. discriminate H.
Qed.

End Synthesis.

(** ** The registry *)

Section Registry.
Import Js CompileCommands.
Variable env : Env.

(** With an undefined error channel [execCompileCommand] throws at
    [this.errorChannel.clear()], before anything else. *)
Lemma execCompileCommand_undefined (key : string) (ci : CompileInfo.t) (s : Sys) :
  errorChannel (statics s) = None ->
  execCompileCommand env key ci s = Throw (undefinedChannel "clear") s.
Proof.
  intros H. unfold execCompileCommand, bind, getExtraCompileArgs, gets, clear.
  rewrite H. reflexivity.
Qed.

Lemma execCompileCommand_eq (key : string) (ci : CompileInfo.t) (s : Sys)
    (lines : list string) :
  errorChannel (statics s) = Some lines ->
  execCompileCommand env key ci s =
  Ret (if failed (fst (buildRun env ci s))
       then CError (errorText (fst (buildRun env ci s))) else CTrue)
      (mkSys
         (mkStatics
            (if failed (fst (buildRun env ci s)) then compileCommands (statics s)
             else <[key := CompileInfo.setExtraArgs ci (extraArgs (statics s))]>
                    (compileCommands (statics s)))
            (asmUriMap (statics s)) (llvmUriMap (statics s))
            (preprocessUriMap (statics s)) (initTime (statics s))
            (extraArgs (statics s)) (Some (execLog env ci s)))
         (snd (filtRun env ci s))
         (spawned s ++ [(buildCommand ci s, CompileInfo.compilationDirectory ci);
                        (filtcmd (Uri.fsPath (CompileInfo.uri ci)),
                         CompileInfo.compilationDirectory ci)])).
Proof.
  unfold execLog, filtRun, buildRun, buildCommand.
  destruct s as [st w sp]. destruct st as [cc am lm pm it ea ch].
  cbn [statics errorChannel]. intros ->.
  unfold execCompileCommand, bind, getExtraCompileArgs, gets, modify, clear, appendLine,
    spawn, setRecord, ret, setStatics.
  cbn -[join filtcmd intToString errorText failed].
  destruct (spawnSync env w _ _) as [r w1] eqn:E1.
  cbn -[join filtcmd intToString errorText failed].
  destruct (spawnSync env w1 _ _) as [r2 w2] eqn:E2.
  cbn -[join filtcmd intToString errorText failed].
  destruct (status r2); cbn -[join filtcmd intToString errorText failed];
    destruct (failed r); rewrite <- app_assoc; reflexivity.
Qed.

(** *** Freshness comparisons *)


Lemma fileNewer_falsy (source : string) (target : Target) (s : Sys) :
  falsy target = true -> fileNewer source target s = Ret true s.
Proof. intros H. unfold fileNewer. rewrite H. reflexivity. Qed.

Lemma fileNewer_date (source : string) (d : Z) (s : Sys) :
  fileNewer source (TDate d) s =
  match Fs.mtime (world s) source with
  | Some m => Ret (d <? m)%Z s
  | None => Throw enoent s
  end.
Proof.
  unfold fileNewer, bind, Fs.statSync, ret. cbn [falsy].
  destruct (Fs.mtime (world s) source); reflexivity.
Qed.

Lemma fileNewer_path (source p : string) (s : Sys) :
  p <> "" ->
  fileNewer source (TPath p) s =
  match Fs.mtime (world s) source with
  | Some m =>
      Ret (match Fs.mtime (world s) p with
           | Some t => (t <? m)%Z
           | None => true
           end) s
  | None => Throw enoent s
  end.
Proof.
  intros Hp. apply String.eqb_neq in Hp.
  unfold fileNewer, bind, Fs.statSync, Fs.existsSync, gets, ret. cbn [falsy].
  rewrite Hp.
  destruct (Fs.mtime (world s) source); [|reflexivity].
  destruct (Fs.mtime (world s) p) eqn:Ep; cbn beta iota; rewrite ?Ep; reflexivity.
Qed.

Lemma mtime_empty (w : World) : Fs.mtime w "" = None.
Proof. reflexivity. Qed.

(** The staleness test in one expression, when the two files it stats
    first exist. *)
Lemma needCompilation_eq (ci : CompileInfo.t) (s : Sys) (ms md : Z) :
  Fs.mtime (world s) (Uri.path (CompileInfo.srcUri ci)) = Some ms ->
  Fs.mtime (world s) (getCompileCommandsPath env) = Some md ->
  needCompilation env ci s =
  Ret (CompileInfo.extraArgsChanged ci (extraArgs (statics s))
       || match Fs.mtime (world s) (Uri.path (CompileInfo.uri ci)) with
          | Some ma => (ma <? ms)%Z || (ma <? md)%Z
          | None => true
          end) s.
Proof.
  intros Hs Hd. unfold needCompilation, bind, gets, ret.
  destruct (CompileInfo.extraArgsChanged ci (extraArgs (statics s))); [reflexivity|].
  cbn [orb].
  destruct (String.eqb_spec (Uri.path (CompileInfo.uri ci)) "") as [E|E].
  - rewrite fileNewer_falsy by (cbn; rewrite E; reflexivity).
    rewrite E. reflexivity.
  - rewrite fileNewer_path, Hs by assumption.
    destruct (Fs.mtime (world s) (Uri.path (CompileInfo.uri ci))) as [ma|] eqn:Ea;
      [|reflexivity].
    destruct (ma <? ms)%Z; [reflexivity|].
    rewrite fileNewer_path, Hd, Ea by assumption. reflexivity.
Qed.

(** C1 (amended): [needCompilation] looks at the extra arguments first,
    then stats the source file, then the compilation database, each
    without a guard.  When the current extra arguments differ from the
    record's last ones (as lists, so order counts) it returns [true] and
    looks at no file.  When they are the same: with the source file
    missing it throws (for a record whose artifact path is not empty);
    with the source file present it returns [true] when the artifact is
    absent or older than the source, and otherwise it throws when the
    database file is missing.  So, when the source file and the database
    file both exist, it returns, and it returns [true] exactly when the
    extra arguments differ, or the artifact is absent or older than the
    source file, or the artifact is older than the database file. *)
Theorem needCompilation_iff :
  forall (ci : CompileInfo.t) (s : Sys),
    (extraArgs (statics s) <> CompileInfo.extraArgs ci ->
     needCompilation env ci s = Ret true s) /\
    (extraArgs (statics s) = CompileInfo.extraArgs ci ->
     Uri.path (CompileInfo.uri ci) <> "" ->
     Fs.mtime (world s) (Uri.path (CompileInfo.srcUri ci)) = None ->
     needCompilation env ci s = Throw enoent s) /\
    (forall ms : Z,
       Fs.mtime (world s) (Uri.path (CompileInfo.srcUri ci)) = Some ms ->
       match Fs.mtime (world s) (Uri.path (CompileInfo.uri ci)) with
       | Some ma => (ma < ms)%Z
       | None => True
       end ->
       needCompilation env ci s = Ret true s) /\
    (forall ms ma : Z,
       extraArgs (statics s) = CompileInfo.extraArgs ci ->
       Fs.mtime (world s) (Uri.path (CompileInfo.srcUri ci)) = Some ms ->
       Fs.mtime (world s) (Uri.path (CompileInfo.uri ci)) = Some ma ->
       (ms <= ma)%Z ->
       Fs.mtime (world s) (getCompileCommandsPath env) = None ->
       needCompilation env ci s = Throw enoent s) /\
    (forall ms md : Z,
       Fs.mtime (world s) (Uri.path (CompileInfo.srcUri ci)) = Some ms ->
       Fs.mtime (world s) (getCompileCommandsPath env) = Some md ->
       exists b : bool,
         needCompilation env ci s = Ret b s /\
         (b = true <->
          extraArgs (statics s) <> CompileInfo.extraArgs ci \/
          match Fs.mtime (world s) (Uri.path (CompileInfo.uri ci)) with
          | Some ma => (ma < ms)%Z
          | None => True
          end \/
          exists ma : Z,
            Fs.mtime (world s) (Uri.path (CompileInfo.uri ci)) = Some ma /\
            (ma < md)%Z)).
Proof.
  intros ci s. split; [|split; [|split; [|split]]].
  - intros Hne. unfold needCompilation, bind, gets, CompileInfo.extraArgsChanged.
    destruct (arrayEquals _ _) eqn:E; [|reflexivity].
    apply arrayEquals_eq in E. contradiction.
  - intros Hargs Hart Hsrc.
    unfold needCompilation, bind, gets, CompileInfo.extraArgsChanged.
    rewrite Hargs. rewrite (proj2 (arrayEquals_eq _ _) eq_refl). cbn [negb].
    rewrite fileNewer_path, Hsrc by assumption. reflexivity.
  - intros ms Hsrc Hart.
    unfold needCompilation, bind, gets.
    destruct (CompileInfo.extraArgsChanged ci (extraArgs (statics s))); [reflexivity|].
    destruct (String.eqb_spec (Uri.path (CompileInfo.uri ci)) "") as [E|E].
    + rewrite fileNewer_falsy by (cbn; rewrite E; reflexivity). reflexivity.
    + rewrite fileNewer_path, Hsrc by assumption.
      destruct (Fs.mtime (world s) (Uri.path (CompileInfo.uri ci))) as [ma|];
        [|reflexivity].
      apply Z.ltb_lt in Hart. rewrite Hart. reflexivity.
  - intros ms ma Hargs Hsrc Hart Hle Hdb.
    assert (Hne : Uri.path (CompileInfo.uri ci) <> "").
    { intros E. rewrite E in Hart. discriminate Hart. }
    unfold needCompilation, bind, gets, CompileInfo.extraArgsChanged.
    rewrite Hargs. rewrite (proj2 (arrayEquals_eq _ _) eq_refl). cbn [negb].
    rewrite fileNewer_path, Hsrc, Hart by assumption.
    replace (ma <? ms)%Z with false by (symmetry; apply Z.ltb_ge; exact Hle).
    rewrite fileNewer_path, Hdb by assumption. reflexivity.
  - intros ms md Hs Hd.
    eexists. split; [apply (needCompilation_eq ci s ms md Hs Hd)|].
    unfold CompileInfo.extraArgsChanged.
    rewrite orb_true_iff, negb_true_iff.
    destruct (Fs.mtime (world s) (Uri.path (CompileInfo.uri ci))) as [ma|].
    + rewrite orb_true_iff, !Z.ltb_lt. split.
      * intros [H|[H|H]].
        -- left. intros E. apply arrayEquals_eq in E. congruence.
        -- right. left. exact H.
        -- right. right. exists ma. auto.
      * intros [H|[H|(ma' & E & H)]].
        -- left. destruct (arrayEquals _ _) eqn:E; [|reflexivity].
           apply arrayEquals_eq in E. contradiction.
        -- right. left. exact H.
        -- right. right. congruence.
    + split; auto.
Qed.

(** *** The reload check *)

Lemma update_eq (s : Sys) :
  update env s =
  match reloadDue env s with
  | Some true =>
      bind (init env (errorChannel (statics s))) (fun _ => ret tt) (withRecords ∅ s)
  | Some false => Ret tt s
  | None => Throw enoent s
  end.
Proof.
  unfold update, reloadDue, bind at 1, gets, initTimeTarget.
  destruct (initTime (statics s)) as [t0|].
  - unfold bind at 1. rewrite fileNewer_date.
    destruct (Fs.mtime (world s) (getCompileCommandsPath env)) as [md|]; [|reflexivity].
    destruct (t0 <? md)%Z; reflexivity.
  - unfold bind at 1. rewrite fileNewer_falsy by reflexivity. reflexivity.
Qed.

Lemma update_noop (s : Sys) : reloadDue env s = Some false -> update env s = Ret tt s.
Proof. intros H. rewrite update_eq, H. reflexivity. Qed.

Lemma update_throws (s : Sys) : reloadDue env s = None -> update env s = Throw enoent s.
Proof. intros H. rewrite update_eq, H. reflexivity. Qed.

Lemma reloadDue_withRecords (recs : gmap string CompileInfo.t) (s : Sys) :
  reloadDue env (withRecords recs s) = reloadDue env s.
Proof. reflexivity. Qed.

Lemma update_withRecords (recs : gmap string CompileInfo.t) (s : Sys) :
  reloadDue env s = Some true ->
  update env (withRecords recs s) = update env (withRecords ∅ s).
Proof.
  intros H. rewrite !update_eq, !reloadDue_withRecords, H. reflexivity.
Qed.

(** *** compile *)

Lemma compile_after_update (uri : Uri.t) (s s1 : Sys) :
  update env s = Ret tt s1 ->
  compile env uri s =
  match compileCommands (statics s1) !! Uri.path uri with
  | Some ci =>
      bind (needCompilation env ci)
        (fun need => if need then execCompileCommand env (Uri.path uri) ci
                     else ret CTrue) s1
  | None => Ret CFalse s1
  end.
Proof.
  intros H. unfold compile, bind at 1. rewrite H.
  unfold bind at 1, getCompileInfo, gets.
  destruct (compileCommands (statics s1) !! Uri.path uri); reflexivity.
Qed.

Lemma compile_throws (uri : Uri.t) (s s1 : Sys) (e : string) :
  update env s = Throw e s1 -> compile env uri s = Throw e s1.
Proof. intros H. unfold compile, bind at 1. rewrite H. reflexivity. Qed.

(** *** execCompileCommand *)

Lemma failed_iff (r : SpawnResult) :
  failed r = true <->
  (exists z : Z, status r = Some z /\ z <> 0%Z) \/ (exists m : string, error r = Some m).
Proof.
  unfold failed, truthyStatus. rewrite orb_true_iff. split.
  - intros [H|H].
    + destruct (status r) as [z|]; [|discriminate]. left. exists z. split; [reflexivity|].
      apply negb_true_iff, Z.eqb_neq in H. exact H.
    + destruct (error r) as [m|]; [|discriminate]. right. eauto.
  - intros [(z & -> & Hz)|(m & ->)]; [left|right; reflexivity].
    apply negb_true_iff, Z.eqb_neq. exact Hz.
Qed.

(** C6: on a registered record, [execCompileCommand] with a defined
    error channel returns, and the record's last extra arguments become
    the supplied (current) extra arguments exactly when the build
    succeeded; after a failed build, one with a nonzero exit status or one
    that could not be started, the record map is what it was.  With an
    undefined error channel it throws before any process is started and
    leaves the whole state, the record's last extra arguments among it, as
    it was. *)
Theorem lastExtraArgs_follows_build :
  forall (key : string) (ci : CompileInfo.t) (s : Sys),
    compileCommands (statics s) !! key = Some ci ->
    (errorChannel (statics s) = None ->
     execCompileCommand env key ci s = Throw (undefinedChannel "clear") s) /\
    forall lines : list string,
    errorChannel (statics s) = Some lines ->
    exists (r : CompileResult) (s' : Sys),
      execCompileCommand env key ci s = Ret r s' /\
      (failed (fst (buildRun env ci s)) = true <->
       (exists z : Z, status (fst (buildRun env ci s)) = Some z /\ z <> 0%Z) \/
       (exists m : string, error (fst (buildRun env ci s)) = Some m)) /\
      option_map CompileInfo.extraArgs (compileCommands (statics s') !! key)
        = Some (if failed (fst (buildRun env ci s))
                then CompileInfo.extraArgs ci
                else extraArgs (statics s)) /\
      (failed (fst (buildRun env ci s)) = true ->
       r <> CTrue /\ compileCommands (statics s') = compileCommands (statics s)) /\
      (failed (fst (buildRun env ci s)) = false -> r = CTrue) /\
      (forall k : string,
         k <> key -> compileCommands (statics s') !! k = compileCommands (statics s) !! k).
Proof.
  intros key ci s Hreg. split; [apply execCompileCommand_undefined|].
  intros lines Hch.
  eexists _, _. split; [apply (execCompileCommand_eq key ci s lines Hch)|].
  split; [apply failed_iff|]. cbn [statics compileCommands].
  destruct (failed (fst (buildRun env ci s))).
  - rewrite Hreg. split; [reflexivity|]. split; [|split]; [|discriminate|reflexivity].
    intros _. split; [discriminate|reflexivity].
  - rewrite lookup_insert_eq. split; [reflexivity|]. split; [discriminate|].
    split; [reflexivity|].
    intros k Hk. rewrite lookup_insert_ne by congruence. reflexivity.
Qed.

(** *** Loading *)

Lemma retOf_Ret {A} (o : Outcome A) (a : A) (s : Sys) :
  retOf o = Some (a, s) <-> o = Ret a s.
Proof.
  destruct o as [a' s'|e s']; cbn; split; intros H; try discriminate;
    injection H as -> ->; reflexivity.
Qed.

Lemma createOutputDirectory_eq (s : Sys) :
  createOutputDirectory env s =
  match ensureOutDir env (world s) with
  | Some w => Ret tt (mkSys (statics s) w (spawned s))
  | None => Throw "ENOENT: no such file or directory, mkdir" s
  end.
Proof.
  unfold createOutputDirectory, bind, Fs.existsSync, gets, Fs.mkdirSync, ret,
    ensureOutDir.
  destruct s as [st w sp]. cbn [world statics spawned].
  destruct (Fs.mtime w (outDir env)); [reflexivity|].
  cbn [world statics spawned].
  destruct (makeDirectory env w (outDir env)); reflexivity.
Qed.

Lemma getUriForScheme_eq (srcUri : Uri.t) (scheme : string) (s : Sys) :
  getUriForScheme env srcUri scheme s =
  match ensureOutDir env (world s) with
  | Some w => Ret (artifactUri env srcUri scheme) (mkSys (statics s) w (spawned s))
  | None => Throw "ENOENT: no such file or directory, mkdir" s
  end.
Proof.
  unfold getUriForScheme, bind. rewrite createOutputDirectory_eq.
  destruct (ensureOutDir env (world s)); reflexivity.
Qed.

(** [processCompileCommand] returns exactly when its three calls of
    [createOutputDirectory] do, and then it has registered the entry. *)
Lemma processCompileCommand_ret (entry : CompileCommand.t) (s : Sys) :
  retOf (processCompileCommand env entry s) =
  match ensureOutDir3 env (world s) with
  | Some w => Some (tt, mkSys (register env entry (statics s)) w (spawned s))
  | None => None
  end.
Proof.
  unfold processCompileCommand, encodeAsmUri, encodeLLVMUri, encodePreprocessUri,
    ensureOutDir3.
  destruct s as [st w sp]. destruct st as [cc am lm pm it ea ch].
  unfold bind at 1. rewrite getUriForScheme_eq. cbn [world statics spawned].
  destruct (ensureOutDir env w) as [w1|]; [|reflexivity].
  unfold bind at 1. rewrite getUriForScheme_eq. cbn [world statics spawned].
  destruct (ensureOutDir env w1) as [w2|]; [|reflexivity].
  unfold bind at 1. rewrite getUriForScheme_eq. cbn [world statics spawned].
  destruct (ensureOutDir env w2) as [w3|]; reflexivity.
Qed.

Lemma forEach_processCompileCommand (entries : list CompileCommand.t) (s : Sys) :
  retOf (forEach (processCompileCommand env) entries s) =
  match registerAll env entries s with
  | Some s1 => Some (tt, s1)
  | None => None
  end.
Proof.
  revert s. induction entries as [|entry rest IH]; intros s; [reflexivity|].
  cbn [forEach registerAll]. unfold bind.
  pose proof (processCompileCommand_ret entry s) as H.
  destruct (processCompileCommand env entry s) as [[] s1|e s1]; cbn [retOf] in H.
  - destruct (ensureOutDir3 env (world s)) as [w|]; [|discriminate].
    injection H as ->. apply IH.
  - destruct (ensureOutDir3 env (world s)); [discriminate|reflexivity].
Qed.

(** [init] in closed form: what it returns, and when. *)
Lemma init_ret (channel : option (list string)) (s : Sys) :
  retOf (init env channel s) =
  match Fs.mtime (world s) (getCompileCommandsPath env) with
  | None => Some (false, s)
  | Some _ =>
      match database (world s) with
      | None => None
      | Some entries =>
          match loaded env channel entries s with
          | Some s1 => Some (true, s1)
          | None => None
          end
      end
  end.
Proof.
  unfold init, bind at 1, Fs.existsSync, gets.
  destruct (Fs.mtime (world s) (getCompileCommandsPath env)); [|reflexivity].
  unfold bind at 1, parseCompileCommands.
  destruct (database (world s)) as [entries|]; [|reflexivity].
  unfold bind at 1, loaded.
  pose proof (forEach_processCompileCommand entries s) as H.
  destruct (forEach (processCompileCommand env) entries s) as [[] s1|e s1];
    cbn [retOf] in H.
  - destruct (registerAll env entries s) as [s1'|]; [|discriminate].
    injection H as H. subst s1'.
    unfold bind at 1, modify. unfold bind at 1. rewrite createOutputDirectory_eq.
    cbn [setStatics world statics spawned].
    destruct (ensureOutDir env (world s1)); reflexivity.
  - destruct (registerAll env entries s); [discriminate|reflexivity].
Qed.

(** Without a database file [init] returns [false] and changes nothing. *)
Lemma init_missing (channel : option (list string)) (s : Sys) :
  Fs.mtime (world s) (getCompileCommandsPath env) = None ->
  init env channel s = Ret false s.
Proof. intros H. apply retOf_Ret. rewrite init_ret, H. reflexivity. Qed.

(** With a database file that does not parse [init] throws and changes
    nothing. *)
Lemma init_unparsable (channel : option (list string)) (s : Sys) (md : Z) :
  Fs.mtime (world s) (getCompileCommandsPath env) = Some md ->
  database (world s) = None ->
  init env channel s = Throw "cannot parse the compilation database" s.
Proof.
  intros Hdb Hparse. unfold init, bind at 1, Fs.existsSync, gets.
  rewrite Hdb. unfold bind at 1, parseCompileCommands. rewrite Hparse. reflexivity.
Qed.

(** A load that succeeds, in closed form. *)
Lemma init_loaded (channel : option (list string)) (s s1 : Sys) (md : Z)
    (entries : list CompileCommand.t) :
  Fs.mtime (world s) (getCompileCommandsPath env) = Some md ->
  database (world s) = Some entries ->
  init env channel s = Ret true s1 <-> loaded env channel entries s = Some s1.
Proof.
  intros Hdb Hparse. rewrite <- retOf_Ret, init_ret, Hdb, Hparse.
  destruct (loaded env channel entries s) as [s2|]; split; intros H;
    try discriminate; injection H as ->; reflexivity.
Qed.

(** A load that returns [true] found a database that parses. *)
Lemma init_true (channel : option (list string)) (s s1 : Sys) :
  init env channel s = Ret true s1 ->
  exists entries : list CompileCommand.t,
    database (world s) = Some entries /\ loaded env channel entries s = Some s1.
Proof.
  intros H. apply retOf_Ret in H. rewrite init_ret in H.
  destruct (Fs.mtime (world s) (getCompileCommandsPath env)); [|discriminate].
  destruct (database (world s)) as [entries|]; [|discriminate].
  exists entries. split; [reflexivity|].
  destruct (loaded env channel entries s); [|discriminate].
  injection H as ->. reflexivity.
Qed.

Lemma ensureOutDir_exists (w : World) (mo : Z) :
  Fs.mtime w (outDir env) = Some mo -> ensureOutDir env w = Some w.
Proof. intros H. unfold ensureOutDir. rewrite H. reflexivity. Qed.

Lemma ensureOutDir_now (w w1 : World) :
  ensureOutDir env w = Some w1 -> now w1 = now w /\ database w1 = database w.
Proof.
  unfold ensureOutDir. destruct (Fs.mtime w (outDir env)).
  - intros H. injection H as <-. split; reflexivity.
  - destruct (makeDirectory env w (outDir env)); [|discriminate].
    intros H. injection H as <-. split; reflexivity.
Qed.

Lemma ensureOutDir3_exists (w : World) (mo : Z) :
  Fs.mtime w (outDir env) = Some mo -> ensureOutDir3 env w = Some w.
Proof.
  intros H. unfold ensureOutDir3. rewrite !(ensureOutDir_exists w mo H). reflexivity.
Qed.

Lemma ensureOutDir3_now (w w1 : World) :
  ensureOutDir3 env w = Some w1 -> now w1 = now w /\ database w1 = database w.
Proof.
  unfold ensureOutDir3.
  destruct (ensureOutDir env w) as [wa|] eqn:Ea; [|discriminate].
  destruct (ensureOutDir env wa) as [wb|] eqn:Eb; [|discriminate].
  intros Ec.
  apply ensureOutDir_now in Ea, Eb, Ec. destruct Ea, Eb, Ec. split; congruence.
Qed.

(** What a registration that returns leaves: the statics in closed form,
    the processes started, the clock and the database as they were. *)
Lemma registerAll_Some (entries : list CompileCommand.t) (s s1 : Sys) :
  registerAll env entries s = Some s1 ->
  statics s1 = registerStatics env entries (statics s) /\
  spawned s1 = spawned s /\
  now (world s1) = now (world s) /\
  database (world s1) = database (world s).
Proof.
  revert s. induction entries as [|entry rest IH]; intros s.
  - intros H. injection H as <-. repeat split.
  - cbn [registerAll registerStatics].
    destruct (ensureOutDir3 env (world s)) as [w|] eqn:Ew; [|discriminate].
    intros H. apply IH in H. cbn [statics spawned world] in H.
    apply ensureOutDir3_now in Ew. destruct Ew, H as (? & ? & ? & ?).
    repeat split; congruence.
Qed.

(** With the output directory in place, registration returns and leaves
    the world as it was. *)
Lemma registerAll_exists (entries : list CompileCommand.t) (s : Sys) (mo : Z) :
  Fs.mtime (world s) (outDir env) = Some mo ->
  registerAll env entries s
  = Some (mkSys (registerStatics env entries (statics s)) (world s) (spawned s)).
Proof.
  intros Hout. revert s Hout. induction entries as [|entry rest IH]; intros s Hout.
  - destruct s. reflexivity.
  - cbn [registerAll registerStatics]. rewrite (ensureOutDir3_exists _ mo Hout).
    rewrite IH by exact Hout. reflexivity.
Qed.

Lemma loaded_Some (channel : option (list string)) (entries : list CompileCommand.t)
    (s s1 : Sys) :
  loaded env channel entries s = Some s1 ->
  statics s1 = setInitTime (Some (now (world s1)))
                 (setErrorChannel channel (registerStatics env entries (statics s))) /\
  spawned s1 = spawned s /\
  now (world s1) = now (world s) /\
  database (world s1) = database (world s).
Proof.
  unfold loaded.
  destruct (registerAll env entries s) as [s2|] eqn:E; [|discriminate].
  destruct (ensureOutDir env (world s2)) as [w|] eqn:Ew; [|discriminate].
  intros H. injection H as <-. cbn [statics spawned world].
  apply registerAll_Some in E. destruct E as (-> & -> & <- & <-).
  apply ensureOutDir_now in Ew. destruct Ew. repeat split; assumption.
Qed.

Lemma loaded_exists (channel : option (list string)) (entries : list CompileCommand.t)
    (s : Sys) (mo : Z) :
  Fs.mtime (world s) (outDir env) = Some mo ->
  loaded env channel entries s
  = Some (mkSys (setInitTime (Some (now (world s)))
                   (setErrorChannel channel
                      (registerStatics env entries (statics s))))
                (world s) (spawned s)).
Proof.
  intros Hout. unfold loaded. rewrite (registerAll_exists entries s mo Hout).
  cbn [world statics spawned]. rewrite (ensureOutDir_exists _ mo Hout). reflexivity.
Qed.

(** [init] starts no process. *)
Lemma init_spawned (channel : option (list string)) (s s1 : Sys) (b : bool) :
  init env channel s = Ret b s1 -> spawned s1 = spawned s.
Proof.
  intros H. apply retOf_Ret in H. rewrite init_ret in H.
  destruct (Fs.mtime (world s) (getCompileCommandsPath env)).
  - destruct (database (world s)) as [entries|]; [|discriminate].
    destruct (loaded env channel entries s) as [s2|] eqn:E; [|discriminate].
    injection H as _ <-. apply loaded_Some in E. apply E.
  - injection H as _ <-. reflexivity.
Qed.

(** [update] starts no process. *)
Lemma update_spawned (s s1 : Sys) :
  update env s = Ret tt s1 -> spawned s1 = spawned s.
Proof.
  rewrite update_eq. destruct (reloadDue env s) as [[|]|]; [| |discriminate].
  - unfold bind.
    destruct (init env (errorChannel (statics s)) (withRecords ∅ s)) as [b s2|e s2] eqn:E;
      [|discriminate].
    cbn [ret]. intros H. injection H as <-. apply init_spawned in E. exact E.
  - intros E. injection E as <-. reflexivity.
Qed.

(** A reload that is due and succeeds, in closed form. *)
Lemma update_loaded (s s1 : Sys) (md : Z) (entries : list CompileCommand.t) :
  reloadDue env s = Some true ->
  Fs.mtime (world s) (getCompileCommandsPath env) = Some md ->
  database (world s) = Some entries ->
  update env s = Ret tt s1 <->
  loaded env (errorChannel (statics s)) entries (withRecords ∅ s) = Some s1.
Proof.
  intros Hdue Hdb Hparse. rewrite update_eq, Hdue.
  rewrite <- (init_loaded (errorChannel (statics s)) (withRecords ∅ s) s1 md entries)
    by assumption.
  unfold bind.
  pose proof (init_ret (errorChannel (statics s)) (withRecords ∅ s)) as H.
  cbn [withRecords setStatics world] in H. rewrite Hdb, Hparse in H.
  destruct (init env (errorChannel (statics s)) (withRecords ∅ s)) as [b s2|e s2].
  - cbn [retOf] in H.
    destruct (loaded env (errorChannel (statics s)) entries _); [|discriminate].
    injection H as -> ->. cbn [ret]. split; intros E; injection E as ->; reflexivity.
  - split; discriminate.
Qed.

(** *** Requests that find the artifact fresh *)

Lemma compile_fresh (uri : Uri.t) (ci : CompileInfo.t) (s : Sys) :
  reloadDue env s = Some false ->
  compileCommands (statics s) !! Uri.path uri = Some ci ->
  needCompilation env ci s = Ret false s ->
  compile env uri s = Ret CTrue s.
Proof.
  intros Hdue Hrec Hneed.
  rewrite (compile_after_update uri s s (update_noop s Hdue)), Hrec.
  unfold bind. rewrite Hneed. reflexivity.
Qed.

Lemma requests_fresh (n : nat) (uri : Uri.t) (ci : CompileInfo.t) (s : Sys) :
  reloadDue env s = Some false ->
  compileCommands (statics s) !! Uri.path uri = Some ci ->
  needCompilation env ci s = Ret false s ->
  requests env n uri s = Ret (repeat CTrue n) s.
Proof.
  intros Hdue Hrec Hneed. induction n as [|n IH]; [reflexivity|].
  cbn [requests repeat]. unfold bind at 1. rewrite (compile_fresh uri ci s Hdue Hrec Hneed).
  unfold bind. rewrite IH. reflexivity.
Qed.

Lemma arrayEquals_refl (a : list string) : arrayEquals a a = true.
Proof. apply arrayEquals_eq. reflexivity. Qed.

(** C2 (amended): [compile] returns [false] when, after the reload
    check, no record exists for the artifact.  When the database is not
    newer than the last load, a record exists and it is not stale,
    [compile] returns [true] and leaves the whole system as it was: no
    process is started and nothing is written.  (When a reload was due and
    returned, the state left is the one the reload check produced, and
    still no process is started.)  When no reload is due, the error
    channel is defined, the requested artifact is stale, its build
    succeeds, and after the build no reload is due and the artifact exists
    and is no older than the source file and the database file, any
    number of requests in a row return [true] and run the build command
    exactly once: the processes started are the one build and its
    demangling pass. *)
Theorem compile_builds_once :
  (forall (uri : Uri.t) (s s1 : Sys),
     update env s = Ret tt s1 ->
     compileCommands (statics s1) !! Uri.path uri = None ->
     compile env uri s = Ret CFalse s1) /\
  (forall (uri : Uri.t) (ci : CompileInfo.t) (s : Sys),
     reloadDue env s = Some false ->
     compileCommands (statics s) !! Uri.path uri = Some ci ->
     needCompilation env ci s = Ret false s ->
     compile env uri s = Ret CTrue s) /\
  (forall (uri : Uri.t) (ci : CompileInfo.t) (s s1 : Sys),
     update env s = Ret tt s1 ->
     compileCommands (statics s1) !! Uri.path uri = Some ci ->
     needCompilation env ci s1 = Ret false s1 ->
     compile env uri s = Ret CTrue s1 /\ spawned s1 = spawned s) /\
  (forall (uri : Uri.t) (ci : CompileInfo.t) (s : Sys) (ms md ma : Z),
     reloadDue env s = Some false ->
     compileCommands (statics s) !! Uri.path uri = Some ci ->
     needCompilation env ci s = Ret true s ->
     is_Some (errorChannel (statics s)) ->
     failed (fst (buildRun env ci s)) = false ->
     let s1 := stateOf (execCompileCommand env (Uri.path uri) ci s) in
     reloadDue env s1 = Some false ->
     Fs.mtime (world s1) (Uri.path (CompileInfo.srcUri ci)) = Some ms ->
     Fs.mtime (world s1) (getCompileCommandsPath env) = Some md ->
     Fs.mtime (world s1) (Uri.path (CompileInfo.uri ci)) = Some ma ->
     (ms <= ma)%Z ->
     (md <= ma)%Z ->
     forall n : nat,
       requests env (S n) uri s = Ret (repeat CTrue (S n)) s1 /\
       spawned s1 =
         spawned s ++
         [(buildCommand ci s, CompileInfo.compilationDirectory ci);
          (filtcmd (Uri.fsPath (CompileInfo.uri ci)),
           CompileInfo.compilationDirectory ci)]).
Proof.
  split; [|split; [|split]].
  - intros uri s s1 Hup Hrec.
    rewrite (compile_after_update uri s s1 Hup), Hrec. reflexivity.
  - intros uri ci s. apply compile_fresh.
  - intros uri ci s s1 Hup Hrec Hneed. split.
    + rewrite (compile_after_update uri s s1 Hup), Hrec.
      unfold bind. rewrite Hneed. reflexivity.
    + apply update_spawned. exact Hup.
  - intros uri ci s ms md ma Hdue Hrec Hneed [lines Hch] Hok s1 Hdue1 Hsrc Hdb Hart
      Hsa Hda n.
    assert (Hfirst : compile env uri s = Ret CTrue s1).
    { rewrite (compile_after_update uri s s (update_noop s Hdue)), Hrec.
      unfold bind. rewrite Hneed. subst s1.
      rewrite (execCompileCommand_eq _ _ _ lines Hch), Hok. reflexivity. }
    subst s1. rewrite (execCompileCommand_eq _ _ _ lines Hch), Hok in *.
    cbn [stateOf] in *.
    split; [|reflexivity].
    cbn [requests repeat]. unfold bind at 1. rewrite Hfirst.
    unfold bind.
    erewrite (requests_fresh n uri (CompileInfo.setExtraArgs ci (extraArgs (statics s)))).
    + reflexivity.
    + exact Hdue1.
    + cbn [statics compileCommands]. apply lookup_insert_eq.
    + cbn [world] in Hsrc, Hdb, Hart.
      erewrite needCompilation_eq; cbn [world statics extraArgs CompileInfo.setExtraArgs
        CompileInfo.srcUri CompileInfo.uri]; [|exact Hsrc|exact Hdb].
      unfold CompileInfo.extraArgsChanged. cbn [CompileInfo.extraArgs CompileInfo.setExtraArgs].
      rewrite arrayEquals_refl, Hart.
      replace (ma <? ms)%Z with false by (symmetry; apply Z.ltb_ge; lia).
      replace (ma <? md)%Z with false by (symmetry; apply Z.ltb_ge; lia).
      reflexivity.
Qed.

(** *** The operations that check for a reload *)

Lemma reload_served (uri : Uri.t) (recs : gmap string CompileInfo.t) (s : Sys) :
  reloadDue env s = Some true ->
  compile env uri (withRecords recs s) = compile env uri (withRecords ∅ s) /\
  getSrcUri env uri (withRecords recs s) = getSrcUri env uri (withRecords ∅ s) /\
  getAsmUri env uri (withRecords recs s) = getAsmUri env uri (withRecords ∅ s) /\
  getLLVMUri env uri (withRecords recs s) = getLLVMUri env uri (withRecords ∅ s) /\
  getPreprocessUri env uri (withRecords recs s)
    = getPreprocessUri env uri (withRecords ∅ s).
Proof.
  intros H.
  unfold compile, getSrcUri, getAsmUri, getLLVMUri, getPreprocessUri, bind.
  rewrite (update_withRecords recs s H). repeat split.
Qed.

(** C8 (amended): [compile], [getSrcUri], [getAsmUri], [getLLVMUri] and
    [getPreprocessUri] each begin with the reload check.  When the database
    file is newer than the last load, or nothing was loaded yet, the check
    empties the record map and runs [init] again, so that the outcome of
    the operation is the same whatever records were held before the call;
    when the database parses and the load goes through, the state served
    is the one [init] builds from the emptied record map.  When the file
    is not newer the check changes nothing. *)
Theorem reload_check_before_serving :
  forall (uri : Uri.t) (s : Sys),
    (reloadDue env s = Some true ->
     (forall recs : gmap string CompileInfo.t,
        compile env uri (withRecords recs s) = compile env uri (withRecords ∅ s) /\
        getSrcUri env uri (withRecords recs s) = getSrcUri env uri (withRecords ∅ s) /\
        getAsmUri env uri (withRecords recs s) = getAsmUri env uri (withRecords ∅ s) /\
        getLLVMUri env uri (withRecords recs s) = getLLVMUri env uri (withRecords ∅ s) /\
        getPreprocessUri env uri (withRecords recs s)
          = getPreprocessUri env uri (withRecords ∅ s)) /\
     (forall (md : Z) (entries : list CompileCommand.t) (s1 : Sys),
        Fs.mtime (world s) (getCompileCommandsPath env) = Some md ->
        database (world s) = Some entries ->
        loaded env (errorChannel (statics s)) entries (withRecords ∅ s) = Some s1 ->
        update env s = Ret tt s1)) /\
    (reloadDue env s = Some false -> update env s = Ret tt s).
Proof.
  intros uri s. split; [|apply update_noop].
  intros Hdue. split.
  - intros recs. apply reload_served. exact Hdue.
  - intros md entries s1 Hdb Hparse Hload.
    apply (update_loaded s s1 md entries Hdue Hdb Hparse). exact Hload.
Qed.

(** *** Stats without an existence guard *)

Lemma lookups_throw (uri : Uri.t) (s : Sys) :
  reloadDue env s = None ->
  compile env uri s = Throw enoent s /\
  getSrcUri env uri s = Throw enoent s /\
  getAsmUri env uri s = Throw enoent s /\
  getLLVMUri env uri s = Throw enoent s /\
  getPreprocessUri env uri s = Throw enoent s.
Proof.
  intros H. unfold compile, getSrcUri, getAsmUri, getLLVMUri, getPreprocessUri, bind.
  rewrite (update_throws s H). repeat split.
Qed.

(** C10 (amended): the first path of a freshness comparison is stat'ed
    without a guard.  After a successful load, when the database file is
    gone, [compile], [getSrcUri], [getAsmUri], [getLLVMUri] and
    [getPreprocessUri] throw from that stat, leaving the state as it was.
    When the reload check has passed, [compile] on a record whose source
    file is gone throws as well, provided the current extra arguments are
    the record's last ones, so that the comparison of the source with the
    artifact is reached.  Only the second path is guarded: with an existing
    first path and a missing second one the comparison returns [true]. *)
Theorem first_path_stat_unguarded :
  (forall (uri : Uri.t) (s : Sys) (t0 : Z),
     initTime (statics s) = Some t0 ->
     Fs.mtime (world s) (getCompileCommandsPath env) = None ->
     compile env uri s = Throw enoent s /\
     getSrcUri env uri s = Throw enoent s /\
     getAsmUri env uri s = Throw enoent s /\
     getLLVMUri env uri s = Throw enoent s /\
     getPreprocessUri env uri s = Throw enoent s) /\
  (forall (uri : Uri.t) (ci : CompileInfo.t) (s s1 : Sys),
     update env s = Ret tt s1 ->
     compileCommands (statics s1) !! Uri.path uri = Some ci ->
     extraArgs (statics s1) = CompileInfo.extraArgs ci ->
     Uri.path (CompileInfo.uri ci) <> "" ->
     Fs.mtime (world s1) (Uri.path (CompileInfo.srcUri ci)) = None ->
     compile env uri s = Throw enoent s1) /\
  (forall (source p : string) (s : Sys) (m : Z),
     Fs.mtime (world s) source = Some m ->
     Fs.mtime (world s) p = None ->
     fileNewer source (TPath p) s = Ret true s).
Proof.
  split; [|split].
  - intros uri s t0 Ht Hdb. apply lookups_throw.
    unfold reloadDue. rewrite Ht, Hdb. reflexivity.
  - intros uri ci s s1 Hup Hrec Hargs Hart Hsrc.
    rewrite (compile_after_update uri s s1 Hup), Hrec.
    unfold bind, needCompilation, bind, gets, CompileInfo.extraArgsChanged.
    rewrite Hargs, arrayEquals_refl. cbn [negb].
    rewrite fileNewer_path, Hsrc by assumption. reflexivity.
  - intros source p s m Hsrc Hp.
    destruct (String.eqb_spec p "") as [->|Hne].
    + apply fileNewer_falsy. reflexivity.
    + rewrite fileNewer_path, Hsrc, Hp by assumption. reflexivity.
Qed.

(** *** The end-to-end scenario *)

Lemma append_neq_self (a b : string) : b <> "" -> a +:+ b <> a.
Proof.
  intros Hb H. apply Hb. apply (append_inj_l a). rewrite append_nil_r. exact H.
Qed.

(** The entry of the scenario as registered under workspace root [/p]. *)
Lemma register_entryP6 (st : Statics) :
  rootPath env = "/p" ->
  asmUriMap (register env entryP6 st) !! "/p/a.c"
    = Some (Uri.mk "disassembly" (outDir env +:+ "a.c.s")) /\
  compileCommands (register env entryP6 st) !! (outDir env +:+ "a.c.s")
    = Some (CompileInfo.new (Uri.mk "disassembly" (outDir env +:+ "a.c.s"))
              (Uri.file "/p/a.c") (commandP6 (outDir env +:+ "a.c.s")) "/p").
Proof.
  intros Hroot.
  set (art := outDir env +:+ "a.c.s").
  assert (Hart : artifactUri env (Uri.file "/p/a.c") "disassembly"
                 = Uri.mk "disassembly" art).
  { unfold artifactUri. rewrite Hroot. reflexivity. }
  assert (Hll : Uri.path (artifactUri env (Uri.file "/p/a.c") "llvm") <> art).
  { unfold artifactUri. rewrite Hroot. intros E. apply append_inj_l in E.
    vm_compute in E. discriminate E. }
  assert (Hpp : Uri.path (artifactUri env (Uri.file "/p/a.c") "file") <> art).
  { unfold artifactUri. rewrite Hroot. intros E. apply append_inj_l in E.
    vm_compute in E. discriminate E. }
  cbn [register asmUriMap compileCommands].
  change (CompileCommand.uri (CompileCommand.process (cwd env) entryP6))
    with (Uri.file "/p/a.c").
  change (Uri.scheme (Uri.file "/p/a.c")) with "file".
  rewrite Hart. split; [apply lookup_insert_eq|].
  rewrite lookup_insert_ne by exact Hpp.
  rewrite lookup_insert_ne by exact Hll.
  cbn [Uri.path]. rewrite lookup_insert_eq. reflexivity.
Qed.

(** C4 (amended): with workspace root [/p], a load of the database that
    holds the entry for [a.c], given a defined error channel, returns when
    the output directory exists, and whenever it returns it has mapped the
    source [/p/a.c] to the Disassembly artifact [<outDir>a.c.s], whose
    record holds the synthesized command [/usr/bin/cc -g1 -S -masm=intel
    -fno-unwind-tables -fno-asynchronous-unwind-tables -fno-dwarf2-cfi-asm
    -O2 a.c -o] followed by the quoted artifact path.  When, after the
    load, the database file is not newer than the load, the source file
    [/p/a.c] exists and the artifact is absent, requesting the artifact
    runs, in the working directory [/p], that command followed by a space
    and the space-joined extra arguments, and after it the demangling
    pass. *)
Theorem disassembly_end_to_end :
  forall (lines : list string) (s : Sys),
    rootPath env = "/p" ->
    database (world s) = Some [entryP6] ->
    (forall md mo : Z,
       Fs.mtime (world s) (getCompileCommandsPath env) = Some md ->
       Fs.mtime (world s) (outDir env) = Some mo ->
       exists s1 : Sys, init env (Some lines) s = Ret true s1) /\
    forall s1 : Sys,
      init env (Some lines) s = Ret true s1 ->
      asmUriMap (statics s1) !! "/p/a.c"
        = Some (Uri.mk "disassembly" (outDir env +:+ "a.c.s")) /\
      option_map CompileInfo.command
        (compileCommands (statics s1) !! (outDir env +:+ "a.c.s"))
        = Some (commandP6 (outDir env +:+ "a.c.s")) /\
      forall md ms : Z,
        Fs.mtime (world s1) (getCompileCommandsPath env) = Some md ->
        (md <= now (world s1))%Z ->
        Fs.mtime (world s1) "/p/a.c" = Some ms ->
        Fs.mtime (world s1) (outDir env +:+ "a.c.s") = None ->
        getAsmUri env (Uri.file "/p/a.c") s1
          = Ret (Some (Uri.mk "disassembly" (outDir env +:+ "a.c.s"))) s1 /\
        exists (r : CompileResult) (s2 : Sys),
          compile env (Uri.mk "disassembly" (outDir env +:+ "a.c.s")) s1 = Ret r s2 /\
          spawned s2 =
            spawned s ++
            [(commandP6 (outDir env +:+ "a.c.s") +:+ " "
                +:+ join " " (extraArgs (statics s)), "/p");
             (filtcmd (outDir env +:+ "a.c.s"), "/p")].
Proof.
  intros lines s Hroot Hparse. split.
  - intros md mo Hdb Hout. eexists.
    apply (init_loaded (Some lines) s _ md [entryP6] Hdb Hparse).
    apply (loaded_exists (Some lines) [entryP6] s mo Hout).
  - intros s1 Hinit.
    set (art := outDir env +:+ "a.c.s") in *.
    set (rec := CompileInfo.new (Uri.mk "disassembly" art) (Uri.file "/p/a.c")
                  (commandP6 art) "/p").
    destruct (init_true (Some lines) s s1 Hinit) as (entries & Hparse' & Hload).
    rewrite Hparse in Hparse'. injection Hparse' as <-.
    apply loaded_Some in Hload. destruct Hload as (Hst & Hsp & Hnow & _).
    cbn [registerStatics] in Hst.
    destruct (register_entryP6 (statics s) Hroot) as (Hasm0 & Hrec0).
    fold art in Hasm0, Hrec0. fold rec in Hrec0.
    assert (Hasm : asmUriMap (statics s1) !! "/p/a.c" = Some (Uri.mk "disassembly" art)).
    { rewrite Hst. exact Hasm0. }
    assert (Hrec : compileCommands (statics s1) !! art = Some rec).
    { rewrite Hst. exact Hrec0. }
    assert (Hch : errorChannel (statics s1) = Some lines).
    { rewrite Hst. reflexivity. }
    assert (Hargs : extraArgs (statics s1) = extraArgs (statics s)).
    { rewrite Hst. reflexivity. }
    assert (Hserve : reloadDue env s1 = Some false ->
              getAsmUri env (Uri.file "/p/a.c") s1
              = Ret (Some (Uri.mk "disassembly" art)) s1).
    { intros Hdue. unfold getAsmUri, bind. rewrite (update_noop s1 Hdue).
      unfold gets. cbn [Uri.path Uri.file]. rewrite Hasm. reflexivity. }
    split; [exact Hasm|split; [rewrite Hrec; reflexivity|]].
    intros md ms Hdb Hle Hsrc Habsent.
    assert (Hdue : reloadDue env s1 = Some false).
    { unfold reloadDue. rewrite Hst. cbn [initTime setInitTime]. rewrite Hdb.
      f_equal. apply Z.ltb_ge. exact Hle. }
    split; [apply Hserve; exact Hdue|].
    assert (Hneed : needCompilation env rec s1 = Ret true s1).
    { rewrite (needCompilation_eq rec s1 ms md Hsrc Hdb).
      cbn [CompileInfo.uri rec CompileInfo.new Uri.path]. rewrite Habsent.
      rewrite orb_true_r. reflexivity. }
    eexists _, _. split.
    + rewrite (compile_after_update _ s1 s1 (update_noop s1 Hdue)).
      cbn [Uri.path]. rewrite Hrec. unfold bind. rewrite Hneed.
      apply (execCompileCommand_eq _ _ _ lines Hch).
    + cbn [spawned]. rewrite Hsp. unfold buildCommand. rewrite Hargs. reflexivity.
Qed.

End Registry.
(** The record of the scenario is registered after the load, which has
    set the error channel; its build succeeds on a host whose processes
    exit with 0. *)
Lemma lastExtraArgs_follows_build_witness :
  compileCommands (statics loadedP6) !! "/out/a.c.s" = Some recordP6 /\
  errorChannel (statics loadedP6) = Some [] /\
  exists (r : CompileResult) (s' : Sys),
    CompileCommands.execCompileCommand (host 0 "") "/out/a.c.s" recordP6
      (stateOf (CompileCommands.setExtraCompileArgs ["-O2"] loadedP6)) = Ret r s' /\
    option_map CompileInfo.extraArgs (compileCommands (statics s') !! "/out/a.c.s")
      = Some ["-O2"].
Proof.
  split; [vm_compute; reflexivity|]. split; [vm_compute; reflexivity|].
  assert (Hreg : compileCommands
                   (statics (stateOf (CompileCommands.setExtraCompileArgs ["-O2"] loadedP6)))
                 !! "/out/a.c.s" = Some recordP6) by (vm_compute; reflexivity).
  assert (Hch : errorChannel
                  (statics (stateOf (CompileCommands.setExtraCompileArgs ["-O2"] loadedP6)))
                = Some []) by (vm_compute; reflexivity).
  destruct (lastExtraArgs_follows_build (host 0 "") "/out/a.c.s" recordP6
              (stateOf (CompileCommands.setExtraCompileArgs ["-O2"] loadedP6)) Hreg)
    as [_ Hdefined].
  destruct (Hdefined [] Hch) as (r & s' & Hrun & _ & Hargs & _).
  exists r, s'. split; [exact Hrun|]. exact Hargs.
Defined.

(** ** The demangling pass *)

(** C7, as stated, is false: on a host whose compiler exits with status 1
    the build of the scenario's record fails, and the demangling command is
    run all the same. *)
Lemma demangling_runs_after_failed_build :
  CompileCommands.failed (fst (buildRun (host 1 "cc: error") recordP6 loadedP6)) = true /\
  exists (msg : string) (s' : Sys),
    CompileCommands.execCompileCommand (host 1 "cc: error") "/out/a.c.s" recordP6 loadedP6
      = Ret (CError msg) s' /\
    In (CompileCommands.filtcmd "/out/a.c.s", "/p") (spawned s').
Proof.
  split; [reflexivity|].
  eexists _, _. split; [vm_compute; reflexivity|].
  right. left. reflexivity.
Qed.

(** C7 (amended): every [execCompileCommand] that finds the error
    channel defined runs the build command and then, once, the fixed
    demangling command on the artifact path, in the record's compilation
    directory, before it looks at the outcome of the build: the pass is
    run when the build succeeds and is not skipped when it fails.  The
    exit status of the pass is only written to the error channel; the
    result is decided by the build alone, so it is the same on any host
    that agrees on the build, whatever the pass does there.  With an
    undefined error channel [execCompileCommand] throws before any process
    is started: neither the build nor the pass is run. *)
Theorem demangling_pass_unconditional :
  forall (env : Env) (key : string) (ci : CompileInfo.t) (s : Sys),
  (errorChannel (statics s) = None ->
   CompileCommands.execCompileCommand env key ci s
     = Throw (CompileCommands.undefinedChannel "clear") s) /\
  forall lines : list string,
  errorChannel (statics s) = Some lines ->
  exists (r : CompileResult) (s' : Sys),
    CompileCommands.execCompileCommand env key ci s = Ret r s' /\
    spawned s' =
      spawned s ++
      [(buildCommand ci s, CompileInfo.compilationDirectory ci);
       (CompileCommands.filtcmd (Uri.fsPath (CompileInfo.uri ci)),
        CompileInfo.compilationDirectory ci)] /\
    r = (if CompileCommands.failed (fst (buildRun env ci s))
         then CError (CompileCommands.errorText (fst (buildRun env ci s)))
         else CTrue) /\
    errorChannel (statics s') =
      Some ([buildCommand ci s; CompileCommands.filtcmd (Uri.fsPath (CompileInfo.uri ci))]
            ++ match status (fst (filtRun env ci s)) with
               | Some z => [Js.intToString z]
               | None => []
               end) /\
    forall env2 : Env,
      buildRun env2 ci s = buildRun env ci s ->
      exists s2 : Sys, CompileCommands.execCompileCommand env2 key ci s = Ret r s2.
Proof.
  intros env key ci s. split; [apply execCompileCommand_undefined|].
  intros lines Hch. eexists _, _.
  split; [apply (execCompileCommand_eq env key ci s lines Hch)|].
  repeat split.
  intros env2 H. eexists. rewrite (execCompileCommand_eq env2 key ci s lines Hch), H.
  reflexivity.
Qed.

(** On a host whose demangler is missing the build of the scenario's
    record returns what it returns on the plain host, and so does
    [execCompileCommand]; before the first load, with the error channel
    still undefined, it throws. *)
Lemma demangling_pass_unconditional_witness :
  (exists (r : CompileResult) (s' s2 : Sys),
     CompileCommands.execCompileCommand (host 0 "") "/out/a.c.s" recordP6 loadedP6
       = Ret r s' /\
     CompileCommands.execCompileCommand hostWithoutDemangler "/out/a.c.s" recordP6 loadedP6
       = Ret r s2) /\
  CompileCommands.execCompileCommand (host 0 "") "/out/a.c.s" recordP6
    (mkSys fresh (worldP6 3 5 10) [])
    = Throw (CompileCommands.undefinedChannel "clear") (mkSys fresh (worldP6 3 5 10) []).
Proof.
  split.
  - assert (Hch : errorChannel (statics loadedP6) = Some []) by (vm_compute; reflexivity).
    destruct (demangling_pass_unconditional (host 0 "") "/out/a.c.s" recordP6 loadedP6)
      as [_ Hdefined].
    destruct (Hdefined [] Hch) as (r & s' & Hrun & _ & _ & _ & Hany).
    destruct (Hany hostWithoutDemangler) as [s2 H2]; [vm_compute; reflexivity|].
    exists r, s', s2. split; assumption.
  - apply (demangling_pass_unconditional (host 0 "") "/out/a.c.s" recordP6
             (mkSys fresh (worldP6 3 5 10) [])).
    reflexivity.
Defined.

(** ** Instances in the end-to-end scenario *)

Section Scenario.
Import CompileCommands.

(** C1, as stated, is false: in the loaded scenario the Disassembly
    artifact is absent, which the claim counts as stale, and the extra
    arguments are the record's last ones; once the source file is gone
    [needCompilation] does not return [true], it throws. *)
Lemma needCompilation_throws_without_source :
  extraArgs (statics (setWorld (deleteFile "/p/a.c") loadedP6))
    = CompileInfo.extraArgs recordP6 /\
  Fs.mtime (world (setWorld (deleteFile "/p/a.c") loadedP6))
    (Uri.path (CompileInfo.uri recordP6)) = None /\
  Fs.mtime (world (setWorld (deleteFile "/p/a.c") loadedP6))
    (Uri.path (CompileInfo.srcUri recordP6)) = None /\
  needCompilation (host 0 "") recordP6 (setWorld (deleteFile "/p/a.c") loadedP6)
    = Throw enoent (setWorld (deleteFile "/p/a.c") loadedP6) /\
  needCompilation (host 0 "") recordP6 (setWorld (deleteFile "/p/a.c") loadedP6)
    <> Ret true (setWorld (deleteFile "/p/a.c") loadedP6).
Proof.
  split; [vm_compute; reflexivity|]. split; [vm_compute; reflexivity|].
  split; [vm_compute; reflexivity|]. split; [vm_compute; reflexivity|].
  vm_compute. discriminate.
Qed.

Lemma needCompilation_iff_witness :
  needCompilation (host 0 "") recordP6
    (stateOf (setExtraCompileArgs ["-O2"] loadedP6))
    = Ret true (stateOf (setExtraCompileArgs ["-O2"] loadedP6)) /\
  needCompilation (host 0 "") recordP6 (setWorld (deleteFile "/p/a.c") loadedP6)
    = Throw enoent (setWorld (deleteFile "/p/a.c") loadedP6) /\
  needCompilation (host 0 "") recordP6 loadedP6 = Ret true loadedP6 /\
  needCompilation (host 0 "") (CompileInfo.setExtraArgs recordP6 [])
    (setWorld (deleteFile "/p/compile_commands.json") builtP6)
    = Throw enoent (setWorld (deleteFile "/p/compile_commands.json") builtP6) /\
  exists b : bool,
    needCompilation (host 0 "") recordP6 loadedP6 = Ret b loadedP6 /\
    (b = true <->
     extraArgs (statics loadedP6) <> CompileInfo.extraArgs recordP6 \/
     match Fs.mtime (world loadedP6) (Uri.path (CompileInfo.uri recordP6)) with
     | Some ma => (ma < 3)%Z
     | None => True
     end \/
     exists ma : Z,
       Fs.mtime (world loadedP6) (Uri.path (CompileInfo.uri recordP6)) = Some ma /\
       (ma < 5)%Z).
Proof.
  split; [|split; [|split; [|split]]].
  - apply (needCompilation_iff (host 0 "") recordP6
             (stateOf (setExtraCompileArgs ["-O2"] loadedP6))).
    vm_compute. discriminate.
  - apply (needCompilation_iff (host 0 "") recordP6
             (setWorld (deleteFile "/p/a.c") loadedP6));
      vm_compute; first [reflexivity | discriminate].
  - apply (proj1 (proj2 (proj2 (needCompilation_iff (host 0 "") recordP6 loadedP6)))
             3%Z); vm_compute; first [reflexivity | exact I].
  - apply (proj1 (proj2 (proj2 (proj2
             (needCompilation_iff (host 0 "") (CompileInfo.setExtraArgs recordP6 [])
                (setWorld (deleteFile "/p/compile_commands.json") builtP6)))))
             3%Z 10%Z); vm_compute; first [reflexivity | discriminate].
  - apply (proj2 (proj2 (proj2 (proj2
             (needCompilation_iff (host 0 "") recordP6 loadedP6)))) 3%Z 5%Z);
      vm_compute; reflexivity.
Defined.

(** C2, as stated, is false: with the extra arguments set to [-O2] and a
    compiler that exits with status 1, three requests in a row, with the
    source, the database and the extra arguments unchanged, run the build
    command three times, each followed by the demangling pass. *)
Lemma failed_build_runs_on_every_request :
  let s := stateOf (setExtraCompileArgs ["-O2"] loadedP6) in
  exists (e : string) (s' : Sys),
    requests (host 1 "cc: error") 3 asmUriP6 s
      = Ret [CError e; CError e; CError e] s' /\
    extraArgs (statics s') = extraArgs (statics s) /\
    Fs.mtime (world s') "/p/a.c" = Fs.mtime (world s) "/p/a.c" /\
    Fs.mtime (world s') "/p/compile_commands.json"
      = Fs.mtime (world s) "/p/compile_commands.json" /\
    spawned s' =
      [(buildCommand recordP6 s, "/p"); (filtcmd "/out/a.c.s", "/p");
       (buildCommand recordP6 s, "/p"); (filtcmd "/out/a.c.s", "/p");
       (buildCommand recordP6 s, "/p"); (filtcmd "/out/a.c.s", "/p")].
Proof.
  eexists _, _. split; [vm_compute; reflexivity|].
  repeat split; vm_compute; reflexivity.
Qed.

Lemma compile_builds_once_witness :
  compile (host 0 "") (Uri.mk "disassembly" "/out/b.c.s") loadedP6 = Ret CFalse loadedP6 /\
  compile (host 0 "") asmUriP6 builtP6 = Ret CTrue builtP6 /\
  (exists s1 : Sys,
     compile (host 0 "") asmUriP6
       (mkSys (setInitTime (Some 1%Z) fresh) (touch "/out/a.c.s" (worldP6 3 5 10)) [])
       = Ret CTrue s1 /\
     spawned s1 = []) /\
  requests (host 0 "") 3 asmUriP6 loadedP6 = Ret [CTrue; CTrue; CTrue] builtP6 /\
  spawned builtP6 =
    spawned loadedP6 ++
    [(buildCommand recordP6 loadedP6, "/p"); (filtcmd "/out/a.c.s", "/p")].
Proof.
  pose proof (compile_builds_once (host 0 "")) as (Hmissing & Hfresh & Hreload & Honce).
  split; [|split; [|split]].
  - apply Hmissing; vm_compute; reflexivity.
  - apply (Hfresh asmUriP6 (CompileInfo.setExtraArgs recordP6 []) builtP6);
      vm_compute; reflexivity.
  - eexists.
    apply (Hreload asmUriP6 recordP6
             (mkSys (setInitTime (Some 1%Z) fresh) (touch "/out/a.c.s" (worldP6 3 5 10)) []));
      vm_compute; reflexivity.
  - apply (Honce asmUriP6 recordP6 loadedP6 3%Z 5%Z 10%Z);
      first [ vm_compute; reflexivity
            | exists []; vm_compute; reflexivity
            | vm_compute; discriminate ].
Defined.

(** C8, as stated, is false: [setExtraCompileArgs] does not check for a
    reload.  In a state loaded before the database was rewritten it leaves
    the old, empty record map and the old load time in place, where the
    reload check would have registered the new entry. *)
Lemma setExtraCompileArgs_skips_reload_check :
  reloadDue (host 0 "") staleP6 = Some true /\
  exists s' : Sys,
    setExtraCompileArgs ["-O2"] staleP6 = Ret tt s' /\
    compileCommands (statics s') = compileCommands (statics staleP6) /\
    initTime (statics s') = Some 1%Z /\
    compileCommands (statics s') !! "/out/a.c.s" = None /\
    exists s1 : Sys,
      update (host 0 "") staleP6 = Ret tt s1 /\
      compileCommands (statics s1) !! "/out/a.c.s" = Some recordP6.
Proof.
  split; [vm_compute; reflexivity|].
  eexists. split; [reflexivity|]. repeat split.
  eexists. split; vm_compute; reflexivity.
Qed.

Lemma reload_check_before_serving_witness :
  reloadDue (host 0 "") staleP6 = Some true /\
  compile (host 0 "") asmUriP6 (withRecords {[ "/out/a.c.s" := recordP6 ]} staleP6)
    = compile (host 0 "") asmUriP6 (withRecords ∅ staleP6) /\
  (exists s1 : Sys,
     loaded (host 0 "") (Some []) [entryP6] (withRecords ∅ staleP6) = Some s1 /\
     update (host 0 "") staleP6 = Ret tt s1) /\
  reloadDue (host 0 "") loadedP6 = Some false /\
  update (host 0 "") loadedP6 = Ret tt loadedP6.
Proof.
  assert (Hdue : reloadDue (host 0 "") staleP6 = Some true) by (vm_compute; reflexivity).
  assert (Hnot : reloadDue (host 0 "") loadedP6 = Some false) by (vm_compute; reflexivity).
  split; [exact Hdue|].
  destruct (reload_check_before_serving (host 0 "") asmUriP6 staleP6) as [Hreload _].
  destruct (reload_check_before_serving (host 0 "") asmUriP6 loadedP6) as [_ Hkeep].
  destruct (Hreload Hdue) as [Hserved Hload].
  split; [apply Hserved|].
  split.
  { eexists. split; [vm_compute; reflexivity|].
    apply (Hload 5%Z [entryP6]); vm_compute; reflexivity. }
  split; [exact Hnot|]. apply Hkeep. exact Hnot.
Defined.

(** C10, as stated, is false: with the source file gone and the extra
    arguments changed, [compile] does not throw; it runs the build and
    returns its error text.  And with the database file gone
    [setExtraCompileArgs], a public operation, returns normally. *)
Lemma compile_with_missing_source_reports_build_error :
  Fs.mtime (world (loadedP6Without "/p/a.c")) "/p/a.c" = None /\
  compileCommands (statics (loadedP6Without "/p/a.c")) !! "/out/a.c.s" = Some recordP6 /\
  (exists (msg : string) (s' : Sys),
     compile (host 1 "cc: error: a.c: No such file or directory") asmUriP6
       (loadedP6Without "/p/a.c") = Ret (CError msg) s') /\
  Fs.mtime (world (loadedP6Without "/p/compile_commands.json"))
    "/p/compile_commands.json" = None /\
  (exists s' : Sys,
     setExtraCompileArgs [] (loadedP6Without "/p/compile_commands.json") = Ret tt s').
Proof.
  split; [vm_compute; reflexivity|]. split; [vm_compute; reflexivity|].
  split; [eexists _, _; vm_compute; reflexivity|].
  split; [vm_compute; reflexivity|].
  eexists. reflexivity.
Qed.

Lemma first_path_stat_unguarded_witness :
  compile (host 0 "") asmUriP6 (loadedP6Without "/p/compile_commands.json")
    = Throw enoent (loadedP6Without "/p/compile_commands.json") /\
  compile (host 0 "") asmUriP6 (setWorld (deleteFile "/p/a.c") loadedP6)
    = Throw enoent (setWorld (deleteFile "/p/a.c") loadedP6) /\
  fileNewer "/p/a.c" (TPath "/out/a.c.s") loadedP6 = Ret true loadedP6.
Proof.
  pose proof (first_path_stat_unguarded (host 0 "")) as (Hdb & Hsrc & Hguard).
  split; [|split].
  - apply (Hdb asmUriP6 (loadedP6Without "/p/compile_commands.json") 10%Z);
      vm_compute; reflexivity.
  - apply (Hsrc asmUriP6 recordP6); try (vm_compute; reflexivity).
    vm_compute. discriminate.
  - apply (Hguard "/p/a.c" "/out/a.c.s" loadedP6 3%Z); vm_compute; reflexivity.
Defined.

(** With the output directory in place the load of the scenario's
    database returns; in the scenario, where the load makes the output
    directory, it returns as well, and the request for the absent artifact
    runs the synthesized command. *)
Lemma disassembly_end_to_end_witness :
  (exists s1 : Sys,
     init (host 0 "") (Some []) (mkSys fresh (touch "/out/" (worldP6 3 5 10)) [])
       = Ret true s1) /\
  init (host 0 "") (Some []) (mkSys fresh (worldP6 3 5 10) []) = Ret true loadedP6 /\
  getAsmUri (host 0 "") (Uri.file "/p/a.c") loadedP6 = Ret (Some asmUriP6) loadedP6 /\
  exists (r : CompileResult) (s2 : Sys),
    compile (host 0 "") asmUriP6 loadedP6 = Ret r s2 /\
    spawned s2 = [(commandP6 "/out/a.c.s" +:+ " ", "/p"); (filtcmd "/out/a.c.s", "/p")].
Proof.
  assert (Hinit : init (host 0 "") (Some []) (mkSys fresh (worldP6 3 5 10) [])
                  = Ret true loadedP6) by (vm_compute; reflexivity).
  split; [|split; [exact Hinit|]].
  - apply (proj1 (disassembly_end_to_end (host 0 "") []
                    (mkSys fresh (touch "/out/" (worldP6 3 5 10)) []) eq_refl eq_refl)
             5%Z 10%Z); vm_compute; reflexivity.
  - destruct (proj2 (disassembly_end_to_end (host 0 "") []
                       (mkSys fresh (worldP6 3 5 10) []) eq_refl eq_refl)
                loadedP6 Hinit) as (_ & _ & Hrequest).
    apply (Hrequest 5%Z 3%Z); vm_compute; first [reflexivity | discriminate].
Defined.

End Scenario.

(** ** The document *)

Section Document.
Import Js AsmDocument.

Lemma fixedHexRev_zero (k : nat) : fixedHexRev k 0 = repeat "0"%char k.
Proof.
  induction k as [|k IH]; [reflexivity|]. cbn [fixedHexRev repeat].
  change (0 / 16)%N with 0%N. rewrite IH. reflexivity.
Qed.

Lemma firstn_repeat_le {A} (x : A) (k j : nat) :
  (k <= j)%nat -> firstn k (repeat x j) = repeat x k.
Proof.
  revert j. induction k as [|k IH]; intros j H; [reflexivity|].
  destruct j as [|j]; [lia|]. cbn [repeat firstn]. rewrite IH by lia. reflexivity.
Qed.

(** The digits of [toString(16)], padded with zeros at the significant
    end and cut to [k] digits, are the [k] low digits. *)
Lemma hexRev_padded (k : nat) :
  forall (fuel : nat) (n : N) (j : nat),
    (n < 16 ^ N.of_nat fuel)%N -> (1 <= fuel)%nat -> (k <= j + 1)%nat ->
    firstn k (hexRev fuel n ++ repeat "0"%char j) = fixedHexRev k n.
Proof.
  induction k as [|k IH]; intros fuel n j Hn Hfuel Hk; [reflexivity|].
  destruct fuel as [|f]; [lia|]. cbn [hexRev fixedHexRev].
  destruct (N.ltb_spec n 16) as [Hlt|Hge].
  - cbn [app firstn]. rewrite N.mod_small, N.div_small by exact Hlt.
    rewrite fixedHexRev_zero, firstn_repeat_le by lia. reflexivity.
  - cbn [app firstn]. f_equal. apply IH.
    + apply N.Div0.div_lt_upper_bound.
      rewrite Nat2N.inj_succ, N.pow_succ_r' in Hn. exact Hn.
    + destruct f as [|f]; [|lia]. cbn in Hn. lia.
    + lia.
Qed.

Lemma toString16_fuel (n : N) : (n < 16 ^ N.of_nat (S (N.to_nat (N.log2 n))))%N.
Proof.
  rewrite Nat2N.inj_succ, N2Nat.id.
  destruct (N.eq_dec n 0%N) as [->|Hn]; [reflexivity|].
  apply N.lt_le_trans with (2 ^ N.succ (N.log2 n))%N.
  - apply N.log2_spec. lia.
  - apply N.pow_le_mono_l. lia.
Qed.

Lemma address_prefix (address : N) :
  substrLast 8 ("0000000" +:+ toString16 address) = fixedHex 8 address.
Proof.
  unfold substrLast, toString16, fixedHex. f_equal.
  rewrite chars_app, chars_str.
  change (chars "0000000") with (repeat "0"%char 7).
  set (L := hexRev _ address).
  rewrite <- (rev_involutive (skipn _ _)). f_equal.
  rewrite <- firstn_rev, rev_app_distr, rev_involutive, rev_repeat.
  apply hexRev_padded; [apply toString16_fuel|lia|lia].
Qed.

Lemma renderLine_lineText (line : AsmLine) :
  renderLine line = lineText line +:+ nl.
Proof.
  destruct line as [text|text address]; [reflexivity|].
  cbn [renderLine lineText]. rewrite address_prefix, !append_assoc. reflexivity.
Qed.

Lemma render_loop (lines : list AsmLine) (acc : string) :
  fold_left (fun result line => result +:+ renderLine line) lines acc
  = acc +:+ newlineTerminated lines.
Proof.
  revert acc. induction lines as [|line rest IH]; intros acc.
  - cbn. now rewrite append_nil_r.
  - cbn [fold_left newlineTerminated]. rewrite IH, renderLine_lineText, !append_assoc.
    reflexivity.
Qed.

Lemma hexDigit_value (d : N) : (d < 16)%N -> hexDigitValue (hexDigit d) = Some d.
Proof.
  intros H. rewrite <- (N2Nat.id d) at 2. unfold hexDigit.
  assert (Hk : (N.to_nat d < 16)%nat) by lia.
  destruct (N.to_nat d) as [|k]; [reflexivity|].
  do 15 (destruct k as [|k]; [reflexivity|]). lia.
Qed.

Lemma fixedHexRev_value (k : nat) (n : N) :
  valueLsb (fixedHexRev k n) = Some (n mod 16 ^ N.of_nat k)%N.
Proof.
  revert n. induction k as [|k IH]; intros n.
  - cbn. now rewrite N.mod_1_r.
  - cbn [fixedHexRev valueLsb].
    rewrite hexDigit_value by (apply N.mod_lt; lia).
    rewrite IH, Nat2N.inj_succ, N.pow_succ_r', N.Div0.mod_mul_r. reflexivity.
Qed.

Lemma fixedHexRev_length (k : nat) (n : N) : length (fixedHexRev k n) = k.
Proof. revert n. induction k as [|k IH]; intros n; cbn; [|rewrite IH]; reflexivity. Qed.

Lemma str_length (l : list ascii) : String.length (str l) = length l.
Proof. induction l as [|c l IH]; cbn; [reflexivity|]. f_equal. exact IH. Qed.

Lemma append_empty (a b : string) : a +:+ b = "" -> b = "".
Proof. destruct a; [trivial|discriminate]. Qed.

Lemma errorText_nonempty (r : SpawnResult) : CompileCommands.errorText r <> "".
Proof.
  unfold CompileCommands.errorText. intros H.
  apply append_empty in H. discriminate H.
Qed.

(** An error text returned by [compile] is the one built from the result
    of a failed build. *)
Lemma compile_error_text (env : Env) (uri : Uri.t) (s s' : Sys) (msg : string) :
  CompileCommands.compile env uri s = Ret (CError msg) s' ->
  exists r : SpawnResult, msg = CompileCommands.errorText r.
Proof.
  unfold CompileCommands.compile, bind.
  destruct (CompileCommands.update env s) as [[] s1|e s1]; [|discriminate].
  unfold CompileCommands.getCompileInfo, gets.
  destruct (compileCommands (statics s1) !! Uri.path uri) as [ci|]; [|discriminate].
  destruct (CompileCommands.needCompilation env ci s1) as [[|] s2|e s2];
    [|discriminate|discriminate].
  destruct (errorChannel (statics s2)) as [lines|] eqn:Hch.
  - rewrite (execCompileCommand_eq env _ _ _ lines Hch).
    destruct (CompileCommands.failed _); [|discriminate].
    intros E. injection E as <- _. eauto.
  - rewrite (execCompileCommand_undefined env _ _ _ Hch). discriminate.
Qed.

(** C9, as stated, is false: a successfully built document of one line
    [a] is rendered as [a] followed by a newline, which is not the
    newline-joined line texts. *)
Lemma value_ends_with_newline :
  value (mk [PlainAsmLine "a"] CTrue) = "a" +:+ nl /\
  newlineJoined [PlainAsmLine "a"] = "a" /\
  value (mk [PlainAsmLine "a"] CTrue) <> newlineJoined [PlainAsmLine "a"].
Proof. repeat split. discriminate. Qed.

(** C9 (amended): a document constructed for a failed build has no lines
    and its value is exactly the error text; a document whose request
    found no record renders as the fixed text [Failed to compile.].  After
    a successful build the value is the text of every line followed by a
    newline, where a line that carries an address is rendered as [<], the
    address as eight hexadecimal digits, [>], a space and the line text,
    and every other line as its text.  The eight digits denote the address
    modulo 2^32: the zero-padded address itself when it is below 2^32. *)
Theorem document_value :
  (forall (env : Env) (uri : Uri.t) (s s' : Sys) (d : t) (msg : string),
     new env uri s = Ret d s' ->
     compileResult d = CError msg ->
     lines d = [] /\ value d = msg) /\
  (forall d : t, compileResult d = CFalse -> value d = "Failed to compile.") /\
  (forall d : t, compileResult d = CTrue -> value d = newlineTerminated (lines d)) /\
  (forall address : N,
     String.length (fixedHex 8 address) = 8%nat /\
     hexValue (fixedHex 8 address) = Some (address mod 2 ^ 32)%N /\
     ((address < 2 ^ 32)%N -> hexValue (fixedHex 8 address) = Some address)).
Proof.
  split; [|split; [|split]].
  - intros env uri s s' d msg Hnew Hres.
    unfold new, bind in Hnew.
    destruct (CompileCommands.compile env uri s) as [r s1|e s1] eqn:Hc; [|discriminate].
    destruct r as [| |msg'].
    + unfold processAssemblyFile in Hnew.
      destruct (parsedAsm (world s1) !! Uri.path uri); [|discriminate].
      injection Hnew as <- _. discriminate Hres.
    + injection Hnew as <- _. discriminate Hres.
    + injection Hnew as <- _. cbn in Hres. injection Hres as ->.
      split; [reflexivity|]. unfold value. cbn [compileResult].
      destruct (compile_error_text env uri s s1 msg Hc) as [r ->].
      destruct (String.eqb_spec (CompileCommands.errorText r) "") as [E|E];
        [|reflexivity].
      destruct (errorText_nonempty r E).
  - intros d H. unfold value. rewrite H. reflexivity.
  - intros d H. unfold value. rewrite H. rewrite render_loop. reflexivity.
  - intros address.
    assert (Hv : hexValue (fixedHex 8 address) = Some (address mod 2 ^ 32)%N).
    { unfold hexValue, fixedHex. rewrite chars_str, rev_involutive.
      apply (fixedHexRev_value 8 address). }
    split; [|split].
    + unfold fixedHex. rewrite str_length, length_rev. apply fixedHexRev_length.
    + exact Hv.
    + intros Hlt. rewrite Hv, N.mod_small by exact Hlt. reflexivity.
Qed.

Lemma document_value_witness :
  (exists (d : t) (s' : Sys) (msg : string),
     new (host 1 "cc: error") asmUriP6 loadedP6 = Ret d s' /\
     compileResult d = CError msg /\ lines d = [] /\ value d = msg) /\
  value (mk [PlainAsmLine "f:"; BinaryAsmLine "ret" 11259375] CTrue)
    = newlineTerminated [PlainAsmLine "f:"; BinaryAsmLine "ret" 11259375] /\
  fixedHex 8 11259375 = "00abcdef" /\
  hexValue "00abcdef" = Some 11259375%N.
Proof.
  destruct document_value as (Hfail & _ & Hok & Hhex).
  split; [|split; [|split]].
  - assert (Hnew : exists (d : t) (s' : Sys),
              new (host 1 "cc: error") asmUriP6 loadedP6 = Ret d s' /\
              exists msg : string, compileResult d = CError msg).
    { eexists _, _. split; [vm_compute; reflexivity|]. eexists. reflexivity. }
    destruct Hnew as (d & s' & Hnew & msg & Hres).
    exists d, s', msg. split; [exact Hnew|]. split; [exact Hres|].
    apply (Hfail (host 1 "cc: error") asmUriP6 loadedP6 s' d msg Hnew Hres).
  - apply Hok. reflexivity.
  - reflexivity.
  - apply (proj2 (proj2 (Hhex 11259375%N))). reflexivity.
Defined.

End Document.

(** * Further properties *)

(** ** sanitizeArgs as a filter *)

Section SanitizeMore.
Import Js CompileCommand.

Lemma sanitize_flagfree (args : list string) :
  (forall x : string, In x args -> x <> "-c" /\ x <> "-g" /\ x <> "-o") ->
  filterSt sanitizeStep false args = args.
Proof.
  induction args as [|a args IH]; intros H; [reflexivity|].
  destruct (H a (or_introl eq_refl)) as (Hc & Hg & Ho).
  apply String.eqb_neq in Hc, Hg, Ho.
  cbn [filterSt]. unfold sanitizeStep at 1. cbn [negb]. rewrite Ho, Hc, Hg. cbn.
  f_equal. apply IH. intros x Hx. apply H. right. exact Hx.
Qed.

(** X1: arguments other than [-c], [-g] and [-o] pass through
    [sanitizeArgs] untouched, so a list without these three tokens is
    returned as it is; in particular sanitizing twice is the same as
    sanitizing once. *)
Theorem sanitizeArgs_idempotent :
  (forall args : list string,
     (forall x : string, In x args -> x <> "-c" /\ x <> "-g" /\ x <> "-o") ->
     sanitizeArgs args = args) /\
  (forall args : list string,
     sanitizeArgs (sanitizeArgs args) = sanitizeArgs args).
Proof.
  split; [exact sanitize_flagfree|].
  intros args. apply sanitize_flagfree. intros x Hx.
  apply (sanitize_kept false args x Hx).
Qed.

Lemma sanitizeArgs_idempotent_witness :
  sanitizeArgs ["-O2"; "-Wall"; "a.c"] = ["-O2"; "-Wall"; "a.c"].
Proof.
  apply (proj1 sanitizeArgs_idempotent).
  intros x [<-|[<-|[<-|[]]]]; repeat split; discriminate.
Defined.

Lemma filterSt_sublist {A S} (cb : S -> A -> bool * S) (s : S) (l : list A) :
  sublist (filterSt cb s l) l.
Proof.
  revert s. induction l as [|x l IH]; intros s; cbn [filterSt]; [constructor|].
  destruct (cb s x) as [[|] s'].
  - apply sublist_skip, IH.
  - apply sublist_cons, IH.
Qed.

(** X2: [sanitizeArgs] only drops tokens: what it returns is a
    subsequence of its input, the kept tokens in their original order, and
    so never longer than the input. *)
Theorem sanitizeArgs_sublist :
  forall args : list string,
    sublist (sanitizeArgs args) args /\
    (length (sanitizeArgs args) <= length args)%nat.
Proof.
  intros args. split.
  - apply filterSt_sublist.
  - apply sublist_length, filterSt_sublist.
Qed.

End SanitizeMore.

(** ** The tokens of a command string *)

Section TokenizerMore.
Import Js Tokenizer CompileCommand.

Lemma bare_plain (l : list ascii) :
  Forall plain (fst (bare l)) /\
  match snd (bare l) with
  | [] => True
  | c :: _ => isQuote c || isSpace c = true
  end.
Proof.
  induction l as [|c l IH]; [split; [constructor|exact I]|].
  cbn [bare]. destruct (isQuote c || isSpace c) eqn:E.
  - split; [constructor|exact E].
  - destruct (bare l) as [m r]. cbn [fst snd] in *.
    destruct IH as [Hm Hr]. split; [|exact Hr].
    constructor; [|exact Hm]. apply orb_false_iff in E. exact E.
Qed.

Lemma bare_plain_prefix (a rest : list ascii) (c : ascii) :
  Forall plain a -> isQuote c || isSpace c = true ->
  bare (a ++ c :: rest) = (a, c :: rest).
Proof.
  intros Ha Hc. induction Ha as [|x a [Hq Hs] Ha IH]; cbn [app bare].
  - rewrite Hc. reflexivity.
  - rewrite Hq, Hs, IH. reflexivity.
Qed.

Lemma wordsFrom_plain (m r cur : list ascii) :
  Forall plain m -> wordsFrom cur (m ++ r) = wordsFrom (rev m ++ cur) r.
Proof.
  intros Hm. revert cur. induction Hm as [|x m [_ Hs] Hm IH]; intros cur; [reflexivity|].
  cbn [app wordsFrom rev]. rewrite Hs, IH, <- app_assoc. reflexivity.
Qed.

Lemma matchAllFrom_words (fuel : nat) :
  forall l : list ascii,
    (length l < fuel)%nat ->
    Forall (fun c => isQuote c = false) l ->
    List.filter nonEmpty (matchAllFrom fuel l) = wordsFrom [] l.
Proof.
  induction fuel as [|fuel IH]; intros l Hlen Hq; [lia|].
  cbn [matchAllFrom]. unfold exec.
  pose proof (bare_split l) as Hs. pose proof (bare_plain l) as [Hm Hr].
  destruct (bare l) as [m r]. cbn [fst snd] in Hs, Hm, Hr.
  assert (Hl : length l = (length m + length r)%nat)
    by (rewrite Hs at 1; apply length_app).
  assert (Hqr : Forall (fun c => isQuote c = false) r).
  { rewrite Hs in Hq. apply Forall_app in Hq. apply Hq. }
  assert (Hexec : match r with
                  | [] => (m, r)
                  | c :: r' =>
                      if isQuote c
                      then match quoted false r' with
                           | Some n => (m ++ c :: firstn n r', skipn n r')
                           | None => (m, r)
                           end
                      else (m, r)
                  end = (m, r)).
  { destruct r as [|c r']; [reflexivity|].
    inversion Hqr as [|? ? Hc _]; subst. rewrite Hc. reflexivity. }
  rewrite Hexec. clear Hexec. rewrite Hs. clear Hs.
  destruct m as [|x m].
  - destruct r as [|c r']; [reflexivity|].
    cbn [List.filter nonEmpty String.length Nat.ltb Nat.leb app wordsFrom].
    inversion Hqr as [|? ? Hc Hqr']; subst. rewrite Hc in Hr. cbn [orb] in Hr.
    rewrite Hr. apply IH; [cbn [length] in Hl; lia|exact Hqr'].
  - rewrite (wordsFrom_plain (x :: m) r [] Hm), app_nil_r.
    cbn [List.filter]. change (nonEmpty (str (x :: m))) with true. cbn iota.
    rewrite IH by (cbn [length] in Hl; try lia; exact Hqr).
    destruct r as [|c r'].
    + cbn [wordsFrom rev]. destruct (rev m ++ [x]) eqn:E.
      * apply app_eq_nil in E. destruct E; discriminate.
      * rewrite <- E. change (rev m ++ [x]) with (rev (x :: m)).
        rewrite rev_involutive. reflexivity.
    + inversion Hqr as [|? ? Hc _]; subst. rewrite Hc in Hr. cbn [orb] in Hr.
      cbn [wordsFrom rev]. rewrite Hr.
      destruct (rev m ++ [x]) eqn:E.
      * apply app_eq_nil in E. destruct E; discriminate.
      * rewrite <- E. change (rev m ++ [x]) with (rev (x :: m)).
        rewrite rev_involutive. reflexivity.
Qed.

Lemma chars_length (s : string) : length (chars s) = String.length s.
Proof. induction s as [|y s IH]; cbn; [reflexivity|]. f_equal. exact IH. Qed.

(** X3: for a command string without double quotes the tokens [process]
    works with are exactly the whitespace-separated words of the string,
    in order: runs of whitespace of any length separate, and leading or
    trailing whitespace yields no token. *)
Theorem commands_words :
  forall c : CompileCommand.t,
    _command c <> "" ->
    Forall (fun ch => isQuote ch = false) (chars (_command c)) ->
    commands c = words (_command c).
Proof.
  intros c Hne Hq. unfold commands, words, matchAll.
  destruct (_command c) as [|x s] eqn:E; [contradiction|].
  change (0 <? String.length (String x s))%nat with true. cbn iota.
  apply (matchAllFrom_words _ (chars (String x s))); [|exact Hq].
  rewrite chars_length. lia.
Qed.

Lemma commands_words_witness :
  commands (entry "a.c" "  cc   -O2 a.c " [] "/p") = ["cc"; "-O2"; "a.c"].
Proof.
  rewrite commands_words.
  - reflexivity.
  - discriminate.
  - vm_compute. repeat constructor.
Defined.

Lemma quoted_body (b rest : list ascii) :
  Forall (fun c => isQuote c = false /\ isBackslash c = false) b ->
  forall started : bool,
    (started = true \/ b <> []) ->
    quoted started (b ++ "034"%char :: rest) = Some (S (length b)).
Proof.
  intros Hb. induction Hb as [|x b [Hq Hs] Hb IH]; intros started Hstart.
  - cbn. destruct Hstart as [->|H]; [reflexivity|contradiction].
  - cbn [app quoted length]. rewrite Hq, Hs, IH by (left; reflexivity). reflexivity.
Qed.

(** X4: a double-quoted span stays in one token.  Where a run of plain
    characters (possibly empty) is followed by an opening quote, a
    non-empty body without quotes and backslashes, whitespace allowed, and
    a closing quote, one match takes the run and the whole span, quotes
    included, and the search goes on right after the closing quote. *)
Theorem exec_keeps_quoted_span :
  forall a b rest : list ascii,
    Forall plain a ->
    b <> [] ->
    Forall (fun c => isQuote c = false /\ isBackslash c = false) b ->
    exec (a ++ "034"%char :: b ++ "034"%char :: rest)
      = (a ++ "034"%char :: b ++ ["034"%char], rest).
Proof.
  intros a b rest Ha Hne Hb. unfold exec.
  rewrite (bare_plain_prefix a _ "034"%char Ha) by reflexivity.
  change (isQuote "034"%char) with true. cbn iota.
  rewrite (quoted_body b rest Hb false) by (right; exact Hne).
  assert (Hf : firstn (S (length b)) (b ++ "034"%char :: rest) = b ++ ["034"%char]).
  { change ("034"%char :: rest) with (["034"%char] ++ rest). rewrite app_assoc.
    replace (S (length b)) with (length (b ++ ["034"%char]) + 0)%nat
      by (rewrite length_app; cbn; lia).
    rewrite firstn_app_2. cbn [firstn]. apply app_nil_r. }
  assert (Hd : skipn (S (length b)) (b ++ "034"%char :: rest) = rest).
  { change ("034"%char :: rest) with (["034"%char] ++ rest). rewrite app_assoc.
    replace (S (length b)) with (length (b ++ ["034"%char]))
      by (rewrite length_app; cbn; lia).
    rewrite skipn_app, skipn_all, Nat.sub_diag. reflexivity. }
  rewrite Hf, Hd. reflexivity.
Qed.

Lemma exec_keeps_quoted_span_witness :
  exec (chars "-DNAME=" ++ "034"%char :: chars "a b" ++ "034"%char :: chars " x.c")
    = (chars "-DNAME=" ++ "034"%char :: chars "a b" ++ ["034"%char], chars " x.c").
Proof.
  apply exec_keeps_quoted_span.
  - vm_compute. repeat constructor.
  - discriminate.
  - vm_compute. repeat constructor.
Defined.

End TokenizerMore.

(** ** Artifact names *)

Section Naming.
Import Js CompileCommands.
Variable env : Env.

Lemma replaceSlashes_flat (s : string) : ~ In "/"%char (chars (replaceSlashes s)).
Proof.
  unfold replaceSlashes. rewrite chars_str. intros H.
  apply in_map_iff in H. destruct H as (c & Hc & _).
  destruct (Ascii.eqb_spec c "/"%char); [discriminate|congruence].
Qed.

Lemma artifactUri_path (srcUri : Uri.t) (scheme : string) :
  Uri.path (artifactUri env srcUri scheme)
  = outDir env
    +:+ replaceSlashes (Path.relative (cwd env) (rootPath env) (Uri.path srcUri))
    +:+ ext srcUri scheme.
Proof. reflexivity. Qed.

Lemma artifact_paths_distinct (p : string) :
  Uri.path (artifactUri env (Uri.file p) "disassembly")
    <> Uri.path (artifactUri env (Uri.file p) "llvm") /\
  Uri.path (artifactUri env (Uri.file p) "disassembly")
    <> Uri.path (artifactUri env (Uri.file p) "file") /\
  Uri.path (artifactUri env (Uri.file p) "llvm")
    <> Uri.path (artifactUri env (Uri.file p) "file").
Proof.
  rewrite !artifactUri_path.
  repeat split; intros E; do 2 apply append_inj_l in E; discriminate E.
Qed.

(** X5: the Disassembly, IntermediateRepresentation and Preprocessed
    artifacts of one source file have three different paths, so their
    records never overwrite each other; and the Disassembly and
    IntermediateRepresentation artifacts lie directly in the output
    directory: their paths are [outDir] followed by a name without any
    slash that ends in [.s] and [.ll]. *)
Theorem artifact_naming :
  forall p : string,
    (Uri.path (artifactUri env (Uri.file p) "disassembly")
       <> Uri.path (artifactUri env (Uri.file p) "llvm") /\
     Uri.path (artifactUri env (Uri.file p) "disassembly")
       <> Uri.path (artifactUri env (Uri.file p) "file") /\
     Uri.path (artifactUri env (Uri.file p) "llvm")
       <> Uri.path (artifactUri env (Uri.file p) "file")) /\
    exists name : string,
      ~ In "/"%char (chars name) /\
      Uri.path (artifactUri env (Uri.file p) "disassembly") = outDir env +:+ name +:+ ".s" /\
      Uri.path (artifactUri env (Uri.file p) "llvm") = outDir env +:+ name +:+ ".ll".
Proof.
  intros p. split; [apply artifact_paths_distinct|].
  exists (replaceSlashes (Path.relative (cwd env) (rootPath env) p)).
  split; [apply replaceSlashes_flat|]. split; reflexivity.
Qed.

End Naming.

(** ** The extension of a Preprocessed artifact *)

Section Extension.
Import Js CompileCommands.

Lemma lastIndexOfDot_none (l : list ascii) (i : nat) :
  dotFree l -> lastIndexOfDot i l = None.
Proof.
  intros H. revert i. induction H as [|c l Hc H IH]; intros i; [reflexivity|].
  cbn [lastIndexOfDot]. rewrite IH, Hc. reflexivity.
Qed.

Lemma lastIndexOfDot_last (pre suf : list ascii) (i : nat) :
  dotFree suf ->
  lastIndexOfDot i (pre ++ "."%char :: suf) = Some (i + length pre)%nat.
Proof.
  intros H. revert i. induction pre as [|c pre IH]; intros i.
  - cbn [app lastIndexOfDot length]. rewrite (lastIndexOfDot_none suf (S i) H).
    cbn. f_equal. lia.
  - cbn [app lastIndexOfDot length]. rewrite IH. f_equal. lia.
Qed.

(** X6: for a source whose path has its last dot before a dot-free suffix
    [suf], the Preprocessed artifact gets the extension [.E.suf] (so
    [a.cpp] gives [.E.cpp]); for a source path without any dot the
    extension is [.E] followed by the last character of the path. *)
Theorem preprocessed_extension :
  (forall pre suf : string,
     dotFree (chars suf) ->
     ext (Uri.file (pre +:+ "." +:+ suf)) "file" = ".E." +:+ suf) /\
  (forall (pre : string) (c : ascii),
     dotFree (chars pre) -> Ascii.eqb c "."%char = false ->
     ext (Uri.file (pre +:+ String c "")) "file" = ".E" +:+ String c "").
Proof.
  split.
  - intros pre suf H. unfold ext, sliceFromLastDot. cbn [String.eqb Ascii.eqb Bool.eqb Uri.path Uri.file].
    change ("." +:+ suf) with (String "."%char suf).
    rewrite chars_app. change (chars (String "." suf)) with ("."%char :: chars suf).
    rewrite (lastIndexOfDot_last (chars pre) (chars suf) 0 H). cbn [Nat.add].
    rewrite skipn_app, skipn_all, Nat.sub_diag. cbn [skipn app].
    change (str ("."%char :: chars suf)) with (String "."%char (str (chars suf))).
    rewrite str_chars. reflexivity.
  - intros pre c Hpre Hc. unfold ext, sliceFromLastDot. cbn [String.eqb Ascii.eqb Bool.eqb Uri.path Uri.file].
    rewrite chars_app. change (chars (String c "")) with [c].
    rewrite lastIndexOfDot_none
      by (apply Forall_app; split; [exact Hpre|constructor; [exact Hc|constructor]]).
    rewrite length_app. cbn [length].
    replace (length (chars pre) + 1 - 1)%nat with (length (chars pre) + 0)%nat by lia.
    rewrite skipn_app, Nat.add_0_r, skipn_all.
    replace (length (chars pre) - length (chars pre))%nat with 0%nat by lia.
    reflexivity.
Qed.

Lemma preprocessed_extension_witness :
  ext (Uri.file ("/p/src/a" +:+ "." +:+ "cpp")) "file" = ".E." +:+ "cpp" /\
  ext (Uri.file ("/p/Makefil" +:+ String "e"%char "")) "file" = ".E" +:+ String "e"%char "".
Proof.
  split.
  - apply (proj1 preprocessed_extension). vm_compute. repeat constructor.
  - apply (proj2 preprocessed_extension); [vm_compute; repeat constructor|reflexivity].
Defined.

End Extension.

(** ** Registration and reload *)

Section RegistryMore.
Import Js CompileCommands.
Variable env : Env.

Lemma sourceOf_file (entry : CompileCommand.t) :
  sourceOf env entry
  = Uri.file (Path.resolve (cwd env) (CompileCommand.directory entry)
                (CompileCommand.file entry)).
Proof. reflexivity. Qed.

(** What [processCompileCommand] leaves when it returns. *)
Lemma processCompileCommand_Ret (entry : CompileCommand.t) (s s1 : Sys) :
  processCompileCommand env entry s = Ret tt s1 ->
  statics s1 = register env entry (statics s) /\ spawned s1 = spawned s.
Proof.
  intros H. apply retOf_Ret in H. rewrite processCompileCommand_ret in H.
  destruct (ensureOutDir3 env (world s)); [|discriminate].
  injection H as <-. split; reflexivity.
Qed.

(** With the output directory in place [processCompileCommand] returns and
    leaves the world as it was. *)
Lemma processCompileCommand_exists (entry : CompileCommand.t) (s : Sys) (mo : Z) :
  Fs.mtime (world s) (outDir env) = Some mo ->
  processCompileCommand env entry s
  = Ret tt (mkSys (register env entry (statics s)) (world s) (spawned s)).
Proof.
  intros Hout. apply retOf_Ret. rewrite processCompileCommand_ret.
  rewrite (ensureOutDir3_exists env _ mo Hout). reflexivity.
Qed.

(** X7: registering a database entry makes all three of its artifacts
    retrievable.  [processCompileCommand] returns when the output
    directory exists (otherwise it has to make it, which may throw), and
    whenever it returns each source-to-artifact map sends the entry's
    source to the artifact of its kind, and the record map holds under
    that artifact's path a record with the artifact, the source, the
    command synthesized for the kind, the entry's directory and no last
    extra arguments. *)
Theorem processCompileCommand_registers :
  forall (entry : CompileCommand.t) (s : Sys),
  (forall mo : Z,
     Fs.mtime (world s) (outDir env) = Some mo ->
     exists s1 : Sys, processCompileCommand env entry s = Ret tt s1) /\
  forall s1 : Sys,
    processCompileCommand env entry s = Ret tt s1 ->
    let c := CompileCommand.process (cwd env) entry in
    let src := sourceOf env entry in
    let asm := artifactUri env src "disassembly" in
    let llvm := artifactUri env src "llvm" in
    let pre := artifactUri env src "file" in
    asmUriMap (statics s1) !! Uri.path src = Some asm /\
    llvmUriMap (statics s1) !! Uri.path src = Some llvm /\
    preprocessUriMap (statics s1) !! Uri.path src = Some pre /\
    compileCommands (statics s1) !! Uri.path asm
      = Some (CompileInfo.mk asm src
                (CompileCommand.getDisassembleCommand c (Uri.path asm))
                (CompileCommand.directory entry) []) /\
    compileCommands (statics s1) !! Uri.path llvm
      = Some (CompileInfo.mk llvm src
                (CompileCommand.getLLVMDisassembleCommand c (Uri.path llvm))
                (CompileCommand.directory entry) []) /\
    compileCommands (statics s1) !! Uri.path pre
      = Some (CompileInfo.mk pre src
                (CompileCommand.getPreprocessCommand c (Uri.path pre))
                (CompileCommand.directory entry) []).
Proof.
  intros entry s. split.
  { intros mo Hout. eexists. apply (processCompileCommand_exists entry s mo Hout). }
  intros s1 Hret. apply processCompileCommand_Ret in Hret. destruct Hret as [Hst _].
  cbn zeta. rewrite Hst. rewrite sourceOf_file.
  set (p := Path.resolve _ _ _).
  destruct (artifact_paths_distinct env p) as (H1 & H2 & H3).
  cbn [statics register asmUriMap llvmUriMap preprocessUriMap compileCommands].
  change (CompileCommand.uri (CompileCommand.process (cwd env) entry)) with (Uri.file p).
  change (Uri.scheme (Uri.file p)) with "file".
  repeat split; try apply lookup_insert_eq.
  - rewrite lookup_insert_ne by (intros E; apply H2; symmetry; exact E).
    rewrite lookup_insert_ne by (intros E; apply H1; symmetry; exact E).
    apply lookup_insert_eq.
  - rewrite lookup_insert_ne by (intros E; apply H3; symmetry; exact E).
    apply lookup_insert_eq.
Qed.

Lemma register_covered (entry : CompileCommand.t) (st : Statics) :
  covered st -> covered (register env entry st).
Proof.
  intros Hc src u H. unfold register in *.
  cbn [asmUriMap llvmUriMap preprocessUriMap compileCommands] in *.
  rewrite !lookup_insert_is_Some'.
  destruct (decide (Uri.path (CompileCommand.uri
                      (CompileCommand.process (cwd env) entry)) = src)) as [<-|Hne].
  - rewrite !lookup_insert_eq in H.
    destruct H as [H|[H|H]]; injection H as <-; auto.
  - rewrite !lookup_insert_ne in H by exact Hne.
    do 3 right. apply (Hc src u H).
Qed.

Lemma registerStatics_covered (entries : list CompileCommand.t) (st : Statics) :
  covered st -> covered (registerStatics env entries st).
Proof.
  revert st. induction entries as [|entry rest IH]; intros st H; [exact H|].
  cbn [registerStatics]. apply IH. apply register_covered. exact H.
Qed.

(** X8: a load keeps the registry consistent: when every artifact that
    the three source-to-artifact maps hand out has a record before [init],
    the same holds after it, whatever the database contains; so after the
    first load every artifact obtained from a lookup has a record. *)
Theorem init_keeps_covered :
  forall (channel : option (list string)) (s s1 : Sys) (b : bool),
    covered (statics s) ->
    init env channel s = Ret b s1 ->
    covered (statics s1).
Proof.
  intros channel s s1 b Hc H. apply retOf_Ret in H. rewrite init_ret in H.
  destruct (Fs.mtime (world s) (getCompileCommandsPath env)).
  - destruct (database (world s)) as [entries|]; [|discriminate].
    destruct (loaded env channel entries s) as [s2|] eqn:E; [|discriminate].
    injection H as _ <-. apply loaded_Some in E. destruct E as (Hst & _).
    pose proof (registerStatics_covered entries (statics s) Hc) as Hcov.
    intros src u Hu. rewrite Hst in Hu |- *. apply (Hcov src u). exact Hu.
  - injection H as _ <-. exact Hc.
Qed.

End RegistryMore.

(** The entry of the scenario is registered, whether the output directory
    is there already or is made on the way. *)
Lemma processCompileCommand_registers_witness :
  (exists s1 : Sys,
     CompileCommands.processCompileCommand (host 0 "") entryP6
       (mkSys fresh (touch "/out/" (worldP6 3 5 10)) []) = Ret tt s1) /\
  exists s1 : Sys,
    CompileCommands.processCompileCommand (host 0 "") entryP6
      (mkSys fresh (worldP6 3 5 10) []) = Ret tt s1 /\
    asmUriMap (statics s1) !! "/p/a.c" = Some asmUriP6.
Proof.
  split.
  - apply (proj1 (processCompileCommand_registers (host 0 "") entryP6
                    (mkSys fresh (touch "/out/" (worldP6 3 5 10)) [])) 10%Z).
    vm_compute. reflexivity.
  - assert (H : CompileCommands.processCompileCommand (host 0 "") entryP6
                  (mkSys fresh (worldP6 3 5 10) [])
                = Ret tt (stateOf (CompileCommands.processCompileCommand (host 0 "") entryP6
                                     (mkSys fresh (worldP6 3 5 10) []))))
      by (vm_compute; reflexivity).
    eexists. split; [exact H|].
    destruct (proj2 (processCompileCommand_registers (host 0 "") entryP6
                       (mkSys fresh (worldP6 3 5 10) [])) _ H) as (Hasm & _).
    exact Hasm.
Defined.

Lemma init_keeps_covered_witness :
  covered (statics loadedP6).
Proof.
  apply (init_keeps_covered (host 0 "") (Some []) (mkSys fresh (worldP6 3 5 10) [])
           loadedP6 true).
  - intros src u [H|[H|H]]; vm_compute in H; discriminate H.
  - vm_compute. reflexivity.
Defined.

(** ** What a reload keeps and what it drops *)

Section Reload.
Import Js CompileCommands.
Variable env : Env.

Lemma registerStatics_records_other (k : string) (entries : list CompileCommand.t)
    (st : Statics) :
  (forall e : CompileCommand.t, In e entries -> ~ In k (artifactsOf env e)) ->
  compileCommands (registerStatics env entries st) !! k = compileCommands st !! k.
Proof.
  revert st. induction entries as [|entry rest IH]; intros st H; [reflexivity|].
  cbn [registerStatics]. rewrite IH by (intros e He; apply H; right; exact He).
  specialize (H entry (or_introl eq_refl)). unfold artifactsOf, sourceOf in H.
  cbn [register compileCommands].
  rewrite !lookup_insert_ne; [reflexivity|..]; intros E; apply H; rewrite <- E; cbn; auto.
Qed.

Lemma registerStatics_maps_other (src : string) (entries : list CompileCommand.t)
    (st : Statics) :
  (forall e : CompileCommand.t, In e entries -> Uri.path (sourceOf env e) <> src) ->
  asmUriMap (registerStatics env entries st) !! src = asmUriMap st !! src /\
  llvmUriMap (registerStatics env entries st) !! src = llvmUriMap st !! src /\
  preprocessUriMap (registerStatics env entries st) !! src = preprocessUriMap st !! src.
Proof.
  revert st. induction entries as [|entry rest IH]; intros st H; [repeat split|].
  cbn [registerStatics].
  destruct (IH (register env entry st)) as (Ha & Hl & Hp);
    [intros e He; apply H; right; exact He|].
  rewrite Ha, Hl, Hp. specialize (H entry (or_introl eq_refl)). unfold sourceOf in H.
  cbn [register asmUriMap llvmUriMap preprocessUriMap].
  rewrite !lookup_insert_ne by exact H. repeat split.
Qed.

Lemma registerStatics_extraArgs (entries : list CompileCommand.t) (st : Statics) :
  extraArgs (registerStatics env entries st) = extraArgs st.
Proof.
  revert st. induction entries as [|entry rest IH]; intros st; [reflexivity|].
  cbn [registerStatics]. rewrite IH. reflexivity.
Qed.

Lemma registerStatics_fresh_args (entries : list CompileCommand.t) (st : Statics) :
  (forall (k : string) (ci : CompileInfo.t),
     compileCommands st !! k = Some ci -> CompileInfo.extraArgs ci = []) ->
  forall (k : string) (ci : CompileInfo.t),
    compileCommands (registerStatics env entries st) !! k = Some ci ->
    CompileInfo.extraArgs ci = [].
Proof.
  revert st. induction entries as [|entry rest IH]; intros st H; [exact H|].
  cbn [registerStatics]. apply IH. intros k ci. cbn [register compileCommands].
  rewrite !lookup_insert_Some.
  intros [[_ <-]|[_ [[_ <-]|[_ [[_ <-]|[_ Hk]]]]]]; try reflexivity.
  apply (H k ci Hk).
Qed.

(** X9: a reload does not forget a source that has left the database.
    When the database is reloaded and no entry of it resolves to a source
    that was registered before, nor names its artifact, [getAsmUri] still
    hands out the old artifact for that source, while [compile] on that
    artifact returns [false] and [getSrcUri] on it finds nothing: the
    source-to-artifact maps are not cleared with the records.  (The
    reload is one that goes through: the output directory exists or can be
    made.) *)
Theorem reload_keeps_removed_source :
  forall (src u : Uri.t) (s : Sys) (md : Z) (entries : list CompileCommand.t),
    reloadDue env s = Some true ->
    Fs.mtime (world s) (getCompileCommandsPath env) = Some md ->
    database (world s) = Some entries ->
    is_Some (loaded env (errorChannel (statics s)) entries (withRecords ∅ s)) ->
    asmUriMap (statics s) !! Uri.path src = Some u ->
    (forall e : CompileCommand.t, In e entries ->
       Uri.path (sourceOf env e) <> Uri.path src) ->
    (forall e : CompileCommand.t, In e entries -> ~ In (Uri.path u) (artifactsOf env e)) ->
    exists s1 : Sys,
      getAsmUri env src s = Ret (Some u) s1 /\
      compile env u s = Ret CFalse s1 /\
      getSrcUri env u s = Ret None s1.
Proof.
  intros src u s md entries Hdue Hdb Hparse [s1 Hload] Hu Hsrc Hart.
  pose proof (proj2 (update_loaded env s s1 md entries Hdue Hdb Hparse) Hload) as Hup.
  apply loaded_Some in Hload. destruct Hload as (Hst & _).
  exists s1. split; [|split].
  - unfold getAsmUri, bind. rewrite Hup. unfold gets. f_equal.
    rewrite Hst. cbn [setInitTime setErrorChannel asmUriMap].
    rewrite (proj1 (registerStatics_maps_other (Uri.path src) entries _ Hsrc)). exact Hu.
  - rewrite (compile_after_update env u s _ Hup).
    rewrite Hst. cbn [setInitTime setErrorChannel compileCommands].
    rewrite (registerStatics_records_other (Uri.path u) entries _ Hart). reflexivity.
  - unfold getSrcUri, bind. rewrite Hup. unfold gets. f_equal.
    rewrite Hst. cbn [setInitTime setErrorChannel compileCommands].
    rewrite (registerStatics_records_other (Uri.path u) entries _ Hart). reflexivity.
Qed.

(** X10: without a database file nothing is loaded and nothing throws:
    [init] returns [false] and changes nothing, and while no load has
    succeeded every [compile] returns [false], leaving the record map
    empty and starting no process. *)
Theorem no_database_no_records :
  forall (channel : option (list string)) (uri : Uri.t) (s : Sys),
    Fs.mtime (world s) (getCompileCommandsPath env) = None ->
    init env channel s = Ret false s /\
    (initTime (statics s) = None ->
     compile env uri s = Ret CFalse (withRecords ∅ s) /\
     getAsmUri env uri s
       = Ret (asmUriMap (statics s) !! Uri.path uri) (withRecords ∅ s)).
Proof.
  intros channel uri s Hdb.
  assert (Hinit : forall ch s0, world s0 = world s -> init env ch s0 = Ret false s0).
  { intros ch s0 Hw. apply init_missing. rewrite Hw. exact Hdb. }
  split; [apply Hinit; reflexivity|].
  intros Ht.
  assert (Hup : update env s = Ret tt (withRecords ∅ s)).
  { rewrite update_eq. unfold reloadDue. rewrite Ht. unfold bind.
    rewrite Hinit by reflexivity. reflexivity. }
  split.
  - rewrite (compile_after_update env uri s _ Hup). reflexivity.
  - unfold getAsmUri, bind. rewrite Hup. reflexivity.
Qed.

(** X11: a database that cannot be parsed wipes the records.  When a
    reload is due and the database file exists but reading or
    deserializing it throws, [compile] throws that exception after the
    record map has been emptied; the load time is not advanced, so the
    reload is still due and the next [compile] throws again. *)
Theorem unparsable_database_wipes_records :
  forall (uri : Uri.t) (s : Sys) (md : Z),
    reloadDue env s = Some true ->
    Fs.mtime (world s) (getCompileCommandsPath env) = Some md ->
    database (world s) = None ->
    compile env uri s = Throw parseError (withRecords ∅ s) /\
    compileCommands (statics (withRecords ∅ s)) = ∅ /\
    reloadDue env (withRecords ∅ s) = Some true /\
    compile env uri (withRecords ∅ s) = Throw parseError (withRecords ∅ s).
Proof.
  intros uri s md Hdue Hdb Hparse.
  assert (Hup : forall s0, reloadDue env s0 = Some true -> world s0 = world s ->
                           withRecords ∅ s0 = withRecords ∅ s ->
                           update env s0 = Throw parseError (withRecords ∅ s)).
  { intros s0 Hd Hw Hs. rewrite update_eq, Hd. unfold bind.
    rewrite (init_unparsable env _ (withRecords ∅ s0) md)
      by (cbn [withRecords setStatics world]; rewrite Hw; assumption).
    rewrite Hs. reflexivity. }
  split; [|split; [|split]].
  - apply compile_throws, Hup; [exact Hdue|reflexivity..].
  - reflexivity.
  - exact Hdue.
  - apply compile_throws, Hup; [exact Hdue|reflexivity..].
Qed.

(** X12: changed extra arguments force a build without looking at any
    file: whenever the current extra arguments differ from a record's last
    ones, [needCompilation] returns [true], even if the source file, the
    artifact or the database is missing; so [compile], past the reload
    check and with the error channel defined, runs the build and the
    demangling pass. *)
Theorem changed_args_force_build :
  forall (uri : Uri.t) (ci : CompileInfo.t) (s : Sys),
    extraArgs (statics s) <> CompileInfo.extraArgs ci ->
    needCompilation env ci s = Ret true s /\
    (reloadDue env s = Some false ->
     compileCommands (statics s) !! Uri.path uri = Some ci ->
     is_Some (errorChannel (statics s)) ->
     exists (r : CompileResult) (s1 : Sys),
       compile env uri s = Ret r s1 /\
       spawned s1 =
         spawned s ++
         [(buildCommand ci s, CompileInfo.compilationDirectory ci);
          (filtcmd (Uri.fsPath (CompileInfo.uri ci)),
           CompileInfo.compilationDirectory ci)]).
Proof.
  intros uri ci s Hne.
  assert (Hneed : needCompilation env ci s = Ret true s).
  { unfold needCompilation, bind, gets, CompileInfo.extraArgsChanged.
    destruct (arrayEquals (extraArgs (statics s)) (CompileInfo.extraArgs ci)) eqn:E;
      [|reflexivity].
    apply arrayEquals_eq in E. contradiction. }
  split; [exact Hneed|].
  intros Hdue Hrec [lines Hch]. eexists _, _.
  rewrite (compile_after_update env uri s s (update_noop env s Hdue)), Hrec.
  unfold bind. rewrite Hneed.
  split; [apply (execCompileCommand_eq env _ _ _ lines Hch)|reflexivity].
Qed.

(** X13: a reload forgets which extra arguments the artifacts were built
    with: after a reload that goes through every record has empty last
    extra arguments.  Hence, while the user's extra arguments are not
    empty and the error channel is defined, the first request for any
    registered artifact after a database reload runs a build, however
    fresh the artifact file is. *)
Theorem reload_resets_last_args :
  forall (s : Sys) (md : Z) (entries : list CompileCommand.t),
    reloadDue env s = Some true ->
    Fs.mtime (world s) (getCompileCommandsPath env) = Some md ->
    database (world s) = Some entries ->
    is_Some (loaded env (errorChannel (statics s)) entries (withRecords ∅ s)) ->
    exists s1 : Sys,
      update env s = Ret tt s1 /\
      (forall (k : string) (ci : CompileInfo.t),
         compileCommands (statics s1) !! k = Some ci -> CompileInfo.extraArgs ci = []) /\
      (extraArgs (statics s) <> [] ->
       is_Some (errorChannel (statics s)) ->
       forall (uri : Uri.t) (ci : CompileInfo.t),
         compileCommands (statics s1) !! Uri.path uri = Some ci ->
         exists (r : CompileResult) (s2 : Sys),
           compile env uri s = Ret r s2 /\
           spawned s2 =
             spawned s ++
             [(buildCommand ci s, CompileInfo.compilationDirectory ci);
              (filtcmd (Uri.fsPath (CompileInfo.uri ci)),
               CompileInfo.compilationDirectory ci)]).
Proof.
  intros s md entries Hdue Hdb Hparse [s1 Hload].
  pose proof (proj2 (update_loaded env s s1 md entries Hdue Hdb Hparse) Hload) as Hup.
  apply loaded_Some in Hload. destruct Hload as (Hst & Hsp & _).
  assert (Hargs : forall k ci, compileCommands (statics s1) !! k = Some ci ->
                               CompileInfo.extraArgs ci = []).
  { intros k ci. rewrite Hst. cbn [setInitTime setErrorChannel compileCommands].
    apply registerStatics_fresh_args. intros k' ci'.
    cbn [withRecords setStatics statics setCompileCommands compileCommands].
    rewrite lookup_empty. discriminate. }
  assert (Hextra : extraArgs (statics s1) = extraArgs (statics s)).
  { rewrite Hst. cbn [setInitTime setErrorChannel extraArgs].
    rewrite registerStatics_extraArgs. reflexivity. }
  assert (Hchan : errorChannel (statics s1) = errorChannel (statics s)).
  { rewrite Hst. reflexivity. }
  exists s1. split; [exact Hup|]. split; [exact Hargs|].
  intros Hne [lines Hch] uri ci Hrec. eexists _, _.
  rewrite (compile_after_update env uri s s1 Hup), Hrec.
  unfold bind, needCompilation, bind, gets, CompileInfo.extraArgsChanged.
  rewrite (Hargs _ _ Hrec), Hextra.
  destruct (arrayEquals (extraArgs (statics s)) []) eqn:E;
    [apply arrayEquals_eq in E; contradiction|].
  cbn [negb]. rewrite Hch in Hchan.
  split; [apply (execCompileCommand_eq env _ _ _ lines Hchan)|].
  cbn [spawned]. unfold buildCommand. rewrite Hsp, Hextra. reflexivity.
Qed.

(** X14: a load is quiet.  Whenever [init] returns, it has started no
    process and has left the user's extra arguments, the clock and the
    content of the database alone; and when the output directory already
    exists it has left the whole world as it was, so that loading makes no
    artifact look fresher or staler than it was. *)
Theorem init_is_quiet :
  forall (channel : option (list string)) (s s1 : Sys) (b : bool),
    init env channel s = Ret b s1 ->
    spawned s1 = spawned s /\
    extraArgs (statics s1) = extraArgs (statics s) /\
    now (world s1) = now (world s) /\
    database (world s1) = database (world s) /\
    forall mo : Z, Fs.mtime (world s) (outDir env) = Some mo -> world s1 = world s.
Proof.
  intros channel s s1 b H. apply retOf_Ret in H. rewrite init_ret in H.
  destruct (Fs.mtime (world s) (getCompileCommandsPath env)).
  - destruct (database (world s)) as [entries|] eqn:Edb; [|discriminate].
    destruct (loaded env channel entries s) as [s2|] eqn:E; [|discriminate].
    injection H as _ <-.
    pose proof (loaded_Some env channel entries s s2 E) as (Hst & Hsp & Hnow & Hdb).
    rewrite Edb in Hdb.
    split; [exact Hsp|]. split.
    { rewrite Hst. cbn [setInitTime setErrorChannel extraArgs].
      apply registerStatics_extraArgs. }
    split; [exact Hnow|]. split; [exact Hdb|].
    intros mo Hout. rewrite (loaded_exists env channel entries s mo Hout) in E.
    injection E as <-. reflexivity.
  - injection H as _ <-. repeat split.
Qed.

End Reload.

(** ** Instances of the reload properties *)

Section ReloadInstances.
Import CompileCommands.

Lemma reload_keeps_removed_source_witness :
  exists s1 : Sys,
    getAsmUri (host 0 "") (Uri.file "/p/old.c") removedSourceP6
      = Ret (Some (Uri.mk "disassembly" "/out/old.c.s")) s1 /\
    compile (host 0 "") (Uri.mk "disassembly" "/out/old.c.s") removedSourceP6
      = Ret CFalse s1 /\
    getSrcUri (host 0 "") (Uri.mk "disassembly" "/out/old.c.s") removedSourceP6
      = Ret None s1.
Proof.
  apply (reload_keeps_removed_source (host 0 "") (Uri.file "/p/old.c")
           (Uri.mk "disassembly" "/out/old.c.s") removedSourceP6 5%Z [entryP6]);
    try (vm_compute; reflexivity).
  - eexists. vm_compute. reflexivity.
  - intros e [<-|[]]. vm_compute. discriminate.
  - intros e [<-|[]]. vm_compute. intros [H|[H|[H|[]]]]; discriminate H.
Defined.

Lemma no_database_no_records_witness :
  init (host 0 "") (Some []) (mkSys fresh (deleteFile "/p/compile_commands.json" (worldP6 3 5 10)) [])
    = Ret false (mkSys fresh (deleteFile "/p/compile_commands.json" (worldP6 3 5 10)) []) /\
  compile (host 0 "") asmUriP6
    (mkSys fresh (deleteFile "/p/compile_commands.json" (worldP6 3 5 10)) [])
    = Ret CFalse (mkSys fresh (deleteFile "/p/compile_commands.json" (worldP6 3 5 10)) []).
Proof.
  destruct (no_database_no_records (host 0 "") (Some []) asmUriP6
              (mkSys fresh (deleteFile "/p/compile_commands.json" (worldP6 3 5 10)) []))
    as [Hinit Hcompile]; [vm_compute; reflexivity|].
  split; [exact Hinit|]. apply Hcompile. reflexivity.
Defined.

Lemma unparsable_database_wipes_records_witness :
  compile (host 0 "") asmUriP6
    (mkSys (statics removedSourceP6) brokenWorldP6 [])
    = Throw parseError (withRecords ∅ (mkSys (statics removedSourceP6) brokenWorldP6 [])).
Proof.
  apply (unparsable_database_wipes_records (host 0 "") asmUriP6
           (mkSys (statics removedSourceP6) brokenWorldP6 []) 5%Z);
    vm_compute; reflexivity.
Defined.

Lemma changed_args_force_build_witness :
  needCompilation (host 0 "") recordP6
    (stateOf (setExtraCompileArgs ["-O2"] (setWorld (deleteFile "/p/a.c") loadedP6)))
    = Ret true (stateOf (setExtraCompileArgs ["-O2"] (setWorld (deleteFile "/p/a.c") loadedP6))).
Proof.
  apply (changed_args_force_build (host 0 "") asmUriP6 recordP6).
  vm_compute. discriminate.
Defined.

Lemma reload_resets_last_args_witness :
  exists s1 : Sys,
    update (host 0 "") (stateOf (setExtraCompileArgs ["-O2"] staleP6)) = Ret tt s1 /\
    exists (r : CompileResult) (s2 : Sys),
      compile (host 0 "") asmUriP6 (stateOf (setExtraCompileArgs ["-O2"] staleP6))
        = Ret r s2 /\
      length (spawned s2) = 2%nat.
Proof.
  pose proof (reload_resets_last_args (host 0 "")
                (stateOf (setExtraCompileArgs ["-O2"] staleP6)) 5%Z [entryP6]) as H.
  repeat match type of H with
         | ?A -> _ =>
             let h := fresh in
             assert (h : A)
               by first [ vm_compute; reflexivity | eexists; vm_compute; reflexivity ];
             specialize (H h); clear h
         end.
  destruct H as (s1 & Hup & _ & Hbuild).
  exists s1. split; [exact Hup|].
  vm_compute in Hup. injection Hup as <-.
  assert (Hne : extraArgs (statics (stateOf (setExtraCompileArgs ["-O2"] staleP6))) <> [])
    by (vm_compute; discriminate).
  assert (Hch : is_Some (errorChannel
                           (statics (stateOf (setExtraCompileArgs ["-O2"] staleP6)))))
    by (exists []; vm_compute; reflexivity).
  destruct (Hbuild Hne Hch asmUriP6 recordP6) as (r & s2 & Hc & Hsp);
    [vm_compute; reflexivity|].
  exists r, s2. split; [exact Hc|].
  rewrite Hsp. vm_compute. reflexivity.
Defined.

(** The load of the scenario starts no process; with the output directory
    already there it leaves the world as it was. *)
Lemma init_is_quiet_witness :
  spawned loadedP6 = [] /\
  extraArgs (statics loadedP6) = [] /\
  now (world loadedP6) = 10%Z /\
  exists s1 : Sys,
    init (host 0 "") (Some []) (mkSys fresh (touch "/out/" (worldP6 3 5 10)) [])
      = Ret true s1 /\
    world s1 = touch "/out/" (worldP6 3 5 10).
Proof.
  destruct (init_is_quiet (host 0 "") (Some []) (mkSys fresh (worldP6 3 5 10) [])
              loadedP6 true)
    as (Hsp & Hargs & Hnow & _); [vm_compute; reflexivity|].
  split; [exact Hsp|]. split; [exact Hargs|]. split; [exact Hnow|].
  assert (Hinit : init (host 0 "") (Some []) (mkSys fresh (touch "/out/" (worldP6 3 5 10)) [])
                  = Ret true (stateOf (init (host 0 "") (Some [])
                                         (mkSys fresh (touch "/out/" (worldP6 3 5 10)) []))))
    by (vm_compute; reflexivity).
  eexists. split; [exact Hinit|].
  destruct (init_is_quiet (host 0 "") (Some []) _ _ true Hinit) as (_ & _ & _ & _ & Hworld).
  apply (Hworld 10%Z). vm_compute. reflexivity.
Defined.

End ReloadInstances.

(** ** The extra arguments typed by the user *)

Section ExtraArgsInput.
Import Js Extension.

Lemma str_app (a b : list ascii) : str (a ++ b) = str a +:+ str b.
Proof.
  induction a as [|c a IH]; [reflexivity|].
  change (str ((c :: a) ++ b)) with (String c (str (a ++ b))).
  change (str (c :: a)) with (String c (str a)).
  rewrite append_cons, IH. reflexivity.
Qed.

Lemma splitAcc_nonempty (sep : ascii) (l cur : list ascii) : splitAcc sep cur l <> [].
Proof.
  revert cur. induction l as [|c l IH]; intros cur; cbn [splitAcc]; [discriminate|].
  destruct (Ascii.eqb c sep); [discriminate|apply IH].
Qed.

Lemma join_splitAcc (l cur : list ascii) :
  join " " (splitAcc " "%char cur l) = str (rev cur ++ l).
Proof.
  revert cur. induction l as [|c l IH]; intros cur; cbn [splitAcc].
  - rewrite app_nil_r. reflexivity.
  - destruct (Ascii.eqb_spec c " "%char) as [->|Hc].
    + pose proof (splitAcc_nonempty " "%char l []) as Hne.
      specialize (IH []). cbn [rev app] in IH.
      destruct (splitAcc " "%char [] l) as [|x rest]; [contradiction|].
      change (join " " (str (rev cur) :: x :: rest))
        with (str (rev cur) +:+ " " +:+ join " " (x :: rest)).
      rewrite IH, str_app. reflexivity.
    + rewrite IH. cbn [rev]. rewrite <- app_assoc. reflexivity.
Qed.

(** X15: what the user types comes back unchanged.  After a non-empty
    input has been split at its spaces and stored by the handler of the
    input box, [getExtraCompileArgs], which pre-fills the box the next
    time, returns exactly the text typed; an empty or dismissed input
    changes nothing, so the stored extra arguments cannot be cleared this
    way. *)
Theorem extra_args_input_round_trip :
  (forall (input : string) (s : Sys),
     input <> "" ->
     exists s1 : Sys,
       onExtraArgsInput (Some input) s = Ret tt s1 /\
       extraArgs (statics s1) = split " "%char input /\
       CompileCommands.getExtraCompileArgs s1 = Ret input s1) /\
  (forall s : Sys,
     onExtraArgsInput (Some "") s = Ret tt s /\ onExtraArgsInput None s = Ret tt s).
Proof.
  split; [|intros s; split; reflexivity].
  intros input s Hne. apply String.eqb_neq in Hne.
  eexists. unfold onExtraArgsInput. rewrite Hne.
  split; [reflexivity|]. split; [reflexivity|].
  unfold CompileCommands.getExtraCompileArgs, gets. f_equal.
  cbn [statics setStatics setExtraArgs extraArgs]. unfold split.
  rewrite join_splitAcc. apply str_chars.
Qed.

Lemma extra_args_input_round_trip_witness :
  exists s1 : Sys,
    onExtraArgsInput (Some "-O2  -march=native") loadedP6 = Ret tt s1 /\
    extraArgs (statics s1) = ["-O2"; ""; "-march=native"] /\
    CompileCommands.getExtraCompileArgs s1 = Ret "-O2  -march=native" s1.
Proof.
  apply (proj1 extra_args_input_round_trip). discriminate.
Defined.

End ExtraArgsInput.

(** ** The document cache of the provider *)

Section Provider.
Import AsmProvider.
Variable env : Env.
Variable toString : Uri.t -> string.

Lemma provideAsmDocument_hit (uri : Uri.t) (p : t) (s : Sys) (d : AsmDocument.t) :
  _documents p !! toString uri = Some d ->
  provideAsmDocument env toString uri p s = PRet d p s.
Proof. intros H. unfold provideAsmDocument. rewrite H. reflexivity. Qed.

(** X16: a document is built once.  When [provideAsmDocument] has
    returned a document for a URI, asking again returns the same document
    and changes neither the provider nor the system: no reload check, no
    staleness test and no build take place, so a cached document is served
    as it is until a watcher or an argument change reloads it. *)
Theorem provideAsmDocument_caches :
  forall (uri : Uri.t) (p p1 : t) (s s1 : Sys) (d : AsmDocument.t),
    provideAsmDocument env toString uri p s = PRet d p1 s1 ->
    provideAsmDocument env toString uri p1 s1 = PRet d p1 s1 /\
    provideTextDocumentContent env toString uri p1 s1 = PRet (AsmDocument.value d) p1 s1.
Proof.
  intros uri p p1 s s1 d H.
  assert (Hhit : _documents p1 !! toString uri = Some d).
  { unfold provideAsmDocument in H.
    destruct (_documents p !! toString uri) as [d0|] eqn:E.
    - injection H as <- <- <-. exact E.
    - unfold pbind at 1, lift in H.
      destruct (AsmDocument.new env uri s) as [d0 s0|e s0]; [|discriminate].
      unfold pbind at 1, pmodify in H. unfold pbind at 1, lift in H.
      destruct (CompileCommands.getSrcUri env uri s0) as [[src|] s2|e s2];
        [|discriminate|discriminate].
      cbn in H. injection H as <- <- <-. cbn. apply lookup_insert_eq. }
  split.
  - apply provideAsmDocument_hit. exact Hhit.
  - unfold provideTextDocumentContent, pbind.
    rewrite (provideAsmDocument_hit uri p1 s1 d Hhit). reflexivity.
Qed.

(** X17: the first request for an artifact without a record throws, the
    next ones do not.  With no reload due and no record for the URI, the
    provider builds the failed document and caches it, then throws a
    TypeError when it reads the path of the missing source to watch it; no
    watcher is installed.  A second request finds the cached document and
    renders it as [Failed to compile.]. *)
Theorem provideAsmDocument_unknown_artifact :
  forall (uri : Uri.t) (p : t) (s : Sys),
    _documents p !! toString uri = None ->
    reloadDue env s = Some false ->
    compileCommands (statics s) !! Uri.path uri = None ->
    let p1 := setDocument (toString uri) (AsmDocument.mk [] CFalse) p in
    provideAsmDocument env toString uri p s = PThrow typeError p1 s /\
    _watchers p1 = _watchers p /\
    provideAsmDocument env toString uri p1 s = PRet (AsmDocument.mk [] CFalse) p1 s /\
    provideTextDocumentContent env toString uri p1 s = PRet "Failed to compile." p1 s.
Proof.
  intros uri p s Hmiss Hdue Hrec p1.
  assert (Hnew : AsmDocument.new env uri s = Ret (AsmDocument.mk [] CFalse) s).
  { unfold AsmDocument.new, bind.
    rewrite (compile_after_update env uri s s (update_noop env s Hdue)), Hrec.
    reflexivity. }
  assert (Hsrc : CompileCommands.getSrcUri env uri s = Ret None s).
  { unfold CompileCommands.getSrcUri, bind, gets.
    rewrite (update_noop env s Hdue), Hrec. reflexivity. }
  assert (Hhit : _documents p1 !! toString uri = Some (AsmDocument.mk [] CFalse))
    by apply lookup_insert_eq.
  split; [|split; [|split]].
  - unfold provideAsmDocument. rewrite Hmiss.
    unfold pbind at 1, lift. rewrite Hnew.
    unfold pbind at 1, pmodify. unfold pbind at 1, lift. rewrite Hsrc. reflexivity.
  - reflexivity.
  - apply provideAsmDocument_hit. exact Hhit.
  - unfold provideTextDocumentContent, pbind.
    rewrite (provideAsmDocument_hit uri p1 s _ Hhit). reflexivity.
Qed.

(** X18: a reload replaces the cached document.  [reloadAsmDocument]
    builds a new document for the URI it is given, taken with the scheme
    [disassembly] whatever its own scheme is, stores it under that URI,
    fires the change event for it once, and later requests for that URI
    are served the new document. *)
Theorem reloadAsmDocument_replaces :
  forall (fileUri : Uri.t) (p p1 : t) (s s1 : Sys),
    reloadAsmDocument env toString fileUri p s = PRet tt p1 s1 ->
    let uri := Uri.mk "disassembly" (Uri.path fileUri) in
    exists d : AsmDocument.t,
      AsmDocument.new env uri s = Ret d s1 /\
      _documents p1 = <[toString uri := d]> (_documents p) /\
      fired p1 = fired p ++ [uri] /\
      _watchers p1 = _watchers p /\
      provideAsmDocument env toString uri p1 s1 = PRet d p1 s1.
Proof.
  intros fileUri p p1 s s1 H uri.
  unfold reloadAsmDocument, pbind, lift, pmodify in H.
  change (Uri.with_ fileUri scheme (Uri.path fileUri)) with uri in H.
  destruct (AsmDocument.new env uri s) as [d s0|e s0]; [|discriminate].
  injection H as <- <-. exists d.
  split; [reflexivity|]. split; [reflexivity|]. split; [reflexivity|].
  split; [reflexivity|].
  apply provideAsmDocument_hit. apply lookup_insert_eq.
Qed.

End Provider.

Section ProviderInstances.
Import AsmProvider.

Lemma provideAsmDocument_caches_witness :
  exists (d : AsmDocument.t) (p1 : t) (s1 : Sys),
    provideAsmDocument (host 0 "") showUri asmUriP6 emptyProvider
      (setWorld (fun w => mkWorld (mtimes w) (database w) {[ "/out/a.c.s" := [] ]} (now w))
         loadedP6)
      = PRet d p1 s1 /\
    provideAsmDocument (host 0 "") showUri asmUriP6 p1 s1 = PRet d p1 s1.
Proof.
  assert (H : exists (d : AsmDocument.t) (p1 : t) (s1 : Sys),
            provideAsmDocument (host 0 "") showUri asmUriP6 emptyProvider
              (setWorld (fun w => mkWorld (mtimes w) (database w)
                                    {[ "/out/a.c.s" := [] ]} (now w)) loadedP6)
            = PRet d p1 s1)
    by (eexists _, _, _; vm_compute; reflexivity).
  destruct H as (d & p1 & s1 & H). exists d, p1, s1. split; [exact H|].
  apply (provideAsmDocument_caches (host 0 "") showUri asmUriP6 _ p1 _ s1 d H).
Defined.

Lemma provideAsmDocument_unknown_artifact_witness :
  provideAsmDocument (host 0 "") showUri (Uri.mk "disassembly" "/out/b.c.s")
    emptyProvider loadedP6
    = PThrow typeError
        (setDocument "disassembly:///out/b.c.s" (AsmDocument.mk [] CFalse) emptyProvider)
        loadedP6 /\
  provideTextDocumentContent (host 0 "") showUri (Uri.mk "disassembly" "/out/b.c.s")
    (setDocument "disassembly:///out/b.c.s" (AsmDocument.mk [] CFalse) emptyProvider)
    loadedP6
    = PRet "Failed to compile."
        (setDocument "disassembly:///out/b.c.s" (AsmDocument.mk [] CFalse) emptyProvider)
        loadedP6.
Proof.
  destruct (provideAsmDocument_unknown_artifact (host 0 "") showUri
              (Uri.mk "disassembly" "/out/b.c.s") emptyProvider loadedP6)
    as (H1 & _ & _ & H2); try (vm_compute; reflexivity).
  split; [exact H1|exact H2].
Defined.

Lemma reloadAsmDocument_replaces_witness :
  exists (d : AsmDocument.t) (p1 : t) (s1 : Sys),
    reloadAsmDocument (host 1 "cc: error") showUri (Uri.file "/out/a.c.s")
      emptyProvider loadedP6 = PRet tt p1 s1 /\
    fired p1 = [asmUriP6] /\
    provideAsmDocument (host 1 "cc: error") showUri asmUriP6 p1 s1 = PRet d p1 s1.
Proof.
  assert (H : exists (p1 : t) (s1 : Sys),
            reloadAsmDocument (host 1 "cc: error") showUri (Uri.file "/out/a.c.s")
              emptyProvider loadedP6 = PRet tt p1 s1)
    by (eexists _, _; vm_compute; reflexivity).
  destruct H as (p1 & s1 & H).
  destruct (reloadAsmDocument_replaces (host 1 "cc: error") showUri
              (Uri.file "/out/a.c.s") emptyProvider p1 loadedP6 s1 H)
    as (d & _ & _ & Hfired & _ & Hserve).
  exists d, p1, s1. split; [exact H|]. split; [exact Hfired|exact Hserve].
Defined.

End ProviderInstances.

(** ** More on requests and commands *)

Section RequestsMore.
Import Js CompileCommands AsmProvider.
Variable env : Env.
Variable toString : Uri.t -> string.

(** X19: once the database file is gone after a successful load, the
    provider cannot build any document: a request for an uncached URI and
    every reload, the one triggered by the deletion included, throw from
    the reload check and leave the provider as it was, with nothing cached
    and no change event fired. *)
Theorem provider_throws_without_database :
  forall (uri : Uri.t) (p : t) (s : Sys),
    reloadDue env s = None ->
    (_documents p !! toString uri = None ->
     provideAsmDocument env toString uri p s = PThrow enoent p s) /\
    reloadAsmDocument env toString uri p s = PThrow enoent p s.
Proof.
  intros uri p s Hdue.
  assert (Hnew : forall u, AsmDocument.new env u s = Throw enoent s).
  { intros u. unfold AsmDocument.new, bind.
    rewrite (compile_throws env u s s enoent (update_throws env s Hdue)). reflexivity. }
  split.
  - intros Hmiss. unfold provideAsmDocument. rewrite Hmiss.
    unfold pbind at 1, lift. rewrite Hnew. reflexivity.
  - unfold reloadAsmDocument, pbind at 1, lift. rewrite Hnew. reflexivity.
Qed.

(** X20: a failed build is reported once.  When a stale artifact is
    requested with unchanged extra arguments and a defined error channel,
    and its build fails, [compile] returns the error text; but if the
    processes have left an
    artifact file no older than the source and the database, as the
    demangling pass does when it redirects its output into that file, the
    next request finds nothing stale and returns [true] without building
    again. *)
Theorem failed_build_reported_once :
  forall (uri : Uri.t) (ci : CompileInfo.t) (s : Sys) (ms md ma : Z),
    reloadDue env s = Some false ->
    compileCommands (statics s) !! Uri.path uri = Some ci ->
    extraArgs (statics s) = CompileInfo.extraArgs ci ->
    needCompilation env ci s = Ret true s ->
    is_Some (errorChannel (statics s)) ->
    failed (fst (buildRun env ci s)) = true ->
    let s1 := stateOf (execCompileCommand env (Uri.path uri) ci s) in
    reloadDue env s1 = Some false ->
    Fs.mtime (world s1) (Uri.path (CompileInfo.srcUri ci)) = Some ms ->
    Fs.mtime (world s1) (getCompileCommandsPath env) = Some md ->
    Fs.mtime (world s1) (Uri.path (CompileInfo.uri ci)) = Some ma ->
    (ms <= ma)%Z ->
    (md <= ma)%Z ->
    compile env uri s = Ret (CError (errorText (fst (buildRun env ci s)))) s1 /\
    compile env uri s1 = Ret CTrue s1 /\
    spawned s1 =
      spawned s ++
      [(buildCommand ci s, CompileInfo.compilationDirectory ci);
       (filtcmd (Uri.fsPath (CompileInfo.uri ci)), CompileInfo.compilationDirectory ci)].
Proof.
  intros uri ci s ms md ma Hdue Hrec Hargs Hneed [lines Hch] Hfail s1 Hdue1 Hsrc Hdb Hart
    Hsa Hda.
  subst s1. rewrite (execCompileCommand_eq env _ _ _ lines Hch), Hfail in *.
  cbn [stateOf] in *.
  split; [|split; [|reflexivity]].
  - rewrite (compile_after_update env uri s s (update_noop env s Hdue)), Hrec.
    unfold bind. rewrite Hneed.
    rewrite (execCompileCommand_eq env _ _ _ lines Hch), Hfail. reflexivity.
  - apply (compile_fresh env uri ci); [exact Hdue1|exact Hrec|].
    cbn [world] in Hsrc, Hdb, Hart.
    erewrite needCompilation_eq; cbn [world statics extraArgs]; [|exact Hsrc|exact Hdb].
    unfold CompileInfo.extraArgsChanged. rewrite Hargs, arrayEquals_refl, Hart.
    replace (ma <? ms)%Z with false by (symmetry; apply Z.ltb_ge; lia).
    replace (ma <? md)%Z with false by (symmetry; apply Z.ltb_ge; lia).
    reflexivity.
Qed.

End RequestsMore.

(** X21: for every CompileCommand and target path the Disassembly command
    is the executable, the six fixed flags, the arguments, each after one
    space, and last the output clause [-o] with the target between double
    quotes. *)
Theorem disassemble_command_shape :
  forall (c : CompileCommand.t) (target : string),
    CompileCommand.getDisassembleCommand c target
    = CompileCommand.command c
      +:+ " -g1 -S -masm=intel -fno-unwind-tables -fno-asynchronous-unwind-tables -fno-dwarf2-cfi-asm"
      +:+ spaced (CompileCommand.args c)
      +:+ " -o " +:+ dq +:+ target +:+ dq.
Proof.
  intros c target. unfold CompileCommand.getDisassembleCommand, CompileCommand.getCommand.
  change ([CompileCommand.command c; "-g1"; "-S"; "-masm=intel"; "-fno-unwind-tables";
           "-fno-asynchronous-unwind-tables"; "-fno-dwarf2-cfi-asm"]
          ++ CompileCommand.args c ++ ["-o"; dq +:+ target +:+ dq])
    with (CompileCommand.command c ::
          (["-g1"; "-S"; "-masm=intel"; "-fno-unwind-tables";
            "-fno-asynchronous-unwind-tables"; "-fno-dwarf2-cfi-asm"]
           ++ CompileCommand.args c ++ ["-o"; dq +:+ target +:+ dq])).
  rewrite join_cons_spaced, !spaced_app.
  cbv beta iota delta [spaced]. rewrite !append_nil_r, !append_assoc. reflexivity.
Qed.

Section RequestsInstances.
Import CompileCommands AsmProvider.

Lemma provider_throws_without_database_witness :
  provideAsmDocument (host 0 "") showUri asmUriP6 emptyProvider
    (setWorld (deleteFile "/p/compile_commands.json") loadedP6)
    = PThrow enoent emptyProvider (setWorld (deleteFile "/p/compile_commands.json") loadedP6) /\
  reloadAsmDocument (host 0 "") showUri asmUriP6 emptyProvider
    (setWorld (deleteFile "/p/compile_commands.json") loadedP6)
    = PThrow enoent emptyProvider (setWorld (deleteFile "/p/compile_commands.json") loadedP6).
Proof.
  destruct (provider_throws_without_database (host 0 "") showUri asmUriP6 emptyProvider
              (setWorld (deleteFile "/p/compile_commands.json") loadedP6))
    as [Hprovide Hreload]; [vm_compute; reflexivity|].
  split; [apply Hprovide; reflexivity|exact Hreload].
Defined.

Lemma failed_build_reported_once_witness :
  exists (msg : string) (s1 : Sys),
    compile (host 1 "cc: error") asmUriP6 loadedP6 = Ret (CError msg) s1 /\
    compile (host 1 "cc: error") asmUriP6 s1 = Ret CTrue s1.
Proof.
  pose proof (failed_build_reported_once (host 1 "cc: error") asmUriP6 recordP6 loadedP6
                3%Z 5%Z 10%Z) as H.
  cbv zeta in H.
  repeat match type of H with
         | ?A -> _ =>
             let h := fresh in
             assert (h : A)
               by first [ vm_compute; first [reflexivity | discriminate]
                        | exists []; vm_compute; reflexivity ];
             specialize (H h); clear h
         end.
  destruct H as (H1 & H2 & _).
  eexists _, _. split; [exact H1|exact H2].
Defined.

End RequestsInstances.
